(** * RADION: the non-blocking buzzer pattern sequencer

    A shallow embedding of [IndustrialBuzzer] from
    [examples/Tft_Buzzer_Buttons/Tft_Buzzer_Buttons.ino] and of the pattern
    tables it plays.  The class is stateful C++: its methods mutate the
    object's fields, read the millisecond clock with [millis()], write to the
    LEDC peripheral with [ledcWriteTone]/[ledcWrite], and read notes through a
    raw [BuzzerNote*].  Methods are therefore embedded in a small monad that
    threads the object, reads the clock, logs the peripheral writes and fails
    on a read outside the pattern array. *)

From Stdlib Require Import ZArith Ascii String List Bool Lia DecimalString.
Import ListNotations.
Open Scope Z_scope.

(** ** Machine integers

    [patternIndex] is a [uint8_t], [noteStartTime] and [millis()] are
    [unsigned long], which is 32 bits wide on the ESP32 the sketch targets. *)

Definition incr8 (i : Z) : Z := (i + 1) mod 2 ^ 8.

Definition sub32 (a b : Z) : Z := (a - b) mod 2 ^ 32.

(** ** Pattern data *)

Definition FREQ_LOW : Z := 800.
Definition FREQ_MEDIUM : Z := 1500.
Definition FREQ_HIGH : Z := 2500.
Definition FREQ_CRITICAL : Z := 3500.

Definition VOLUME_OFF : Z := 0.
Definition VOLUME_LOW : Z := 64.
Definition VOLUME_MEDIUM : Z := 128.
Definition VOLUME_HIGH : Z := 192.
Definition VOLUME_MAX : Z := 255.

(** [struct BuzzerNote { uint16_t frequency; uint16_t duration; uint8_t volume; }] *)
Record BuzzerNote : Type := mkNote {
  frequency : Z;
  duration : Z;
  volume : Z
}.

Definition PATTERN_STARTUP : list BuzzerNote :=
  [ mkNote FREQ_LOW 100 VOLUME_MEDIUM;
    mkNote 0 50 0;
    mkNote FREQ_MEDIUM 100 VOLUME_MEDIUM;
    mkNote 0 50 0;
    mkNote FREQ_HIGH 150 VOLUME_MEDIUM;
    mkNote 0 0 0 ].

Definition PATTERN_WARNING : list BuzzerNote :=
  [ mkNote FREQ_MEDIUM 200 VOLUME_HIGH;
    mkNote 0 100 0;
    mkNote FREQ_MEDIUM 200 VOLUME_HIGH;
    mkNote 0 0 0 ].

Definition PATTERN_SUCCESS : list BuzzerNote :=
  [ mkNote FREQ_LOW 80 VOLUME_MEDIUM;
    mkNote FREQ_MEDIUM 80 VOLUME_MEDIUM;
    mkNote FREQ_HIGH 200 VOLUME_MEDIUM;
    mkNote 0 0 0 ].

Definition PATTERN_CRITICAL : list BuzzerNote :=
  [ mkNote FREQ_CRITICAL 300 VOLUME_MAX;
    mkNote FREQ_LOW 300 VOLUME_MAX;
    mkNote FREQ_CRITICAL 300 VOLUME_MAX;
    mkNote FREQ_LOW 300 VOLUME_MAX;
    mkNote 0 0 0 ].

Definition PATTERN_ACK : list BuzzerNote :=
  [ mkNote FREQ_MEDIUM 50 VOLUME_LOW;
    mkNote 0 0 0 ].

(** A [BuzzerNote*]: either [nullptr] or the array it points to. *)
Definition NotePtr : Type := option (list BuzzerNote).

Definition nullptr : NotePtr := None.

(** ** The output sink: writes to the LEDC peripheral, in program order *)

Inductive SinkCmd : Type :=
| LedcWriteTone (ch : Z) (freq : Z)
| LedcWrite (ch : Z) (duty : Z).

(** ** The object

    The fields of the class in the display sketch.  The file holds a second
    copy of the class, for the serial menu sketch, which is the same code
    without the [currentName] field and its three assignments. *)

Record IndustrialBuzzer : Type := mkBuzzer {
  pin : Z;
  channel : Z;
  currentPattern : NotePtr;
  patternIndex : Z;
  noteStartTime : Z;
  isPlaying : bool;
  repeat : bool;
  currentName : string
}.

(** Constructor [IndustrialBuzzer(buzzerPin, pwmChannel)]. *)
Definition new_IndustrialBuzzer (buzzerPin pwmChannel : Z) : IndustrialBuzzer :=
  {| pin := buzzerPin; channel := pwmChannel; currentPattern := nullptr;
     patternIndex := 0; noteStartTime := 0; isPlaying := false;
     repeat := false; currentName := EmptyString |}.

Definition BUZZER_PIN : Z := 33.
Definition BUZZER_CHANNEL : Z := 0.

Definition buzzer : IndustrialBuzzer :=
  new_IndustrialBuzzer BUZZER_PIN BUZZER_CHANNEL.

(** ** The method monad

    A method runs against the clock value that [millis()] returns during the
    call (a call takes well under a millisecond, so every read within one call
    sees the same value) and against the object.  It either fails, on a read
    through [nullptr] or past the end of the pattern array (undefined
    behaviour in C++), or returns a value, the updated object and the
    peripheral writes it issued. *)

Definition Method (A : Type) : Type :=
  Z -> IndustrialBuzzer -> option (A * IndustrialBuzzer * list SinkCmd).

Definition ret {A : Type} (a : A) : Method A :=
  fun _ b => Some (a, b, []).

Definition bind {A B : Type} (m : Method A) (f : A -> Method B) : Method B :=
  fun clk b =>
    match m clk b with
    | None => None
    | Some (a, b1, out1) =>
        match f a clk b1 with
        | None => None
        | Some (r, b2, out2) => Some (r, b2, out1 ++ out2)
        end
    end.

Declare Scope method_scope.
Delimit Scope method_scope with method.

Notation "x <- m ;; k" := (bind m (fun x => k))
  (at level 61, m at next level, right associativity) : method_scope.
Notation "m ;; k" := (bind m (fun _ => k))
  (at level 61, right associativity) : method_scope.

Definition millis : Method Z := fun clk b => Some (clk, b, []).

Definition get {A : Type} (field : IndustrialBuzzer -> A) : Method A :=
  fun _ b => Some (field b, b, []).

Definition assign (upd : IndustrialBuzzer -> IndustrialBuzzer) : Method unit :=
  fun _ b => Some (tt, upd b, []).

Definition ledcWriteTone (ch freq : Z) : Method unit :=
  fun _ b => Some (tt, b, [LedcWriteTone ch freq]).

Definition ledcWrite (ch duty : Z) : Method unit :=
  fun _ b => Some (tt, b, [LedcWrite ch duty]).

(** The array cell [p[i]], when [p] is not [nullptr] and [i] is inside the
    array.  Indices are unsigned in the source. *)
Definition note_at (p : NotePtr) (i : Z) : option BuzzerNote :=
  match p with
  | None => None
  | Some arr => nth_error arr (Z.to_nat i)
  end.

(** Reading [p[i]]: defined only inside the array. *)
Definition load (p : NotePtr) (i : Z) : Method BuzzerNote :=
  fun _ b =>
    match note_at p i with
    | Some note => Some (note, b, [])
    | None => None
    end.

(** Field assignments. *)
Definition set_currentPattern (v : NotePtr) (b : IndustrialBuzzer) :=
  mkBuzzer (pin b) (channel b) v (patternIndex b) (noteStartTime b)
           (isPlaying b) (repeat b) (currentName b).
Definition set_patternIndex (v : Z) (b : IndustrialBuzzer) :=
  mkBuzzer (pin b) (channel b) (currentPattern b) v (noteStartTime b)
           (isPlaying b) (repeat b) (currentName b).
Definition set_noteStartTime (v : Z) (b : IndustrialBuzzer) :=
  mkBuzzer (pin b) (channel b) (currentPattern b) (patternIndex b) v
           (isPlaying b) (repeat b) (currentName b).
Definition set_isPlaying (v : bool) (b : IndustrialBuzzer) :=
  mkBuzzer (pin b) (channel b) (currentPattern b) (patternIndex b)
           (noteStartTime b) v (repeat b) (currentName b).
Definition set_repeat (v : bool) (b : IndustrialBuzzer) :=
  mkBuzzer (pin b) (channel b) (currentPattern b) (patternIndex b)
           (noteStartTime b) (isPlaying b) v (currentName b).
Definition set_currentName (v : string) (b : IndustrialBuzzer) :=
  mkBuzzer (pin b) (channel b) (currentPattern b) (patternIndex b)
           (noteStartTime b) (isPlaying b) (repeat b) v.

Definition isNull (p : NotePtr) : bool :=
  match p with None => true | Some _ => false end.

(** ** The methods of [IndustrialBuzzer] *)

Section Methods.
Local Open Scope method_scope.

(** [playCurrentNote()] *)
Definition playCurrentNote : Method unit :=
  pat <- get currentPattern ;;
  idx <- get patternIndex ;;
  note <- load pat idx ;;
  ch <- get channel ;;
  if 0 <? frequency note then
    ledcWriteTone ch (frequency note) ;;
    ledcWrite ch (volume note)
  else
    ledcWrite ch 0.

(** [playPattern(pattern, name, repeatPattern)] *)
Definition playPattern (pattern : NotePtr) (name : string)
    (repeatPattern : bool) : Method unit :=
  assign (set_currentPattern pattern) ;;
  assign (set_currentName name) ;;
  assign (set_patternIndex 0) ;;
  assign (set_isPlaying true) ;;
  assign (set_repeat repeatPattern) ;;
  now <- millis ;;
  assign (set_noteStartTime now) ;;
  playCurrentNote.

(** [stop()] *)
Definition stop : Method unit :=
  assign (set_isPlaying false) ;;
  assign (set_repeat false) ;;
  assign (set_currentName EmptyString) ;;
  ch <- get channel ;;
  ledcWriteTone ch 0 ;;
  ledcWrite ch 0.

(** The tail of [update()] shared by the two paths that keep playing. *)
Definition restartNote : Method unit :=
  now <- millis ;;
  assign (set_noteStartTime now) ;;
  playCurrentNote.

(** [update()].  The early [return]s are the branches that do not reach
    [restartNote]. *)
Definition update : Method unit :=
  playing <- get isPlaying ;;
  pat <- get currentPattern ;;
  if negb playing || isNull pat then ret tt
  else
    idx <- get patternIndex ;;
    note <- load pat idx ;;
    now <- millis ;;
    start <- get noteStartTime ;;
    if duration note <=? sub32 now start then
      idx <- get patternIndex ;;
      assign (set_patternIndex (incr8 idx)) ;;
      idx <- get patternIndex ;;
      note <- load pat idx ;;
      if (frequency note =? 0) && (duration note =? 0) then
        rep <- get repeat ;;
        if rep then
          assign (set_patternIndex 0) ;;
          restartNote
        else
          stop
      else
        restartNote
    else ret tt.

(** [isActive()] *)
Definition isActive : Method bool := get isPlaying.

End Methods.

(** Running a method for its effect at clock value [clk]. *)
Definition exec {A : Type} (m : Method A) (clk : Z) (b : IndustrialBuzzer)
  : option (IndustrialBuzzer * list SinkCmd) :=
  match m clk b with
  | Some (_, b', out) => Some (b', out)
  | None => None
  end.

(** The caller's loop: one [update()] per clock value in [ts], in order. *)
Fixpoint polls (ts : list Z) (b : IndustrialBuzzer)
  : option (IndustrialBuzzer * list SinkCmd) :=
  match ts with
  | [] => Some (b, [])
  | t :: ts' =>
      match exec update t b with
      | None => None
      | Some (b1, out1) =>
          match polls ts' b1 with
          | None => None
          | Some (b2, out2) => Some (b2, out1 ++ out2)
          end
      end
  end.

(** ** Vocabulary for the statements *)

(** What [playCurrentNote] writes for a note on channel [ch]. *)
Definition note_cmds (ch : Z) (note : BuzzerNote) : list SinkCmd :=
  if 0 <? frequency note
  then [LedcWriteTone ch (frequency note); LedcWrite ch (volume note)]
  else [LedcWrite ch 0].

(** What [stop] writes: tone off, duty zero. *)
Definition silence (ch : Z) : list SinkCmd :=
  [LedcWriteTone ch 0; LedcWrite ch 0].

(** The end-marker test of [update]: [frequency == 0 && duration == 0]. *)
Definition is_end_marker (note : BuzzerNote) : bool :=
  (frequency note =? 0) && (duration note =? 0).

(** The fields [stop] assigns. *)
Definition stopped (b : IndustrialBuzzer) : IndustrialBuzzer :=
  set_currentName EmptyString (set_repeat false (set_isPlaying false b)).

(** [due now b]: an [update()] at clock value [now] finds the current note's
    duration elapsed. *)
Definition due (now : Z) (b : IndustrialBuzzer) : bool :=
  isPlaying b && negb (isNull (currentPattern b)) &&
  match note_at (currentPattern b) (patternIndex b) with
  | Some note => duration note <=? sub32 now (noteStartTime b)
  | None => false
  end.

(** The number of polls of a run that were due, counted up to and including
    a poll that fails. *)
Fixpoint advances (ts : list Z) (b : IndustrialBuzzer) : nat :=
  match ts with
  | [] => 0%nat
  | t :: ts' =>
      ((if due t b then 1 else 0) +
       match exec update t b with
       | Some (b1, _) => advances ts' b1
       | None => 0
       end)%nat
  end.

(** A pattern whose first end marker follows the ordinary notes [steps]. *)
Definition ends_after (steps : list BuzzerNote) (P : list BuzzerNote) : Prop :=
  exists marker rest,
    P = steps ++ marker :: rest /\
    is_end_marker marker = true /\
    Forall (fun n => is_end_marker n = false) steps.

(** A pattern without any end marker. *)
Definition unterminated (P : list BuzzerNote) : Prop :=
  Forall (fun n => is_end_marker n = false) P.

(** [b] is playing pattern [P] at index [i]. *)
Definition playing (P : list BuzzerNote) (i : Z) (b : IndustrialBuzzer) : Prop :=
  isPlaying b = true /\ currentPattern b = Some P /\ patternIndex b = i.



Definition sum_durations (steps : list BuzzerNote) : Z :=
  fold_right (fun n acc => duration n + acc) 0 steps.

(** The states the object can be in: constructed, then any sequence of
    successful public calls at any clock values. *)
Inductive reachable : IndustrialBuzzer -> Prop :=
| reach_new : forall p c, reachable (new_IndustrialBuzzer p c)
| reach_playPattern : forall b pat name rp t b' out,
    reachable b ->
    exec (playPattern pat name rp) t b = Some (b', out) ->
    reachable b'
| reach_stop : forall b t b' out,
    reachable b -> exec stop t b = Some (b', out) -> reachable b'
| reach_update : forall b t b' out,
    reachable b -> exec update t b = Some (b', out) -> reachable b'.

(** Clock values that never go back, from [start] on. *)
Fixpoint nondecreasing (start : Z) (ts : list Z) : Prop :=
  match ts with
  | [] => True
  | t :: ts' => start <= t /\ nondecreasing t ts'
  end.

(** [on_schedule start ds ts]: the polls [ts] play steps of durations [ds]
    on time.  Each step is ended by a poll made exactly when its duration
    has elapsed since the poll that began it (since [start] for the first),
    and before that poll any number of polls come early, less than the
    duration after the step began; all in 32-bit clock arithmetic. *)
Inductive on_schedule : Z -> list Z -> list Z -> Prop :=
| schedule_done : forall start, on_schedule start [] []
| schedule_early : forall start d ds e ts,
    0 <= e < d ->
    on_schedule start (d :: ds) ts ->
    on_schedule start (d :: ds) ((start + e) mod 2 ^ 32 :: ts)
| schedule_boundary : forall start d ds ts,
    on_schedule ((start + d) mod 2 ^ 32) ds ts ->
    on_schedule start (d :: ds) ((start + d) mod 2 ^ 32 :: ts).

(** ** The rest of the pattern tables *)

Definition PATTERN_ERROR : list BuzzerNote :=
  [ mkNote FREQ_HIGH 100 VOLUME_HIGH;
    mkNote 0 100 0;
    mkNote FREQ_HIGH 100 VOLUME_HIGH;
    mkNote 0 100 0;
    mkNote FREQ_HIGH 100 VOLUME_HIGH;
    mkNote 0 0 0 ].

Definition PATTERN_ATTENTION : list BuzzerNote :=
  [ mkNote FREQ_MEDIUM 500 VOLUME_HIGH;
    mkNote 0 100 0;
    mkNote FREQ_MEDIUM 100 VOLUME_HIGH;
    mkNote 0 0 0 ].

Definition PATTERN_HEARTBEAT : list BuzzerNote :=
  [ mkNote FREQ_LOW 30 VOLUME_LOW;
    mkNote 0 100 0;
    mkNote FREQ_LOW 30 VOLUME_LOW;
    mkNote 0 0 0 ].

(** [getCurrentName()] *)
Definition getCurrentName : Method string := get currentName.

(** ** The sketches around the class

    A sketch is straight-line code over its globals, the global [buzzer]
    object, the millisecond clock and the peripherals.  Its effects are kept
    as one trace of events in program order.  [delay(ms)] is the only thing
    that lets time pass: it advances the clock by [ms], in 32-bit
    arithmetic. *)

Inductive Datum : Type := ML_DATUM | TC_DATUM | MC_DATUM.

(** The calls on the TFT sprite that the display sketch makes. *)
Inductive Draw : Type :=
| CreateSprite (w h : Z)
| FillSprite (c : Z)
| DrawLine (x0 y0 x1 y1 c : Z)
| SetTextColor (fg bg : Z)
| SetTextSize (n : Z)
| SetTextDatum (d : Datum)
| DrawString (s : string) (x y font : Z)
| FillCircle (x y r c : Z)
| DrawCircle (x y r c : Z)
| FillRoundRect (x y w h r c : Z)
| DrawRoundRect (x y w h r c : Z)
| FillTriangle (x0 y0 x1 y1 x2 y2 c : Z)
| PushSprite (x y : Z)
| DeleteSprite.

Inductive Event : Type :=
| Ledc (c : SinkCmd)
| Tft (d : Draw)
| SerialPrint (s : string)
| SerialPrintln (s : string).

Record Board (G : Type) : Type := mkBoard {
  clock : Z;
  the_buzzer : IndustrialBuzzer;
  events : list Event;
  globals : G
}.

Arguments mkBoard {G} _ _ _ _.
Arguments clock {G} _.
Arguments the_buzzer {G} _.
Arguments events {G} _.
Arguments globals {G} _.

Definition Sketch (G A : Type) : Type := Board G -> option (A * Board G).

Definition sret {G A : Type} (a : A) : Sketch G A := fun w => Some (a, w).

Definition sbind {G A B : Type} (m : Sketch G A) (f : A -> Sketch G B)
  : Sketch G B :=
  fun w =>
    match m w with
    | None => None
    | Some (a, w1) => f a w1
    end.

Declare Scope sketch_scope.
Delimit Scope sketch_scope with sketch.

Notation "x <- m ;; k" := (sbind m (fun x => k))
  (at level 61, m at next level, right associativity) : sketch_scope.
Notation "m ;; k" := (sbind m (fun _ => k))
  (at level 61, right associativity) : sketch_scope.

(** A method call on the global [buzzer], at the current clock value. *)
Definition call {G A : Type} (m : Method A) : Sketch G A :=
  fun w =>
    match m (clock w) (the_buzzer w) with
    | None => None
    | Some (a, b', out) =>
        Some (a, mkBoard (clock w) b' (events w ++ map Ledc out) (globals w))
    end.

Definition emit {G : Type} (e : Event) : Sketch G unit :=
  fun w =>
    Some (tt, mkBoard (clock w) (the_buzzer w) (events w ++ [e]) (globals w)).

Definition delay {G : Type} (ms : Z) : Sketch G unit :=
  fun w =>
    Some (tt, mkBoard ((clock w + ms) mod 2 ^ 32) (the_buzzer w) (events w)
                      (globals w)).

Definition now_millis {G : Type} : Sketch G Z := fun w => Some (clock w, w).

Definition read {G A : Type} (field : G -> A) : Sketch G A :=
  fun w => Some (field (globals w), w).

Definition write {G : Type} (upd : G -> G) : Sketch G unit :=
  fun w =>
    Some (tt, mkBoard (clock w) (the_buzzer w) (events w) (upd (globals w))).

(** Undefined behaviour at sketch level: a read outside a table. *)
Definition fault {G A : Type} : Sketch G A := fun _ => None.

(** [for (int i = lo; ...; i++)] over [n] iterations. *)
Fixpoint for_range {G : Type} (lo : Z) (n : nat) (body : Z -> Sketch G unit)
  : Sketch G unit :=
  match n with
  | O => sret tt
  | S n' => sbind (body lo) (fun _ => for_range (lo + 1) n' body)
  end.

(** How a loop that may not terminate ends, for a given amount of fuel. *)
Inductive Run (A : Type) : Type :=
| Returned (a : A)
| Faulted
| OutOfFuel.

Arguments Returned {A} _.
Arguments Faulted {A}.
Arguments OutOfFuel {A}.

(** The wait of both [setup()]s:
    [while (buzzer.isActive()) { buzzer.update(); delay(10); }] *)
Fixpoint wait_idle {G : Type} (fuel : nat) (w : Board G) : Run (Board G) :=
  match fuel with
  | O => OutOfFuel
  | S fuel' =>
      match call isActive w with
      | None => Faulted
      | Some (false, w1) => Returned w1
      | Some (true, w1) =>
          match sbind (call update) (fun _ => delay 10) w1 with
          | None => Faulted
          | Some (_, w2) => wait_idle fuel' w2
          end
      end
  end.

(** *** The display sketch *)

Module Tft.

Definition COLOR_BG : Z := 0x0841.
Definition COLOR_HEADER : Z := 0x1082.
Definition COLOR_PRIMARY : Z := 0x07FF.
Definition COLOR_SUCCESS : Z := 0x07E0.
Definition COLOR_WARNING : Z := 0xFD20.
Definition COLOR_ERROR : Z := 0xF800.
Definition COLOR_TEXT : Z := 0xFFFF.
Definition COLOR_TEXT_DIM : Z := 0x8410.
Definition COLOR_ACCENT : Z := 0x051D.
Definition COLOR_SELECTED : Z := 0xFD20.

Definition SCREEN_WIDTH : Z := 160.
Definition SCREEN_HEIGHT : Z := 128.
Definition HEADER_HEIGHT : Z := 14.
Definition FOOTER_HEIGHT : Z := 18.
Definition MENU_START_Y : Z := HEADER_HEIGHT.
Definition MENU_ITEM_H : Z := 15.

(** [struct MenuItem { name; pattern; color; repeat; }] *)
Record MenuItem : Type := mkItem {
  item_name : string;
  item_pattern : NotePtr;
  item_color : Z;
  item_repeat : bool
}.

Definition menuItems : list MenuItem :=
  [ mkItem "1. Startup" (Some PATTERN_STARTUP) COLOR_PRIMARY false;
    mkItem "2. Warning" (Some PATTERN_WARNING) COLOR_WARNING false;
    mkItem "3. Error" (Some PATTERN_ERROR) COLOR_ERROR false;
    mkItem "4. Success" (Some PATTERN_SUCCESS) COLOR_SUCCESS false;
    mkItem "5. Critical" (Some PATTERN_CRITICAL) COLOR_ERROR true;
    mkItem "6. Acknowledge" (Some PATTERN_ACK) COLOR_TEXT_DIM false;
    mkItem "7. Attention" (Some PATTERN_ATTENTION) COLOR_WARNING false;
    mkItem "8. Heartbeat" (Some PATTERN_HEARTBEAT) COLOR_TEXT_DIM false ].

(** [sizeof(menuItems) / sizeof(MenuItem)] *)
Definition MENU_COUNT : Z := Z.of_nat (length menuItems).

Definition MAX_VISIBLE_ITEMS : Z := 6.

(** The sketch's globals: [selectedItem], [scrollOffset] and the function
    static [lastStatusUpdate] of [loop()]. *)
Record Globals : Type := mkGlobals {
  selectedItem : Z;
  scrollOffset : Z;
  lastStatusUpdate : Z
}.

Definition set_selectedItem (v : Z) (g : Globals) : Globals :=
  mkGlobals v (scrollOffset g) (lastStatusUpdate g).
Definition set_scrollOffset (v : Z) (g : Globals) : Globals :=
  mkGlobals (selectedItem g) v (lastStatusUpdate g).
Definition set_lastStatusUpdate (v : Z) (g : Globals) : Globals :=
  mkGlobals (selectedItem g) (scrollOffset g) v.

Definition initial : Board Globals :=
  mkBoard 0 buzzer [] (mkGlobals 0 0 0).

(** Reading [menuItems[i]] with a signed index. *)
Definition item_at (i : Z) : Sketch Globals MenuItem :=
  fun w =>
    if i <? 0 then None
    else match nth_error menuItems (Z.to_nat i) with
         | Some item => Some (item, w)
         | None => None
         end.

Definition sprite (d : Draw) : Sketch Globals unit := emit (Tft d).

Section Functions.
Local Open Scope sketch_scope.

(** [drawHeader()] *)
Definition drawHeader : Sketch Globals unit :=
  sprite (CreateSprite SCREEN_WIDTH HEADER_HEIGHT) ;;
  sprite (FillSprite COLOR_HEADER) ;;
  sprite (DrawLine 0 (HEADER_HEIGHT - 1) SCREEN_WIDTH (HEADER_HEIGHT - 1)
                   COLOR_ACCENT) ;;
  sprite (SetTextColor COLOR_PRIMARY COLOR_HEADER) ;;
  sprite (SetTextSize 1) ;;
  sprite (SetTextDatum ML_DATUM) ;;
  sprite (DrawString "BUZZER CONTROL" 4 7 2) ;;
  active <- call isActive ;;
  (if active : bool then
     sprite (FillCircle (SCREEN_WIDTH - 8) 7 4 COLOR_ERROR) ;;
     sprite (DrawCircle (SCREEN_WIDTH - 8) 7 5 COLOR_ERROR)
   else
     sprite (FillCircle (SCREEN_WIDTH - 8) 7 4 COLOR_SUCCESS)) ;;
  sprite (PushSprite 0 0) ;;
  sprite DeleteSprite.

(** [drawFooter()] *)
Definition drawFooter : Sketch Globals unit :=
  sprite (CreateSprite SCREEN_WIDTH FOOTER_HEIGHT) ;;
  sprite (FillSprite COLOR_HEADER) ;;
  sprite (DrawLine 0 0 SCREEN_WIDTH 0 COLOR_ACCENT) ;;
  sprite (SetTextColor COLOR_TEXT_DIM COLOR_HEADER) ;;
  sprite (SetTextSize 1) ;;
  sprite (SetTextDatum TC_DATUM) ;;
  active <- call isActive ;;
  (if active : bool then
     sprite (SetTextColor COLOR_ERROR COLOR_HEADER) ;;
     name <- call getCurrentName ;;
     sprite (DrawString ("PLAYING: " ++ name) (Z.quot SCREEN_WIDTH 2) 4 1) ;;
     sprite (SetTextColor COLOR_TEXT COLOR_HEADER) ;;
     sprite (DrawString "Press OK to STOP" (Z.quot SCREEN_WIDTH 2) 13 1)
   else
     sprite (DrawString "< PREV" 20 5 1) ;;
     sprite (DrawString "OK SELECT" (Z.quot SCREEN_WIDTH 2) 5 1) ;;
     sprite (DrawString "NEXT >" (SCREEN_WIDTH - 20) 5 1)) ;;
  sprite (PushSprite 0 (SCREEN_HEIGHT - FOOTER_HEIGHT)) ;;
  sprite DeleteSprite.

(** The body of the [for] loop of [drawMenu()], for row [i]. *)
Definition drawMenuRow (i : Z) : Sketch Globals unit :=
  off <- read scrollOffset ;;
  sel <- read selectedItem ;;
  let y := (i - off) * MENU_ITEM_H + 2 in
  (if i =? sel then
     sprite (FillRoundRect 2 (y - 1) (SCREEN_WIDTH - 4) (MENU_ITEM_H - 2) 3
                           COLOR_ACCENT) ;;
     sprite (DrawRoundRect 2 (y - 1) (SCREEN_WIDTH - 4) (MENU_ITEM_H - 2) 3
                           COLOR_SELECTED)
   else sret tt) ;;
  let textColor := if i =? sel then COLOR_TEXT else COLOR_TEXT_DIM in
  sprite (SetTextColor textColor (if i =? sel then COLOR_ACCENT else COLOR_BG)) ;;
  sprite (SetTextDatum ML_DATUM) ;;
  item <- item_at i ;;
  sprite (DrawString (item_name item) 8 (y + 6) 1) ;;
  item <- item_at i ;;
  if item_repeat item then
    item <- item_at i ;;
    sprite (FillCircle (SCREEN_WIDTH - 10) (y + 6) 2 (item_color item))
  else sret tt.

(** [drawMenu()] *)
Definition drawMenu : Sketch Globals unit :=
  let menuHeight := SCREEN_HEIGHT - HEADER_HEIGHT - FOOTER_HEIGHT in
  sprite (CreateSprite SCREEN_WIDTH menuHeight) ;;
  sprite (FillSprite COLOR_BG) ;;
  off <- read scrollOffset ;;
  let startIdx := off in
  let endIdx := Z.min (off + MAX_VISIBLE_ITEMS) MENU_COUNT in
  for_range startIdx (Z.to_nat (endIdx - startIdx)) drawMenuRow ;;
  off <- read scrollOffset ;;
  (if 0 <? off then
     sprite (FillTriangle (Z.quot SCREEN_WIDTH 2) 2
                          (Z.quot SCREEN_WIDTH 2 - 4) 8
                          (Z.quot SCREEN_WIDTH 2 + 4) 8 COLOR_PRIMARY)
   else sret tt) ;;
  off <- read scrollOffset ;;
  (if off + MAX_VISIBLE_ITEMS <? MENU_COUNT then
     let arrowY := menuHeight - 8 in
     sprite (FillTriangle (Z.quot SCREEN_WIDTH 2) (menuHeight - 2)
                          (Z.quot SCREEN_WIDTH 2 - 4) arrowY
                          (Z.quot SCREEN_WIDTH 2 + 4) arrowY COLOR_PRIMARY)
   else sret tt) ;;
  sprite (PushSprite 0 MENU_START_Y) ;;
  sprite DeleteSprite.

(** [updateDisplay()] *)
Definition updateDisplay : Sketch Globals unit :=
  drawHeader ;; drawMenu ;; drawFooter.

(** [playFeedbackBeep()]: written to the peripheral directly, past the
    [buzzer] object. *)
Definition playFeedbackBeep : Sketch Globals unit :=
  emit (Ledc (LedcWriteTone BUZZER_CHANNEL FREQ_MEDIUM)) ;;
  emit (Ledc (LedcWrite BUZZER_CHANNEL VOLUME_LOW)) ;;
  delay 30 ;;
  emit (Ledc (LedcWrite BUZZER_CHANNEL 0)).

(** The three blocks of [handleButtons()], in source order.  Their
    arguments are what [btnLeft.fell()], [btnRight.fell()] and [btnOk.fell()]
    return after the three [Bounce::update()] calls. *)

(** LEFT button: previous item. *)
Definition handleLeft (fell : bool) : Sketch Globals unit :=
  if fell then
    active <- call isActive ;;
    if negb active then
      playFeedbackBeep ;;
      sel <- read selectedItem ;;
      write (set_selectedItem (sel - 1)) ;;
      sel <- read selectedItem ;;
      off <- read scrollOffset ;;
      (if sel <? 0 then
         write (set_selectedItem (MENU_COUNT - 1)) ;;
         write (set_scrollOffset (Z.max 0 (MENU_COUNT - MAX_VISIBLE_ITEMS)))
       else if sel <? off then
         write (set_scrollOffset sel)
       else sret tt) ;;
      updateDisplay
    else sret tt
  else sret tt.

(** RIGHT button: next item. *)
Definition handleRight (fell : bool) : Sketch Globals unit :=
  if fell then
    active <- call isActive ;;
    if negb active then
      playFeedbackBeep ;;
      sel <- read selectedItem ;;
      write (set_selectedItem (sel + 1)) ;;
      sel <- read selectedItem ;;
      off <- read scrollOffset ;;
      (if MENU_COUNT <=? sel then
         write (set_selectedItem 0) ;;
         write (set_scrollOffset 0)
       else if off + MAX_VISIBLE_ITEMS <=? sel then
         write (set_scrollOffset (sel - MAX_VISIBLE_ITEMS + 1))
       else sret tt) ;;
      updateDisplay
    else sret tt
  else sret tt.

(** OK button: select or stop. *)
Definition handleOk (fell : bool) : Sketch Globals unit :=
  if fell then
    playFeedbackBeep ;;
    active <- call isActive ;;
    (if active : bool then
       call stop
     else
       sel <- read selectedItem ;;
       item <- item_at sel ;;
       call (playPattern (item_pattern item) (item_name item)
                         (item_repeat item))) ;;
    updateDisplay
  else sret tt.

(** [handleButtons()] *)
Definition handleButtons (left ok right : bool) : Sketch Globals unit :=
  handleLeft left ;; handleRight right ;; handleOk ok.

(** The periodic status block of [loop()]. *)
Definition statusTick : Sketch Globals unit :=
  now <- now_millis ;;
  last <- read lastStatusUpdate ;;
  if 500 <? sub32 now last then
    active <- call isActive ;;
    (if active : bool then drawHeader ;; drawFooter else sret tt) ;;
    now <- now_millis ;;
    write (set_lastStatusUpdate now)
  else sret tt.

(** [loop()] *)
Definition loop (left ok right : bool) : Sketch Globals unit :=
  call update ;;
  handleButtons left ok right ;;
  statusTick ;;
  delay 10.

End Functions.

End Tft.

(** *** The serial menu sketch

    The second sketch of the file carries its own copy of the class, without
    the [currentName] field: [playPattern] takes no name and [stop] clears
    none.  Its methods are embedded over the same record and never touch
    [currentName]; [playCurrentNote] and [isActive] are the same code as in
    the display sketch. *)

Module SerialMenu.

Section Class.
Local Open Scope method_scope.

(** [playPattern(pattern, repeatPattern)] *)
Definition playPattern (pattern : NotePtr) (repeatPattern : bool)
  : Method unit :=
  assign (set_currentPattern pattern) ;;
  assign (set_patternIndex 0) ;;
  assign (set_isPlaying true) ;;
  assign (set_repeat repeatPattern) ;;
  now <- millis ;;
  assign (set_noteStartTime now) ;;
  playCurrentNote.

(** [stop()] *)
Definition stop : Method unit :=
  assign (set_isPlaying false) ;;
  assign (set_repeat false) ;;
  ch <- get channel ;;
  ledcWriteTone ch 0 ;;
  ledcWrite ch 0.

(** [update()] *)
Definition update : Method unit :=
  playing <- get isPlaying ;;
  pat <- get currentPattern ;;
  if negb playing || isNull pat then ret tt
  else
    idx <- get patternIndex ;;
    note <- load pat idx ;;
    now <- millis ;;
    start <- get noteStartTime ;;
    if duration note <=? sub32 now start then
      idx <- get patternIndex ;;
      assign (set_patternIndex (incr8 idx)) ;;
      idx <- get patternIndex ;;
      note <- load pat idx ;;
      if (frequency note =? 0) && (duration note =? 0) then
        rep <- get repeat ;;
        if rep then
          assign (set_patternIndex 0) ;;
          restartNote
        else
          stop
      else
        restartNote
    else ret tt.

End Class.

(** The sketch's state besides the buzzer: the bytes waiting in the serial
    receive buffer. *)
Record Globals : Type := mkGlobals { rx : list ascii }.

Definition nl : string := String (ascii_of_nat 10) EmptyString.

Definition println (s : string) : Sketch Globals unit := emit (SerialPrintln s).
Definition print (s : string) : Sketch Globals unit := emit (SerialPrint s).

(** [while (Serial.available() > 0) Serial.read();] over the waiting bytes. *)
Fixpoint drain (buf : list ascii) : list ascii :=
  match buf with
  | [] => []
  | _ :: buf' => drain buf'
  end.

Section Functions.
Local Open Scope sketch_scope.

(** [playTone(frequency, duration, volume)]: a blocking tone. *)
Definition playTone (frequency duration volume : Z) : Sketch Globals unit :=
  ch <- call (get channel) ;;
  (if 0 <? frequency then
     call (ledcWriteTone ch frequency) ;;
     call (ledcWrite ch volume)
   else
     call (ledcWrite ch 0)) ;;
  delay duration ;;
  call (ledcWrite ch 0).

(** [printMenu()] *)
Definition printMenu : Sketch Globals unit :=
  println (nl ++ "========================================") ;;
  println "  INDUSTRIAL BUZZER CONTROL SYSTEM" ;;
  println "========================================" ;;
  println "1 - Startup Pattern" ;;
  println "2 - Warning Pattern" ;;
  println "3 - Error Pattern" ;;
  println "4 - Success Pattern" ;;
  println "5 - Critical Alarm (repeating)" ;;
  println "6 - Acknowledgment Beep" ;;
  println "7 - Attention Pattern" ;;
  println "8 - Heartbeat Pattern" ;;
  println "9 - Custom Tone Test" ;;
  println "0 - Stop All" ;;
  println "========================================" ;;
  print "Select pattern: ".

(** The [switch (input)] of [handleSerialInput()]. *)
Definition dispatch (input : ascii) : Sketch Globals unit :=
  if Ascii.eqb input "1" then
    println "Playing: STARTUP" ;;
    call (playPattern (Some PATTERN_STARTUP) false)
  else if Ascii.eqb input "2" then
    println "Playing: WARNING" ;;
    call (playPattern (Some PATTERN_WARNING) false)
  else if Ascii.eqb input "3" then
    println "Playing: ERROR" ;;
    call (playPattern (Some PATTERN_ERROR) false)
  else if Ascii.eqb input "4" then
    println "Playing: SUCCESS" ;;
    call (playPattern (Some PATTERN_SUCCESS) false)
  else if Ascii.eqb input "5" then
    println "Playing: CRITICAL ALARM (repeating - press 0 to stop)" ;;
    call (playPattern (Some PATTERN_CRITICAL) true)
  else if Ascii.eqb input "6" then
    println "Playing: ACKNOWLEDGMENT" ;;
    call (playPattern (Some PATTERN_ACK) false)
  else if Ascii.eqb input "7" then
    println "Playing: ATTENTION" ;;
    call (playPattern (Some PATTERN_ATTENTION) false)
  else if Ascii.eqb input "8" then
    println "Playing: HEARTBEAT" ;;
    call (playPattern (Some PATTERN_HEARTBEAT) false)
  else if Ascii.eqb input "9" then
    println "Custom tone test: Low -> Medium -> High" ;;
    playTone FREQ_LOW 300 VOLUME_MEDIUM ;;
    delay 100 ;;
    playTone FREQ_MEDIUM 300 VOLUME_MEDIUM ;;
    delay 100 ;;
    playTone FREQ_HIGH 300 VOLUME_MEDIUM ;;
    println "Done!"
  else if Ascii.eqb input "0" then
    println "STOPPING all patterns" ;;
    call stop
  else
    println "Invalid selection!".

(** [handleSerialInput()] *)
Definition handleSerialInput : Sketch Globals unit :=
  buf <- read rx ;;
  match buf with
  | [] => sret tt
  | input :: waiting =>
      write (fun _ => mkGlobals waiting) ;;
      println (String input EmptyString) ;;
      buf <- read rx ;;
      write (fun _ => mkGlobals (drain buf)) ;;
      dispatch input ;;
      if negb (Ascii.eqb input "5") then
        delay 100 ;;
        printMenu
      else sret tt
  end.

(** [loop()] *)
Definition loop : Sketch Globals unit :=
  call update ;;
  handleSerialInput ;;
  delay 10.

End Functions.

End SerialMenu.

(** *** The NTP clock sketch

    [unnamed/part_000] is a second sketch for the same board family: a clock
    that takes the time from an NTP server over Ethernet and draws it with
    the sprite calls.  Its functions work on the global [state], four more
    globals and the clock; they are embedded in a state monad over all of
    these.  What the sketch takes from libraries and from the hardware is
    collected in [Env]; a [sprintf] into a buffer that is too small is
    undefined behaviour and stops the run. *)

Module NtpClock.

Definition COLOR_BG : Z := 0x0841.
Definition COLOR_STATUS_BAR : Z := 0x1082.
Definition COLOR_PRIMARY : Z := 0x07FF.
Definition COLOR_SUCCESS : Z := 0x07E0.
Definition COLOR_WARNING : Z := 0xFD20.
Definition COLOR_ERROR : Z := 0xF800.
Definition COLOR_TEXT : Z := 0xFFFF.
Definition COLOR_TEXT_DIM : Z := 0x8410.
Definition COLOR_ACCENT : Z := 0x051D.
Definition COLOR_TIME : Z := 0xFFE0.
Definition COLOR_DATE : Z := 0x7FFF.

Definition SCREEN_WIDTH : Z := 160.
Definition SCREEN_HEIGHT : Z := 128.
Definition STATUS_BAR_HEIGHT : Z := 12.
Definition STATUS_BAR_Y : Z := 0.
Definition TIME_X : Z := 8.
Definition TIME_Y : Z := 22.
Definition TIME_WIDTH : Z := 100.
Definition TIME_HEIGHT : Z := 45.
Definition DATE_X : Z := 8.
Definition DATE_Y : Z := 72.
Definition INFO_BAR_X : Z := 112.
Definition INFO_BAR_WIDTH : Z := 48.
Definition INFO_BAR_Y : Z := STATUS_BAR_HEIGHT.
Definition STATUS_AREA_Y : Z := 95.
Definition STATUS_AREA_H : Z := 20.
Definition BOTTOM_BAR_Y : Z := 115.
Definition BOTTOM_BAR_H : Z := 13.

Definition RESYNC_INTERVAL : Z := 3600000.
Definition RECONNECT_DELAY : Z := 5000.

(** Conversion to [uint8_t] and to [uint16_t]. *)
Definition uint8 (z : Z) : Z := z mod 2 ^ 8.
Definition uint16 (z : Z) : Z := z mod 2 ^ 16.

(** [struct SystemState { ... } state;] *)
Record SystemState : Type := mkState {
  ethConnected : bool;
  timeConfigured : bool;
  ntpSynced : bool;
  lastHour : Z;
  lastMinute : Z;
  lastSecond : Z;
  lastDateStr : string;
  bootTime : Z;
  lastSyncTime : Z;
  lastReconnectAttempt : Z;
  reconnectAttempts : Z;
  signalQuality : Z;
  linkSpeed : Z;
  initialBoot : bool
}.

Definition initial_state : SystemState :=
  mkState false false false 99 99 99 EmptyString 0 0 0 0 (-1) 0 true.

Definition set_ethConnected (v : bool) (s : SystemState) : SystemState :=
  mkState v (timeConfigured s) (ntpSynced s) (lastHour s) (lastMinute s)
          (lastSecond s) (lastDateStr s) (bootTime s) (lastSyncTime s)
          (lastReconnectAttempt s) (reconnectAttempts s) (signalQuality s)
          (linkSpeed s) (initialBoot s).
Definition set_timeConfigured (v : bool) (s : SystemState) : SystemState :=
  mkState (ethConnected s) v (ntpSynced s) (lastHour s) (lastMinute s)
          (lastSecond s) (lastDateStr s) (bootTime s) (lastSyncTime s)
          (lastReconnectAttempt s) (reconnectAttempts s) (signalQuality s)
          (linkSpeed s) (initialBoot s).
Definition set_ntpSynced (v : bool) (s : SystemState) : SystemState :=
  mkState (ethConnected s) (timeConfigured s) v (lastHour s) (lastMinute s)
          (lastSecond s) (lastDateStr s) (bootTime s) (lastSyncTime s)
          (lastReconnectAttempt s) (reconnectAttempts s) (signalQuality s)
          (linkSpeed s) (initialBoot s).
Definition set_lastHour (v : Z) (s : SystemState) : SystemState :=
  mkState (ethConnected s) (timeConfigured s) (ntpSynced s) v (lastMinute s)
          (lastSecond s) (lastDateStr s) (bootTime s) (lastSyncTime s)
          (lastReconnectAttempt s) (reconnectAttempts s) (signalQuality s)
          (linkSpeed s) (initialBoot s).
Definition set_lastMinute (v : Z) (s : SystemState) : SystemState :=
  mkState (ethConnected s) (timeConfigured s) (ntpSynced s) (lastHour s) v
          (lastSecond s) (lastDateStr s) (bootTime s) (lastSyncTime s)
          (lastReconnectAttempt s) (reconnectAttempts s) (signalQuality s)
          (linkSpeed s) (initialBoot s).
Definition set_lastSecond (v : Z) (s : SystemState) : SystemState :=
  mkState (ethConnected s) (timeConfigured s) (ntpSynced s) (lastHour s)
          (lastMinute s) v (lastDateStr s) (bootTime s) (lastSyncTime s)
          (lastReconnectAttempt s) (reconnectAttempts s) (signalQuality s)
          (linkSpeed s) (initialBoot s).
Definition set_lastDateStr (v : string) (s : SystemState) : SystemState :=
  mkState (ethConnected s) (timeConfigured s) (ntpSynced s) (lastHour s)
          (lastMinute s) (lastSecond s) v (bootTime s) (lastSyncTime s)
          (lastReconnectAttempt s) (reconnectAttempts s) (signalQuality s)
          (linkSpeed s) (initialBoot s).
Definition set_lastSyncTime (v : Z) (s : SystemState) : SystemState :=
  mkState (ethConnected s) (timeConfigured s) (ntpSynced s) (lastHour s)
          (lastMinute s) (lastSecond s) (lastDateStr s) (bootTime s) v
          (lastReconnectAttempt s) (reconnectAttempts s) (signalQuality s)
          (linkSpeed s) (initialBoot s).
Definition set_lastReconnectAttempt (v : Z) (s : SystemState) : SystemState :=
  mkState (ethConnected s) (timeConfigured s) (ntpSynced s) (lastHour s)
          (lastMinute s) (lastSecond s) (lastDateStr s) (bootTime s)
          (lastSyncTime s) v (reconnectAttempts s) (signalQuality s)
          (linkSpeed s) (initialBoot s).
Definition set_reconnectAttempts (v : Z) (s : SystemState) : SystemState :=
  mkState (ethConnected s) (timeConfigured s) (ntpSynced s) (lastHour s)
          (lastMinute s) (lastSecond s) (lastDateStr s) (bootTime s)
          (lastSyncTime s) (lastReconnectAttempt s) v (signalQuality s)
          (linkSpeed s) (initialBoot s).
Definition set_signalQuality (v : Z) (s : SystemState) : SystemState :=
  mkState (ethConnected s) (timeConfigured s) (ntpSynced s) (lastHour s)
          (lastMinute s) (lastSecond s) (lastDateStr s) (bootTime s)
          (lastSyncTime s) (lastReconnectAttempt s) (reconnectAttempts s) v
          (linkSpeed s) (initialBoot s).
Definition set_linkSpeed (v : Z) (s : SystemState) : SystemState :=
  mkState (ethConnected s) (timeConfigured s) (ntpSynced s) (lastHour s)
          (lastMinute s) (lastSecond s) (lastDateStr s) (bootTime s)
          (lastSyncTime s) (lastReconnectAttempt s) (reconnectAttempts s)
          (signalQuality s) v (initialBoot s).
Definition set_initialBoot (v : bool) (s : SystemState) : SystemState :=
  mkState (ethConnected s) (timeConfigured s) (ntpSynced s) (lastHour s)
          (lastMinute s) (lastSecond s) (lastDateStr s) (bootTime s)
          (lastSyncTime s) (lastReconnectAttempt s) (reconnectAttempts s)
          (signalQuality s) (linkSpeed s) v.

(** The fields of [struct tm] that the sketch reads itself. *)
Record tm : Type := mk_tm { tm_hour : Z; tm_min : Z; tm_sec : Z }.

(** The events the handler has a [case] for, and any other. *)
Inductive WiFiEvent_t : Type :=
| ARDUINO_EVENT_ETH_START
| ARDUINO_EVENT_ETH_CONNECTED
| ARDUINO_EVENT_ETH_GOT_IP
| ARDUINO_EVENT_ETH_DISCONNECTED
| ARDUINO_EVENT_ETH_STOP
| ARDUINO_EVENT_OTHER.

(** What the sketch does next: a pass of [loop()], or the event handler
    called with an event. *)
Inductive Activity : Type :=
| Pass
| Callback (event : WiFiEvent_t).

(** What the libraries and the hardware answer: the result of the [n]-th
    call of [getLocalTime] and the milliseconds it takes, the date that
    [strftime] formats, and the three queries of [ETH]. *)
Record Env : Type := mkEnv {
  localTime : nat -> option tm;
  localTime_ms : nat -> Z;
  strftime_date : tm -> string;
  ETH_linkSpeed : Z;
  ETH_localIP : string;
  ETH_macAddress : string
}.

(** The calls on [sprite]. *)
Inductive Gfx : Type :=
| CreateSprite (w h : Z)
| FillSprite (c : Z)
| DrawLine (x0 y0 x1 y1 c : Z)
| SetTextColor (fg bg : Z)
| SetTextSize (n : Z)
| SetCursor (x y : Z)
| Print (s : string)
| SetTextDatum (d : Datum)
| DrawString (s : string) (x y font : Z)
| FillRect (x y w h c : Z)
| DrawRect (x y w h c : Z)
| FillCircle (x y r c : Z)
| DrawCircle (x y r c : Z)
| FillRoundRect (x y w h r c : Z)
| DrawRoundRect (x y w h r c : Z)
| PushSprite (x y : Z)
| DeleteSprite.

(** The calls on [tft] itself. *)
Inductive ScreenCmd : Type :=
| FillScreen (c : Z)
| ScreenTextColor (fg bg : Z)
| ScreenTextDatum (d : Datum)
| ScreenString (s : string) (x y font : Z).

Inductive Out : Type :=
| Sprite (g : Gfx)
| Screen (s : ScreenCmd)
| Println (s : string)
| EthBegin
| ConfigTime
| WdtReset.

(** The clock, the globals, the two [static] locals, the number of
    [getLocalTime] calls made and the effects so far. *)
Record World : Type := mkWorld {
  now : Z;
  state : SystemState;
  targetTime : Z;
  lastWatchdogReset : Z;
  lastProgress : Z;
  infoUpdateCounter : Z;
  time_calls : nat;
  trace : list Out
}.

Definition Prog (A : Type) : Type := World -> option (A * World).

Definition ret {A : Type} (a : A) : Prog A := fun w => Some (a, w).

Definition bind {A B : Type} (m : Prog A) (f : A -> Prog B) : Prog B :=
  fun w =>
    match m w with
    | None => None
    | Some (a, w1) => f a w1
    end.

Declare Scope ntp_scope.
Delimit Scope ntp_scope with ntp.

Notation "x <- m ;; k" := (bind m (fun x => k))
  (at level 61, m at next level, right associativity) : ntp_scope.
Notation "m ;; k" := (bind m (fun _ => k))
  (at level 61, right associativity) : ntp_scope.

Definition fault {A : Type} : Prog A := fun _ => None.

Definition millis : Prog Z := fun w => Some (now w, w).

Definition delay (ms : Z) : Prog unit :=
  fun w =>
    Some (tt, mkWorld ((now w + ms) mod 2 ^ 32) (state w) (targetTime w)
                      (lastWatchdogReset w) (lastProgress w)
                      (infoUpdateCounter w) (time_calls w) (trace w)).

Definition get {A : Type} (field : SystemState -> A) : Prog A :=
  fun w => Some (field (state w), w).

Definition put (upd : SystemState -> SystemState) : Prog unit :=
  fun w =>
    Some (tt, mkWorld (now w) (upd (state w)) (targetTime w)
                      (lastWatchdogReset w) (lastProgress w)
                      (infoUpdateCounter w) (time_calls w) (trace w)).

Definition global {A : Type} (var : World -> A) : Prog A :=
  fun w => Some (var w, w).

Definition set_targetTime (v : Z) : Prog unit :=
  fun w =>
    Some (tt, mkWorld (now w) (state w) v (lastWatchdogReset w)
                      (lastProgress w) (infoUpdateCounter w) (time_calls w)
                      (trace w)).

Definition set_lastWatchdogReset (v : Z) : Prog unit :=
  fun w =>
    Some (tt, mkWorld (now w) (state w) (targetTime w) v (lastProgress w)
                      (infoUpdateCounter w) (time_calls w) (trace w)).

Definition set_lastProgress (v : Z) : Prog unit :=
  fun w =>
    Some (tt, mkWorld (now w) (state w) (targetTime w) (lastWatchdogReset w)
                      v (infoUpdateCounter w) (time_calls w) (trace w)).

Definition set_infoUpdateCounter (v : Z) : Prog unit :=
  fun w =>
    Some (tt, mkWorld (now w) (state w) (targetTime w) (lastWatchdogReset w)
                      (lastProgress w) v (time_calls w) (trace w)).

Definition out (e : Out) : Prog unit :=
  fun w =>
    Some (tt, mkWorld (now w) (state w) (targetTime w) (lastWatchdogReset w)
                      (lastProgress w) (infoUpdateCounter w) (time_calls w)
                      (trace w ++ [e])).

Definition sprite (g : Gfx) : Prog unit := out (Sprite g).
Definition tft (s : ScreenCmd) : Prog unit := out (Screen s).
Definition println (s : string) : Prog unit := out (Println s).

(** [%d] and [%02d] of [sprintf], and [String(n)]. *)
Definition fmt_d (z : Z) : string := NilZero.string_of_int (Z.to_int z).

Definition fmt_02d (z : Z) : string :=
  let s := fmt_d z in
  if (String.length s <? 2)%nat then String "0" s else s.

(** [sprintf(buf, ...)] into [char buf[size]]: the text and its terminator
    have to fit. *)
Definition sprintf (size : Z) (text : string) : Prog string :=
  fun w =>
    if Z.of_nat (String.length text) + 1 <=? size then Some (text, w)
    else None.

(** Multiplication of two [int]: a product outside the 32-bit range is
    undefined behaviour and stops the run. *)
Definition int_mul (x y : Z) : Prog Z :=
  fun w =>
    if (- 2 ^ 31 <=? x * y) && (x * y <? 2 ^ 31) then Some (x * y, w)
    else None.

(** [for (int i = lo; ...; i++)] over [n] iterations. *)
Fixpoint for_range (lo : Z) (n : nat) (body : Z -> Prog unit) : Prog unit :=
  match n with
  | O => ret tt
  | S n' => bind (body lo) (fun _ => for_range (lo + 1) n' body)
  end.

Section Functions.
Variable env : Env.
Local Open Scope ntp_scope.

(** [getLocalTime(&timeinfo)] *)
Definition getLocalTime : Prog (option tm) :=
  fun w =>
    Some (localTime env (time_calls w),
          mkWorld ((now w + localTime_ms env (time_calls w)) mod 2 ^ 32)
                  (state w) (targetTime w) (lastWatchdogReset w)
                  (lastProgress w) (infoUpdateCounter w) (S (time_calls w))
                  (trace w)).

(** [drawConnectionIcon(x, y, connected, quality)] *)
Definition drawConnectionIcon (x y : Z) (connected : bool) (quality : Z)
  : Prog unit :=
  let color := if connected then COLOR_SUCCESS else COLOR_ERROR in
  for_range 0 4 (fun i =>
    let barHeight := 2 + i * 2 in
    let barX := x + i * 3 in
    let barY := y + 8 - barHeight in
    if connected && (i <=? quality) then
      sprite (FillRect barX barY 2 barHeight color)
    else
      sprite (DrawRect barX barY 2 barHeight COLOR_TEXT_DIM)).

(** [drawStatusLED(x, y, color)] *)
Definition drawStatusLED (x y color : Z) : Prog unit :=
  sprite (FillCircle x y 3 color) ;;
  sprite (DrawCircle x y 4 color).

(** [drawStatusBar()] *)
Definition drawStatusBar : Prog unit :=
  sprite (CreateSprite SCREEN_WIDTH STATUS_BAR_HEIGHT) ;;
  sprite (FillSprite COLOR_STATUS_BAR) ;;
  sprite (DrawLine 0 (STATUS_BAR_HEIGHT - 1) SCREEN_WIDTH
                   (STATUS_BAR_HEIGHT - 1) COLOR_ACCENT) ;;
  sprite (SetTextColor COLOR_PRIMARY COLOR_STATUS_BAR) ;;
  sprite (SetTextSize 1) ;;
  sprite (SetCursor 4 2) ;;
  sprite (Print "NTP CLOCK v2.1") ;;
  connected <- get ethConnected ;;
  quality <- get signalQuality ;;
  drawConnectionIcon 120 1 connected quality ;;
  configured <- get timeConfigured ;;
  let ledColor :=
    if connected && configured then COLOR_SUCCESS
    else if connected then COLOR_WARNING
    else COLOR_ERROR in
  drawStatusLED 150 6 ledColor ;;
  sprite (PushSprite 0 STATUS_BAR_Y) ;;
  sprite DeleteSprite.

(** [drawTimeDisplay(hh, mm, ss)], on three [uint8_t] *)
Definition drawTimeDisplay (hh mm ss : Z) : Prog unit :=
  sprite (CreateSprite TIME_WIDTH TIME_HEIGHT) ;;
  sprite (FillSprite COLOR_BG) ;;
  sprite (FillRoundRect 0 0 TIME_WIDTH TIME_HEIGHT 4 COLOR_ACCENT) ;;
  sprite (DrawRoundRect 0 0 TIME_WIDTH TIME_HEIGHT 4 COLOR_PRIMARY) ;;
  timeStr <- sprintf 9 (fmt_02d hh ++ ":" ++ fmt_02d mm) ;;
  sprite (SetTextColor COLOR_TIME COLOR_ACCENT) ;;
  sprite (SetTextDatum MC_DATUM) ;;
  sprite (DrawString timeStr (Z.quot TIME_WIDTH 2) 16 4) ;;
  secStr <- sprintf 4 (":" ++ fmt_02d ss) ;;
  sprite (SetTextColor COLOR_TEXT_DIM COLOR_ACCENT) ;;
  sprite (DrawString secStr (Z.quot TIME_WIDTH 2) 32 2) ;;
  sprite (PushSprite TIME_X TIME_Y) ;;
  sprite DeleteSprite.

(** [drawDateDisplay(timeinfo)] *)
Definition drawDateDisplay (timeinfo : tm) : Prog unit :=
  let dateStr := strftime_date env timeinfo in
  last <- get lastDateStr ;;
  boot <- get initialBoot ;;
  if negb (String.eqb dateStr last) || boot then
    sprite (CreateSprite 100 18) ;;
    sprite (FillSprite COLOR_BG) ;;
    sprite (SetTextColor COLOR_DATE COLOR_BG) ;;
    sprite (SetTextDatum ML_DATUM) ;;
    sprite (DrawString dateStr 0 9 1) ;;
    sprite (PushSprite DATE_X DATE_Y) ;;
    sprite DeleteSprite ;;
    put (set_lastDateStr dateStr)
  else ret tt.

(** [drawInfoBar()] *)
Definition drawInfoBar : Prog unit :=
  let height := SCREEN_HEIGHT - STATUS_BAR_HEIGHT - BOTTOM_BAR_H in
  sprite (CreateSprite INFO_BAR_WIDTH height) ;;
  sprite (FillSprite COLOR_STATUS_BAR) ;;
  sprite (DrawLine 0 0 0 height COLOR_ACCENT) ;;
  c <- millis ;;
  boot <- get bootTime ;;
  let uptime := Z.quot (sub32 c boot) 1000 in
  let hours := uint16 (Z.quot uptime 3600) in
  let mins := uint8 (Z.quot (Z.rem uptime 3600) 60) in
  sprite (SetTextColor COLOR_TEXT_DIM COLOR_STATUS_BAR) ;;
  sprite (SetTextSize 1) ;;
  sprite (SetTextDatum TC_DATUM) ;;
  sprite (DrawString "UPTIME" (Z.quot INFO_BAR_WIDTH 2) 4 1) ;;
  sprite (SetTextColor COLOR_PRIMARY COLOR_STATUS_BAR) ;;
  (if hours <? 100 then
     uptimeStr <- sprintf 12 (fmt_d hours ++ "h " ++ fmt_d mins ++ "m") ;;
     sprite (DrawString uptimeStr (Z.quot INFO_BAR_WIDTH 2) 14 1)
   else
     uptimeStr <- sprintf 12 (fmt_d hours ++ "h") ;;
     sprite (DrawString uptimeStr (Z.quot INFO_BAR_WIDTH 2) 14 1)) ;;
  sprite (SetTextColor COLOR_TEXT_DIM COLOR_STATUS_BAR) ;;
  sprite (DrawString "STATUS" (Z.quot INFO_BAR_WIDTH 2) 32 1) ;;
  connected <- get ethConnected ;;
  (if connected : bool then
     sprite (SetTextColor COLOR_SUCCESS COLOR_STATUS_BAR) ;;
     sprite (DrawString "ONLINE" (Z.quot INFO_BAR_WIDTH 2) 42 1)
   else
     sprite (SetTextColor COLOR_ERROR COLOR_STATUS_BAR) ;;
     sprite (DrawString "OFFLINE" (Z.quot INFO_BAR_WIDTH 2) 42 1)) ;;
  synced <- get ntpSynced ;;
  (if synced : bool then
     sprite (SetTextColor COLOR_SUCCESS COLOR_STATUS_BAR) ;;
     sprite (DrawString "SYNCED" (Z.quot INFO_BAR_WIDTH 2) 52 1)
   else
     sprite (SetTextColor COLOR_WARNING COLOR_STATUS_BAR) ;;
     sprite (DrawString "NO SYNC" (Z.quot INFO_BAR_WIDTH 2) 52 1)) ;;
  sprite (SetTextColor COLOR_TEXT_DIM COLOR_STATUS_BAR) ;;
  sprite (DrawString "SPEED" (Z.quot INFO_BAR_WIDTH 2) 70 1) ;;
  speed <- get linkSpeed ;;
  (if connected && (0 <? speed) then
     sprite (SetTextColor COLOR_PRIMARY COLOR_STATUS_BAR) ;;
     speedStr <- sprintf 16 (fmt_d speed ++ "mb/s") ;;
     sprite (DrawString speedStr (Z.quot INFO_BAR_WIDTH 2) 80 1)
   else
     sprite (SetTextColor COLOR_TEXT_DIM COLOR_STATUS_BAR) ;;
     sprite (DrawString "---mb/s" (Z.quot INFO_BAR_WIDTH 2) 80 1)) ;;
  sprite (PushSprite INFO_BAR_X INFO_BAR_Y) ;;
  sprite DeleteSprite.

(** [drawBottomBar()] *)
Definition drawBottomBar : Prog unit :=
  sprite (CreateSprite INFO_BAR_X BOTTOM_BAR_H) ;;
  sprite (FillSprite COLOR_STATUS_BAR) ;;
  sprite (DrawLine 0 0 INFO_BAR_X 0 COLOR_ACCENT) ;;
  sprite (SetTextColor COLOR_TEXT_DIM COLOR_STATUS_BAR) ;;
  sprite (SetTextSize 1) ;;
  sprite (SetTextDatum ML_DATUM) ;;
  sprite (DrawString "IP:" 2 6 1) ;;
  connected <- get ethConnected ;;
  (if connected : bool then
     sprite (SetTextColor COLOR_SUCCESS COLOR_STATUS_BAR) ;;
     sprite (DrawString (ETH_localIP env) 16 6 1)
   else
     sprite (SetTextColor COLOR_ERROR COLOR_STATUS_BAR) ;;
     sprite (DrawString "---.---.---.---" 16 6 1)) ;;
  sprite (PushSprite 0 BOTTOM_BAR_Y) ;;
  sprite DeleteSprite.

(** [drawStatusArea(message, color)] *)
Definition drawStatusArea (message : string) (color : Z) : Prog unit :=
  sprite (CreateSprite INFO_BAR_X STATUS_AREA_H) ;;
  sprite (FillSprite COLOR_BG) ;;
  sprite (SetTextColor color COLOR_BG) ;;
  sprite (SetTextDatum MC_DATUM) ;;
  sprite (DrawString message (Z.quot INFO_BAR_X 2) (Z.quot STATUS_AREA_H 2)
                     2) ;;
  sprite (PushSprite 0 STATUS_AREA_Y) ;;
  sprite DeleteSprite.

(** [drawBootScreen(message, color, progress)] *)
Definition drawBootScreen (message : string) (color progress : Z)
  : Prog unit :=
  last <- global lastProgress ;;
  (if last =? -1 then
     tft (FillScreen COLOR_BG) ;;
     sprite (CreateSprite 140 35) ;;
     sprite (FillRoundRect 0 0 140 35 5 COLOR_ACCENT) ;;
     sprite (DrawRoundRect 0 0 140 35 5 COLOR_PRIMARY) ;;
     sprite (SetTextColor COLOR_PRIMARY COLOR_ACCENT) ;;
     sprite (SetTextDatum MC_DATUM) ;;
     sprite (DrawString "INDUSTRIAL" 70 12 2) ;;
     sprite (DrawString "NTP CLOCK" 70 26 2) ;;
     sprite (PushSprite 10 20) ;;
     sprite DeleteSprite ;;
     tft (ScreenTextColor COLOR_TEXT_DIM COLOR_BG) ;;
     tft (ScreenTextDatum MC_DATUM) ;;
     tft (ScreenString "v2.1 Sprite Edition" (Z.quot SCREEN_WIDTH 2) 60 1)
   else ret tt) ;;
  sprite (CreateSprite 140 20) ;;
  sprite (FillSprite COLOR_BG) ;;
  sprite (SetTextColor color COLOR_BG) ;;
  sprite (SetTextDatum MC_DATUM) ;;
  sprite (DrawString message 70 10 2) ;;
  sprite (PushSprite 10 70) ;;
  sprite DeleteSprite ;;
  last <- global lastProgress ;;
  if (0 <=? progress) && negb (progress =? last) then
    sprite (CreateSprite 120 12) ;;
    sprite (FillSprite COLOR_BG) ;;
    sprite (DrawRoundRect 0 0 120 12 3 COLOR_PRIMARY) ;;
    product <- int_mul 116 progress ;;
    let fillWidth := Z.quot product 100 in
    (if 0 <? fillWidth then
       sprite (FillRoundRect 2 2 fillWidth 8 2 COLOR_SUCCESS)
     else ret tt) ;;
    sprite (PushSprite 20 95) ;;
    sprite DeleteSprite ;;
    set_lastProgress progress
  else ret tt.

(** [WiFiEvent(event)] *)
Definition WiFiEvent (event : WiFiEvent_t) : Prog unit :=
  match event with
  | ARDUINO_EVENT_ETH_START => println "ETH Started"
  | ARDUINO_EVENT_ETH_CONNECTED => println "ETH Connected"
  | ARDUINO_EVENT_ETH_GOT_IP =>
      put (set_ethConnected true) ;;
      put (set_signalQuality 3) ;;
      put (set_reconnectAttempts 0) ;;
      put (set_linkSpeed (uint16 (ETH_linkSpeed env))) ;;
      println ("ETH Got IP: " ++ ETH_localIP env) ;;
      println ("MAC: " ++ ETH_macAddress env) ;;
      speed <- get linkSpeed ;;
      println ("Speed: " ++ fmt_d speed ++ " Mbps") ;;
      out ConfigTime
  | ARDUINO_EVENT_ETH_DISCONNECTED =>
      println "ETH Disconnected" ;;
      put (set_ethConnected false) ;;
      put (set_signalQuality (-1))
  | ARDUINO_EVENT_ETH_STOP =>
      println "ETH Stopped" ;;
      put (set_ethConnected false) ;;
      put (set_signalQuality (-1))
  | ARDUINO_EVENT_OTHER => ret tt
  end.

(** The [while (attempts < maxAttempts)] of [syncTime()], with [left]
    attempts to go. *)
Fixpoint syncTime_loop (left : nat) : Prog bool :=
  match left with
  | O =>
      println "Time sync failed" ;;
      ret false
  | S left' =>
      r <- getLocalTime ;;
      match r with
      | Some _ =>
          put (set_timeConfigured true) ;;
          put (set_ntpSynced true) ;;
          c <- millis ;;
          put (set_lastSyncTime c) ;;
          println "Time synced successfully" ;;
          ret true
      | None =>
          delay 500 ;;
          syncTime_loop left'
      end
  end.

(** [syncTime()] *)
Definition syncTime : Prog bool := syncTime_loop 10.

(** [checkTimeSync()] *)
Definition checkTimeSync : Prog unit :=
  connected <- get ethConnected ;;
  configured <- get timeConfigured ;;
  if connected && configured then
    c <- millis ;;
    last <- get lastSyncTime ;;
    if RESYNC_INTERVAL <? sub32 c last then
      println "Performing periodic time resync..." ;;
      _ <- syncTime ;;
      ret tt
    else ret tt
  else ret tt.

(** [attemptReconnect()] *)
Definition attemptReconnect : Prog unit :=
  connected <- get ethConnected ;;
  c <- millis ;;
  last <- get lastReconnectAttempt ;;
  if negb connected && (RECONNECT_DELAY <? sub32 c last) then
    put (set_lastReconnectAttempt c) ;;
    attempts <- get reconnectAttempts ;;
    put (set_reconnectAttempts (incr8 attempts)) ;;
    attempts <- get reconnectAttempts ;;
    println ("Attempting reconnect #" ++ fmt_d attempts) ;;
    out EthBegin
  else ret tt.

(** The block of [loop()] around the [static uint8_t infoUpdateCounter]:
    [if (infoUpdateCounter++ >= 10) { ...; infoUpdateCounter = 0; }] *)
Definition infoUpdate : Prog unit :=
  n <- global infoUpdateCounter ;;
  set_infoUpdateCounter (incr8 n) ;;
  if 10 <=? n then
    drawInfoBar ;;
    drawBottomBar ;;
    set_infoUpdateCounter 0
  else ret tt.

(** The body of [if (targetTime < millis())] in [loop()]. *)
Definition displayUpdate : Prog unit :=
  c <- millis ;;
  set_targetTime ((c + 1000) mod 2 ^ 32) ;;
  drawStatusBar ;;
  configured <- get timeConfigured ;;
  (if configured : bool then
     r <- getLocalTime ;;
     match r with
     | Some timeinfo =>
         let hh := uint8 (tm_hour timeinfo) in
         let mm := uint8 (tm_min timeinfo) in
         let ss := uint8 (tm_sec timeinfo) in
         drawTimeDisplay hh mm ss ;;
         drawDateDisplay timeinfo ;;
         boot <- get initialBoot ;;
         (if boot : bool then
            sprite (CreateSprite INFO_BAR_X STATUS_AREA_H) ;;
            sprite (FillSprite COLOR_BG) ;;
            sprite (PushSprite 0 STATUS_AREA_Y) ;;
            sprite DeleteSprite
          else ret tt) ;;
         put (set_lastHour hh) ;;
         put (set_lastMinute mm) ;;
         put (set_lastSecond ss)
     | None =>
         drawStatusArea "TIME SYNC LOST" COLOR_ERROR ;;
         put (set_timeConfigured false)
     end
   else
     connected <- get ethConnected ;;
     if connected : bool then
       drawStatusArea "SYNCING..." COLOR_WARNING ;;
       _ <- syncTime ;;
       ret tt
     else
       drawStatusArea "NO NETWORK" COLOR_ERROR) ;;
  infoUpdate ;;
  boot <- get initialBoot ;;
  if boot : bool then put (set_initialBoot false) else ret tt.

(** [loop()] *)
Definition loop : Prog unit :=
  c <- millis ;;
  fed <- global lastWatchdogReset ;;
  (if 5000 <? sub32 c fed then
     out WdtReset ;;
     c <- millis ;;
     set_lastWatchdogReset c
   else ret tt) ;;
  connected <- get ethConnected ;;
  (if negb connected then attemptReconnect else ret tt) ;;
  checkTimeSync ;;
  target <- global targetTime ;;
  c <- millis ;;
  (if target <? c then displayUpdate else ret tt) ;;
  delay 10.

(** The sketch at work: passes of [loop()], with the handler called on an
    event between two of them. *)
Fixpoint run (acts : list Activity) : Prog unit :=
  match acts with
  | [] => ret tt
  | Pass :: rest => loop ;; run rest
  | Callback event :: rest => WiFiEvent event ;; run rest
  end.

(** [n] runs of a piece of code, one after the other. *)
Fixpoint times (n : nat) (m : Prog unit) : Prog unit :=
  match n with
  | O => ret tt
  | S n' => m ;; times n' m
  end.

End Functions.

End NtpClock.

(** The index invariant of a playing object: the pattern has an end marker
    and the 8-bit index points at an ordinary note before it. *)
Definition in_pattern (b : IndustrialBuzzer) : Prop :=
  isPlaying b = true ->
  exists steps P,
    currentPattern b = Some P /\ ends_after steps P /\
    0 <= patternIndex b < Z.of_nat (length steps) /\
    patternIndex b <= 255.

(** The selection is inside the table and inside the window of
    [MAX_VISIBLE_ITEMS] rows that [drawMenu()] shows. *)
Definition menu_ok (g : Tft.Globals) : Prop :=
  0 <= Tft.scrollOffset g /\
  Tft.scrollOffset g <= Tft.selectedItem g /\
  Tft.selectedItem g < Tft.scrollOffset g + Tft.MAX_VISIBLE_ITEMS /\
  Tft.scrollOffset g + Tft.MAX_VISIBLE_ITEMS <= Tft.MENU_COUNT.

(** The invariant of the display sketch. *)
Definition tft_ok (w : Board Tft.Globals) : Prop :=
  menu_ok (globals w) /\ in_pattern (the_buzzer w).

(** [draws Pre m]: wherever [Pre] holds of the globals and the object, [m]
    returns, leaves the clock, the object and the globals alone and adds
    only drawing events, which depend on the globals and the object only. *)
Definition draws (Pre : Tft.Globals -> IndustrialBuzzer -> Prop)
    (m : Sketch Tft.Globals unit) : Prop :=
  forall g b, Pre g b ->
  exists ds, forall c ev,
    m (mkBoard c b ev g) = Some (tt, mkBoard c b (ev ++ map Tft ds) g).

Definition is_highlight (d : Draw) : bool :=
  match d with
  | FillRoundRect _ _ _ _ _ _ => true
  | _ => false
  end.

(** The events of [playFeedbackBeep()]. *)
Definition beep : list Event :=
  [Ledc (LedcWriteTone BUZZER_CHANNEL FREQ_MEDIUM);
   Ledc (LedcWrite BUZZER_CHANNEL VOLUME_LOW);
   Ledc (LedcWrite BUZZER_CHANNEL 0)].

(** A menu entry whose pattern satisfies the contract of the class: an end
    marker after 1 to 255 ordinary notes. *)
Definition item_ok (item : Tft.MenuItem) : Prop :=
  exists steps P,
    Tft.item_pattern item = Some P /\ ends_after steps P /\
    steps <> [] /\ (length steps <= 255)%nat.

(** The drawing commands among a list of events. *)
Fixpoint tft_of (evs : list Event) : list Draw :=
  match evs with
  | [] => []
  | Tft d :: evs' => d :: tft_of evs'
  | _ :: evs' => tft_of evs'
  end.

(** The texts of the [drawString] calls among drawing commands. *)
Fixpoint drawn_text (ds : list Draw) : list string :=
  match ds with
  | [] => []
  | DrawString s _ _ _ :: ds' => s :: drawn_text ds'
  | _ :: ds' => drawn_text ds'
  end.

(** The buzzer peripheral writes among a list of events. *)
Fixpoint ledc_of (evs : list Event) : list SinkCmd :=
  match evs with
  | [] => []
  | Ledc c :: evs' => c :: ledc_of evs'
  | _ :: evs' => ledc_of evs'
  end.

(** The result of a method of the display sketch's class, with the name
    put back to [name]. *)
Definition keeping_name (name : string)
    (r : option (IndustrialBuzzer * list SinkCmd))
  : option (IndustrialBuzzer * list SinkCmd) :=
  match r with
  | Some (b', out) => Some (set_currentName name b', out)
  | None => None
  end.

(** The bytes that [handleSerialInput()] has a [case] for. *)
Definition menu_keys : list ascii :=
  ["0"; "1"; "2"; "3"; "4"; "5"; "6"; "7"; "8"; "9"]%char.

(** *** Vocabulary for the NTP clock *)

(** The link fields of the NTP clock's state agree: full signal when
    connected, none otherwise. *)
Definition link_ok (s : NtpClock.SystemState) : Prop :=
  NtpClock.signalQuality s =
  if NtpClock.ethConnected s then 3 else -1.

(** A world with more effects at the end of its trace. *)
Definition and_then (w : NtpClock.World) (evs : list NtpClock.Out)
  : NtpClock.World :=
  NtpClock.mkWorld (NtpClock.now w) (NtpClock.state w)
    (NtpClock.targetTime w) (NtpClock.lastWatchdogReset w)
    (NtpClock.lastProgress w) (NtpClock.infoUpdateCounter w)
    (NtpClock.time_calls w) (NtpClock.trace w ++ evs).

(** The bars of the connection icon among effects: [true] for a filled
    bar, [false] for an outline. *)
Fixpoint icon_bars (evs : list NtpClock.Out) : list bool :=
  match evs with
  | [] => []
  | NtpClock.Sprite (NtpClock.FillRect _ _ _ _ _) :: evs' =>
      true :: icon_bars evs'
  | NtpClock.Sprite (NtpClock.DrawRect _ _ _ _ _) :: evs' =>
      false :: icon_bars evs'
  | _ :: evs' => icon_bars evs'
  end.

(** [hoare P m Q]: a run of [m] that starts in a world with [P] and
    returns ends in a world with [Q]. *)
Definition hoare {A : Type} (P : NtpClock.World -> Prop)
    (m : NtpClock.Prog A) (Q : NtpClock.World -> Prop) : Prop :=
  forall w a w', P w -> m w = Some (a, w') -> Q w'.

(** [returns P m]: from every world with [P], [m] returns, to a world
    with [P]. *)
Definition returns {A : Type} (P : NtpClock.World -> Prop)
    (m : NtpClock.Prog A) : Prop :=
  forall w, P w -> exists a w', m w = Some (a, w') /\ P w'.

(** [p] holds of [n] successive integers from [z] on. *)
Fixpoint all_from (n : nat) (z : Z) (p : Z -> bool) : bool :=
  match n with
  | O => true
  | S n' => p z && all_from n' (z + 1) p
  end.

(** The globals as their initialisers leave them, before [setup()]. *)
Definition power_on : NtpClock.World :=
  NtpClock.mkWorld 0 NtpClock.initial_state 0 0 (-1) 0 0 [].

(** A network that never comes up and a time that is never set. *)
Definition no_network : NtpClock.Env :=
  NtpClock.mkEnv (fun _ => None) (fun _ => 5000) (fun _ => EmptyString)
                 0 "0.0.0.0" "00:00:00:00:00:00".

(** A network at 100 Mbit/s where the time is set from the [k]-th call
    of [getLocalTime] on. *)
Definition time_after (k : nat) (t : NtpClock.tm) : NtpClock.Env :=
  NtpClock.mkEnv (fun n => if (n <? k)%nat then None else Some t)
                 (fun n => if (n <? k)%nat then 5000 else 0)
                 (fun _ => "Mon, Nov 02 2026"%string)
                 100 "192.168.1.50" "24:0A:C4:00:00:01".

(** The same world [ms] milliseconds later. *)
Definition later (ms : Z) (w : NtpClock.World) : NtpClock.World :=
  NtpClock.mkWorld ((NtpClock.now w + ms) mod 2 ^ 32) (NtpClock.state w)
    (NtpClock.targetTime w) (NtpClock.lastWatchdogReset w)
    (NtpClock.lastProgress w) (NtpClock.infoUpdateCounter w)
    (NtpClock.time_calls w) (NtpClock.trace w).

(** The uptime that [drawInfoBar()] is to show, from the seconds since
    boot: hours and minutes below 100 hours, hours alone from there on. *)
Definition uptime_text (secs : Z) : string :=
  let h := secs / 3600 in
  let m := (secs / 60) mod 60 in
  if h <? 100 then
    (NtpClock.fmt_d h ++ "h " ++ NtpClock.fmt_d m ++ "m")%string
  else (NtpClock.fmt_d h ++ "h")%string.

(** How often the info bar was pushed to the screen. *)
Fixpoint info_bars (evs : list NtpClock.Out) : nat :=
  match evs with
  | [] => O
  | NtpClock.Sprite (NtpClock.PushSprite x y) :: evs' =>
      if (x =? NtpClock.INFO_BAR_X) && (y =? NtpClock.INFO_BAR_Y)
      then S (info_bars evs') else info_bars evs'
  | _ :: evs' => info_bars evs'
  end.

(** A state in which the clock has been set from the network. *)
Definition synced_state : NtpClock.SystemState :=
  NtpClock.mkState true true true 12 0 0 "Mon, Nov 02 2026" 0 0 0 0 3 100
                   false.

(** The sketch in state [s] at clock value [c], with the tick due at
    [target]. *)
Definition at_clock (c target : Z) (s : NtpClock.SystemState)
  : NtpClock.World :=
  NtpClock.mkWorld c s target 0 0 0 0 [].

(** Three invariants of the state: the time has been taken from the
    network once, the link fields agree, and the link speed is a
    [uint16_t]. *)
Definition synced (w : NtpClock.World) : Prop :=
  NtpClock.ntpSynced (NtpClock.state w) = true.

Definition linked (w : NtpClock.World) : Prop :=
  link_ok (NtpClock.state w).

Definition speed_typed (w : NtpClock.World) : Prop :=
  0 <= NtpClock.linkSpeed (NtpClock.state w) < 2 ^ 16.

(** The calls on [sprite] among effects. *)
Fixpoint sprites_of (evs : list NtpClock.Out) : list NtpClock.Gfx :=
  match evs with
  | [] => []
  | NtpClock.Sprite g :: evs' => g :: sprites_of evs'
  | _ :: evs' => sprites_of evs'
  end.

(** The calls on [tft] itself among effects. *)
Fixpoint screens_of (evs : list NtpClock.Out) : list NtpClock.ScreenCmd :=
  match evs with
  | [] => []
  | NtpClock.Screen s :: evs' => s :: screens_of evs'
  | _ :: evs' => screens_of evs'
  end.

(** ** The methods in closed form *)

(** Reduce field reads, field assignments and the monad's plumbing, leaving
    the arithmetic alone. *)
Ltac fields :=
  cbv beta iota delta
    [pin channel currentPattern patternIndex noteStartTime isPlaying repeat
     currentName set_currentPattern set_patternIndex set_noteStartTime
     set_isPlaying set_repeat set_currentName note_at isNull negb orb
     app fst snd].

Example scenario_start :
  exec (playPattern (Some PATTERN_STARTUP) "Startup" false) 0 buzzer
  = Some (mkBuzzer 33 0 (Some PATTERN_STARTUP) 0 0 true false "Startup",
          [LedcWriteTone 0 800; LedcWrite 0 128]).
Proof. reflexivity. Qed.

(** The playback of a three-step pattern polled at 99, 100, 150 and 300 ms:
    nothing at 99, the rest at 100, the second tone at 150, silence and idle
    at 300. *)
Example scenario_play_once :
  let P := [mkNote 500 100 128; mkNote 0 50 0; mkNote 900 150 128;
            mkNote 0 0 0] in
  polls [99; 100; 150; 300] (mkBuzzer 33 0 (Some P) 0 0 true false "p")
  = Some (mkBuzzer 33 0 (Some P) 3 150 false false EmptyString,
          [LedcWrite 0 0;
           LedcWriteTone 0 900; LedcWrite 0 128;
           LedcWriteTone 0 0; LedcWrite 0 0]).
Proof. reflexivity. Qed.

Lemma exec_playCurrentNote (clk : Z) (b : IndustrialBuzzer) :
  exec playCurrentNote clk b =
  match note_at (currentPattern b) (patternIndex b) with
  | Some note => Some (b, note_cmds (channel b) note)
  | None => None
  end.
Proof.
  unfold exec, playCurrentNote, bind, get, load, note_cmds.
  destruct (note_at (currentPattern b) (patternIndex b)) as [note|]; [|reflexivity].
  destruct (0 <? frequency note); reflexivity.
Qed.

Lemma exec_stop (clk : Z) (b : IndustrialBuzzer) :
  exec stop clk b = Some (stopped b, silence (channel b)).
Proof. reflexivity. Qed.

Lemma exec_playPattern (pattern : NotePtr) (name : string) (rp : bool)
    (clk : Z) (b : IndustrialBuzzer) :
  exec (playPattern pattern name rp) clk b =
  match note_at pattern 0 with
  | Some note =>
      Some (mkBuzzer (pin b) (channel b) pattern 0 clk true rp name,
            note_cmds (channel b) note)
  | None => None
  end.
Proof.
  unfold exec, playPattern, playCurrentNote, bind, get, load, assign, millis,
    note_cmds; cbn.
  destruct (note_at pattern 0) as [note|]; [|reflexivity].
  destruct (0 <? frequency note); reflexivity.
Qed.

Lemma exec_update (clk : Z) (b : IndustrialBuzzer) :
  exec update clk b =
  if negb (isPlaying b) || isNull (currentPattern b) then Some (b, [])
  else
    match note_at (currentPattern b) (patternIndex b) with
    | None => None
    | Some note =>
        if duration note <=? sub32 clk (noteStartTime b) then
          match note_at (currentPattern b) (incr8 (patternIndex b)) with
          | None => None
          | Some nxt =>
              if is_end_marker nxt then
                if repeat b then
                  match note_at (currentPattern b) 0 with
                  | None => None
                  | Some first =>
                      Some (set_noteStartTime clk (set_patternIndex 0 b),
                            note_cmds (channel b) first)
                  end
                else
                  Some (stopped (set_patternIndex (incr8 (patternIndex b)) b),
                        silence (channel b))
              else
                Some (set_noteStartTime clk
                        (set_patternIndex (incr8 (patternIndex b)) b),
                      note_cmds (channel b) nxt)
          end
        else Some (b, [])
    end.
Proof.
  unfold exec, update, restartNote, stop, playCurrentNote, bind, get, load,
    assign, millis, ret, ledcWrite, ledcWriteTone, is_end_marker, note_cmds,
    silence, stopped.
  destruct b as [p c pat idx st pl rp nm]; fields.
  destruct pl; fields; [|reflexivity].
  destruct pat as [arr|]; fields; [|reflexivity].
  destruct (nth_error arr (Z.to_nat idx)) as [note|]; [|reflexivity].
  destruct (duration note <=? sub32 clk st); [|reflexivity].
  fields.
  destruct (nth_error arr (Z.to_nat (incr8 idx))) as [nxt|] eqn:Enxt;
    [|reflexivity].
  destruct ((frequency nxt =? 0) && (duration nxt =? 0)).
  - destruct rp; fields; [|reflexivity].
    destruct (nth_error arr (Z.to_nat 0)) as [first|]; [|reflexivity].
    destruct (0 <? frequency first); reflexivity.
  - fields. rewrite Enxt.
    destruct (0 <? frequency nxt); reflexivity.
Qed.

Lemma note_cmds_nonempty (ch : Z) (note : BuzzerNote) : note_cmds ch note <> [].
Proof. unfold note_cmds. destruct (0 <? frequency note); discriminate. Qed.

Lemma is_end_marker_iff (note : BuzzerNote) :
  is_end_marker note = true <-> frequency note = 0 /\ duration note = 0.
Proof.
  unfold is_end_marker. rewrite andb_true_iff, !Z.eqb_eq. tauto.
Qed.

(** An [update()] that is not due changes nothing and writes nothing. *)
Lemma update_not_due (clk : Z) (b : IndustrialBuzzer) (note : BuzzerNote) :
  note_at (currentPattern b) (patternIndex b) = Some note ->
  due clk b = false -> exec update clk b = Some (b, []).
Proof.
  intros Hnote. rewrite exec_update. unfold due. rewrite Hnote.
  destruct (isPlaying b); [|reflexivity].
  destruct (currentPattern b) as [arr|]; [|reflexivity].
  cbn. intros ->. reflexivity.
Qed.

(** An [update()] on an idle object changes nothing and writes nothing. *)
Lemma update_idle (clk : Z) (b : IndustrialBuzzer) :
  isPlaying b = false \/ currentPattern b = nullptr ->
  exec update clk b = Some (b, []).
Proof.
  intros H. rewrite exec_update.
  destruct H as [-> | ->]; [reflexivity|].
  destruct (isPlaying b); reflexivity.
Qed.

Lemma due_playing (clk : Z) (b : IndustrialBuzzer) (P : list BuzzerNote)
    (note : BuzzerNote) :
  isPlaying b = true -> currentPattern b = Some P ->
  note_at (Some P) (patternIndex b) = Some note ->
  due clk b = (duration note <=? sub32 clk (noteStartTime b)).
Proof.
  intros Hp Hc Hn. unfold due. rewrite Hp, Hc, Hn. reflexivity.
Qed.

(** ** Starting and stopping *)

(** C6. [playPattern(pattern, name, loop)], from any prior state, idle or
    playing, stores the pattern, index 0, the current clock value as the note
    start time and the loop flag, marks the object as playing, and writes
    note 0 to the sink within the call.  Nothing of the prior state but the
    pin and channel survives: a start of [B] right after a start of [A]
    yields exactly the state and the sink writes of a start of [B] alone. *)
Theorem playPattern_starts_and_preempts
    (b : IndustrialBuzzer) (first : BuzzerNote) (rest : list BuzzerNote)
    (name : string) (loop : bool) (now : Z) :
  exec (playPattern (Some (first :: rest)) name loop) now b
  = Some (mkBuzzer (pin b) (channel b) (Some (first :: rest)) 0 now true loop
                   name,
          note_cmds (channel b) first)
  /\ forall (a0 : BuzzerNote) (arest : list BuzzerNote) (nameA : string)
            (loopA : bool) (tA : Z),
       match exec (playPattern (Some (a0 :: arest)) nameA loopA) tA b with
       | Some (bA, _) =>
           exec (playPattern (Some (first :: rest)) name loop) now bA
           = Some (mkBuzzer (pin b) (channel b) (Some (first :: rest)) 0 now
                            true loop name,
                   note_cmds (channel b) first)
       | None => False
       end.
Proof.
  split.
  - rewrite exec_playPattern. reflexivity.
  - intros a0 arest nameA loopA tA.
    rewrite exec_playPattern. cbn [note_at nth_error Z.to_nat].
    rewrite exec_playPattern. reflexivity.
Qed.

(** What holds of every reachable state: an idle object has its loop flag
    and its name cleared. *)
Lemma reachable_idle_cleared (b : IndustrialBuzzer) :
  reachable b ->
  isPlaying b = false -> repeat b = false /\ currentName b = EmptyString.
Proof.
  induction 1 as [p c | b pat name rp t b' out Hr IH Hx
                 | b t b' out Hr IH Hx | b t b' out Hr IH Hx].
  - intros _. split; reflexivity.
  - rewrite exec_playPattern in Hx.
    destruct (note_at pat 0); [|discriminate].
    injection Hx as <- _. discriminate.
  - rewrite exec_stop in Hx. injection Hx as <- _. intros _.
    split; reflexivity.
  - rewrite exec_update in Hx.
    destruct (negb (isPlaying b) || isNull (currentPattern b)) eqn:Eidle.
    { injection Hx as <- _. exact IH. }
    apply orb_false_iff in Eidle. destruct Eidle as [Epl _].
    apply negb_false_iff in Epl.
    destruct (note_at (currentPattern b) (patternIndex b)); [|discriminate].
    destruct (_ <=? _).
    2:{ injection Hx as <- _. exact IH. }
    destruct (note_at (currentPattern b) (incr8 (patternIndex b)));
      [|discriminate].
    destruct (is_end_marker _).
    + destruct (repeat b).
      * destruct (note_at (currentPattern b) 0); [|discriminate].
        injection Hx as <- _. cbn. rewrite Epl. discriminate.
      * injection Hx as <- _. intros _. split; reflexivity.
    + injection Hx as <- _. cbn. rewrite Epl. discriminate.
Qed.

(** C7. [stop()], from any state, leaves the object idle ([isActive()] is
    false), with the loop flag cleared, and writes silence to the sink.  A
    second [stop()] leaves the same state and writes silence again; on an
    object that is already idle [stop()] changes no field and only writes
    silence. *)
Theorem stop_idles_and_is_idempotent (b : IndustrialBuzzer) (t t' : Z) :
  let b' := mkBuzzer (pin b) (channel b) (currentPattern b) (patternIndex b)
                     (noteStartTime b) false false EmptyString in
  exec stop t b = Some (b', silence (channel b))
  /\ isActive t' b' = Some (false, b', [])
  /\ repeat b' = false
  /\ exec stop t' b' = Some (b', silence (channel b))
  /\ (reachable b -> isPlaying b = false ->
      exec stop t b = Some (b, silence (channel b))).
Proof.
  cbv zeta. repeat split.
  intros Hr Hidle. rewrite exec_stop.
  destruct (reachable_idle_cleared b Hr Hidle) as [Hrep Hname].
  destruct b as [p c pat idx st pl rp nm]. cbn in *. subst. reflexivity.
Qed.

Lemma stop_idles_and_is_idempotent_witness :
  exec stop 7 buzzer = Some (buzzer, silence 0).
Proof.
  apply (stop_idles_and_is_idempotent buzzer 7 7).
  - apply reach_new.
  - reflexivity.
Defined.

(** C9, as the claim states it, fails on the display sketch's class:
    [stop()] also assigns [currentName], so it modifies a field other than
    [isPlaying] and [repeat]. *)
Lemma stop_also_clears_currentName :
  let b := mkBuzzer 33 0 (Some PATTERN_STARTUP) 2 200 true false "1. Startup" in
  exists b',
    exec stop 250 b = Some (b', silence 0) /\
    currentName b = "1. Startup"%string /\
    currentName b' = EmptyString /\
    b' <> set_repeat (repeat b') (set_isPlaying (isPlaying b') b).
Proof.
  cbv zeta. eexists. split; [reflexivity|].
  split; [reflexivity|]. split; [reflexivity|]. discriminate.
Qed.

(** C9 (amended).  On an idle object ([isPlaying] false, or no pattern ever
    started so that [currentPattern] is still [nullptr]) [update()] returns at
    once: no field changes and nothing is written to the sink.  [stop()]
    assigns [isPlaying], [repeat] and [currentName] (cleared to the empty
    string) and writes silence; the pin, the channel, the pattern pointer, the
    index and the note start time stay as they were, so idleness is recorded
    in the [isPlaying] flag alone. *)
Theorem idle_update_frame_and_stop_frame (b : IndustrialBuzzer) (t : Z) :
  (isPlaying b = false \/ currentPattern b = nullptr ->
   exec update t b = Some (b, []))
  /\ exists b',
       exec stop t b = Some (b', silence (channel b)) /\
       pin b' = pin b /\ channel b' = channel b /\
       currentPattern b' = currentPattern b /\
       patternIndex b' = patternIndex b /\
       noteStartTime b' = noteStartTime b /\
       isPlaying b' = false /\ repeat b' = false /\
       currentName b' = EmptyString.
Proof.
  split.
  - apply update_idle.
  - exists (stopped b). rewrite exec_stop. repeat split.
Qed.

Lemma idle_update_frame_and_stop_frame_witness :
  (isPlaying buzzer = false \/ currentPattern buzzer = nullptr) /\
  exec update 1234 buzzer = Some (buzzer, []).
Proof.
  split.
  - left. reflexivity.
  - apply (idle_update_frame_and_stop_frame buzzer 1234).
    left. reflexivity.
Defined.

(** ** Emitting a note *)

(** C10. Whenever the current note is written to the sink - by
    [playCurrentNote] itself, by [playPattern] for note 0, or by an
    [update()] that advances to an ordinary note or restarts a looping
    pattern - a note of frequency 0 produces only a zero-duty write, whatever
    its volume, and no tone write; a note of positive frequency produces the
    tone write with that frequency followed by the duty write with the
    note's volume. *)
Theorem rest_note_writes_zero_duty_only
    (b : IndustrialBuzzer) (note : BuzzerNote) (clk : Z) :
  0 <= frequency note ->
  let out :=
    if frequency note =? 0 then [LedcWrite (channel b) 0]
    else [LedcWriteTone (channel b) (frequency note);
          LedcWrite (channel b) (volume note)] in
  (note_at (currentPattern b) (patternIndex b) = Some note ->
   exec playCurrentNote clk b = Some (b, out))
  /\ (forall rest name rp, exists b',
        exec (playPattern (Some (note :: rest)) name rp) clk b = Some (b', out))
  /\ (forall cur,
        isPlaying b = true ->
        note_at (currentPattern b) (patternIndex b) = Some cur ->
        duration cur <= sub32 clk (noteStartTime b) ->
        note_at (currentPattern b) (incr8 (patternIndex b)) = Some note ->
        is_end_marker note = false ->
        exists b', exec update clk b = Some (b', out))
  /\ (forall cur marker,
        isPlaying b = true -> repeat b = true ->
        note_at (currentPattern b) (patternIndex b) = Some cur ->
        duration cur <= sub32 clk (noteStartTime b) ->
        note_at (currentPattern b) (incr8 (patternIndex b)) = Some marker ->
        is_end_marker marker = true ->
        note_at (currentPattern b) 0 = Some note ->
        exists b', exec update clk b = Some (b', out)).
Proof.
  intros Hfreq out.
  assert (Hout : note_cmds (channel b) note = out).
  { unfold note_cmds, out.
    destruct (Z.eqb_spec (frequency note) 0) as [E|E].
    - rewrite E. reflexivity.
    - destruct (Z.ltb_spec 0 (frequency note)); [reflexivity|lia]. }
  repeat split.
  - intros Hn. rewrite exec_playCurrentNote, Hn, Hout. reflexivity.
  - intros rest name rp. eexists. rewrite exec_playPattern. cbn [note_at nth_error Z.to_nat].
    rewrite Hout. reflexivity.
  - intros cur Hp Hcur Hdue Hnxt Hend. eexists.
    rewrite exec_update, Hp, Hcur, Hnxt, Hend.
    destruct (currentPattern b); [|discriminate]. cbn.
    apply Z.leb_le in Hdue. rewrite Hdue, Hout. reflexivity.
  - intros cur marker Hp Hrep Hcur Hdue Hnxt Hend Hfirst. eexists.
    rewrite exec_update, Hp, Hcur, Hnxt, Hend, Hrep, Hfirst.
    destruct (currentPattern b); [|discriminate]. cbn.
    apply Z.leb_le in Hdue. rewrite Hdue, Hout. reflexivity.
Qed.

Lemma rest_note_writes_zero_duty_only_witness :
  0 <= frequency (mkNote 0 50 77) /\
  exec playCurrentNote 100
    (mkBuzzer 33 0 (Some [mkNote 800 100 128; mkNote 0 50 77; mkNote 0 0 0])
              1 100 true false "rest")
  = Some (mkBuzzer 33 0
            (Some [mkNote 800 100 128; mkNote 0 50 77; mkNote 0 0 0])
            1 100 true false "rest",
          [LedcWrite 0 0]).
Proof.
  split; [cbn; lia|].
  apply (rest_note_writes_zero_duty_only
           (mkBuzzer 33 0
              (Some [mkNote 800 100 128; mkNote 0 50 77; mkNote 0 0 0])
              1 100 true false "rest") (mkNote 0 50 77) 100).
  - cbn. lia.
  - reflexivity.
Defined.

(** ** The end marker *)

(** C8, as the claim states it, fails: an entry with frequency 0 and
    duration 0 but a non-zero volume ends the pattern; it is not played as an
    ordinary step. *)
Lemma end_marker_with_volume_stops :
  let P := [mkNote 800 100 128; mkNote 0 0 5; mkNote 1500 100 128;
            mkNote 0 0 0] in
  let b := mkBuzzer 33 0 (Some P) 0 0 true false "p" in
  note_at (Some P) 1 = Some (mkNote 0 0 5) /\
  volume (mkNote 0 0 5) <> 0 /\
  exec update 100 b
  = Some (mkBuzzer 33 0 (Some P) 1 0 false false EmptyString, silence 0).
Proof.
  cbv zeta. split; [reflexivity|]. split; [discriminate|reflexivity].
Qed.

(** C8 (amended).  [update()] treats the entry after the current one as the
    end-of-pattern marker if and only if its frequency is 0 and its duration
    is 0; the volume is not looked at.  On a marker the object stops (loop
    flag clear) or restarts at note 0 (loop flag set); any other entry is
    played as an ordinary step. *)
Theorem end_marker_is_frequency_and_duration_zero
    (b : IndustrialBuzzer) (cur nxt : BuzzerNote) (clk : Z) :
  isPlaying b = true ->
  note_at (currentPattern b) (patternIndex b) = Some cur ->
  duration cur <= sub32 clk (noteStartTime b) ->
  note_at (currentPattern b) (incr8 (patternIndex b)) = Some nxt ->
  (frequency nxt = 0 /\ duration nxt = 0 ->
   (repeat b = false ->
    exec update clk b
    = Some (mkBuzzer (pin b) (channel b) (currentPattern b)
                     (incr8 (patternIndex b)) (noteStartTime b) false false
                     EmptyString,
            silence (channel b)))
   /\ (repeat b = true ->
       forall first, note_at (currentPattern b) 0 = Some first ->
       exec update clk b
       = Some (mkBuzzer (pin b) (channel b) (currentPattern b) 0 clk true true
                        (currentName b),
               note_cmds (channel b) first)))
  /\ (~ (frequency nxt = 0 /\ duration nxt = 0) ->
      exec update clk b
      = Some (mkBuzzer (pin b) (channel b) (currentPattern b)
                       (incr8 (patternIndex b)) clk true (repeat b)
                       (currentName b),
              note_cmds (channel b) nxt)).
Proof.
  intros Hp Hcur Hdue Hnxt. apply Z.leb_le in Hdue.
  assert (Hnn : isNull (currentPattern b) = false).
  { destruct (currentPattern b); [reflexivity|discriminate]. }
  rewrite exec_update, Hp, Hnn, Hcur, Hdue, Hnxt. cbn [negb orb].
  split.
  - intros Hend. apply is_end_marker_iff in Hend. rewrite Hend. split.
    + intros ->. reflexivity.
    + intros Hrep first ->. rewrite Hrep.
      unfold set_noteStartTime, set_patternIndex. cbn.
      rewrite Hp, Hrep. reflexivity.
  - intros Hnot.
    destruct (is_end_marker nxt) eqn:E.
    + apply is_end_marker_iff in E. contradiction.
    + unfold set_noteStartTime, set_patternIndex. cbn. rewrite Hp.
      reflexivity.
Qed.

Lemma end_marker_is_frequency_and_duration_zero_witness :
  exec update 100 (mkBuzzer 33 0 (Some PATTERN_ACK) 0 40 true false "6. Acknowledge")
  = Some (mkBuzzer 33 0 (Some PATTERN_ACK) 1 40 false false EmptyString,
          silence 0).
Proof.
  apply (end_marker_is_frequency_and_duration_zero
           (mkBuzzer 33 0 (Some PATTERN_ACK) 0 40 true false "6. Acknowledge")
           (mkNote FREQ_MEDIUM 50 VOLUME_LOW) (mkNote 0 0 0) 100).
  - reflexivity.
  - reflexivity.
  - vm_compute. discriminate.
  - reflexivity.
  - split; reflexivity.
  - reflexivity.
Defined.

(** ** Elapsed time *)

Lemma sub32_stale (now start : Z) :
  0 <= now -> now < start -> start < 2 ^ 32 ->
  sub32 now start = 2 ^ 32 - (start - now).
Proof.
  intros H0 H1 H2. unfold sub32.
  replace (now - start) with (2 ^ 32 - (start - now) + (-1) * 2 ^ 32) by ring.
  rewrite Z.mod_add by lia. apply Z.mod_small. lia.
Qed.

(** C2, as the claim states it, fails: with the clock one millisecond
    behind the recorded note start, the unsigned difference is [2^32 - 1];
    the note counts as elapsed, the index advances and the next note is
    written to the sink. *)
Lemma stale_clock_advances :
  let b := mkBuzzer 33 0 (Some PATTERN_STARTUP) 0 1000 true false "1. Startup" in
  999 < noteStartTime b /\
  sub32 999 (noteStartTime b) = 4294967295 /\
  exec update 999 b
  = Some (mkBuzzer 33 0 (Some PATTERN_STARTUP) 1 999 true false "1. Startup",
          [LedcWrite 0 0]).
Proof.
  cbv zeta. split; [cbn; lia|]. split; reflexivity.
Qed.

(** C2 (amended).  The elapsed time is the unsigned 32-bit difference
    [now - noteStartTime], with no clamp: when [now] is smaller than the
    recorded start it is [2^32 - (noteStartTime - now)], and [update()]
    leaves the state unchanged and writes nothing exactly when that wrapped
    value is still below the current note's duration; otherwise the note
    counts as elapsed and the call advances. *)
Theorem stale_clock_wraps_unsigned
    (b : IndustrialBuzzer) (note : BuzzerNote) (now : Z) :
  isPlaying b = true ->
  note_at (currentPattern b) (patternIndex b) = Some note ->
  0 <= now -> now < noteStartTime b -> noteStartTime b < 2 ^ 32 ->
  sub32 now (noteStartTime b) = 2 ^ 32 - (noteStartTime b - now)
  /\ (exec update now b = Some (b, []) <->
      2 ^ 32 - (noteStartTime b - now) < duration note).
Proof.
  intros Hp Hn H0 H1 H2.
  pose proof (sub32_stale now (noteStartTime b) H0 H1 H2) as Hs.
  split; [exact Hs|].
  assert (Hnn : isNull (currentPattern b) = false).
  { destruct (currentPattern b); [reflexivity|discriminate]. }
  rewrite <- Hs. rewrite exec_update, Hp, Hnn, Hn. cbn [negb orb].
  destruct (Z.leb_spec (duration note) (sub32 now (noteStartTime b))) as [Hle|Hlt].
  - split; [|lia]. intros Hx. exfalso.
    destruct (note_at (currentPattern b) (incr8 (patternIndex b))) as [nxt|];
      [|discriminate].
    destruct (is_end_marker nxt).
    + destruct (repeat b).
      * destruct (note_at (currentPattern b) 0) as [first|]; [|discriminate].
        injection Hx as _ Hout. exact (note_cmds_nonempty _ _ Hout).
      * discriminate.
    + injection Hx as _ Hout. exact (note_cmds_nonempty _ _ Hout).
  - split; [intros _; exact Hlt|reflexivity].
Qed.

Lemma stale_clock_wraps_unsigned_witness :
  sub32 999 1000 = 2 ^ 32 - (1000 - 999)
  /\ (exec update 999
        (mkBuzzer 33 0 (Some PATTERN_STARTUP) 0 1000 true false "1. Startup")
      = Some (mkBuzzer 33 0 (Some PATTERN_STARTUP) 0 1000 true false
                "1. Startup", []) <->
      2 ^ 32 - (1000 - 999) < 100).
Proof.
  apply (stale_clock_wraps_unsigned
           (mkBuzzer 33 0 (Some PATTERN_STARTUP) 0 1000 true false "1. Startup")
           (mkNote FREQ_LOW 100 VOLUME_MEDIUM) 999).
  - reflexivity.
  - reflexivity.
  - lia.
  - cbn. lia.
  - cbn. lia.
Defined.

(** ** Runs of polls *)

Lemma polls_cons (t : Z) (ts : list Z) (b b1 : IndustrialBuzzer)
    (out1 : list SinkCmd) :
  exec update t b = Some (b1, out1) ->
  polls (t :: ts) b =
  match polls ts b1 with
  | Some (b2, out2) => Some (b2, out1 ++ out2)
  | None => None
  end.
Proof. intros H. cbn [polls]. rewrite H. reflexivity. Qed.

Lemma polls_skip (t : Z) (ts : list Z) (b : IndustrialBuzzer) :
  exec update t b = Some (b, []) -> polls (t :: ts) b = polls ts b.
Proof.
  intros H. rewrite (polls_cons _ _ _ _ _ H).
  destruct (polls ts b) as [[b2 out2]|]; reflexivity.
Qed.

Lemma advances_cons (t : Z) (ts : list Z) (b b1 : IndustrialBuzzer)
    (out1 : list SinkCmd) :
  exec update t b = Some (b1, out1) ->
  advances (t :: ts) b = ((if due t b then 1 else 0) + advances ts b1)%nat.
Proof. intros H. cbn [advances]. rewrite H. reflexivity. Qed.

(** Polls on an idle object do nothing. *)
Lemma polls_idle (ts : list Z) (b : IndustrialBuzzer) :
  isPlaying b = false ->
  polls ts b = Some (b, []) /\ advances ts b = 0%nat.
Proof.
  intros Hidle. induction ts as [|t ts IH].
  - split; reflexivity.
  - assert (Hu : exec update t b = Some (b, [])) by (apply update_idle; auto).
    rewrite (polls_skip _ _ _ Hu), (advances_cons _ _ _ _ _ Hu).
    unfold due. rewrite Hidle. exact IH.
Qed.

(** Polls made before the current note has elapsed do nothing. *)
Lemma polls_early (ts : list Z) (b : IndustrialBuzzer) (note : BuzzerNote) :
  note_at (currentPattern b) (patternIndex b) = Some note ->
  Forall (fun t => due t b = false) ts ->
  forall later, polls (ts ++ later) b = polls later b.
Proof.
  intros Hn Hts later. induction Hts as [|t ts Ht _ IH].
  - reflexivity.
  - cbn [app]. rewrite polls_skip; [exact IH|].
    apply (update_not_due _ _ _ Hn Ht).
Qed.

Lemma incr8_small (i : Z) : 0 <= i < 255 -> incr8 i = i + 1.
Proof. intros H. unfold incr8. apply Z.mod_small. lia. Qed.

(** ** One poll, one step *)

(** C1, as the claim states it, fails: with 150 ms elapsed since the start
    of [PATTERN_STARTUP], polls at 100 and 150 reach note 2, a single poll at
    150 reaches note 1 only and restarts the note timer there. *)
Lemma one_poll_differs_from_many :
  let b0 := mkBuzzer 33 0 (Some PATTERN_STARTUP) 0 0 true false "1. Startup" in
  exec (playPattern (Some PATTERN_STARTUP) "1. Startup" false) 0 buzzer
  = Some (b0, [LedcWriteTone 0 800; LedcWrite 0 128]) /\
  polls [100; 150] b0
  = Some (mkBuzzer 33 0 (Some PATTERN_STARTUP) 2 150 true false "1. Startup",
          [LedcWrite 0 0; LedcWriteTone 0 1500; LedcWrite 0 128]) /\
  polls [150] b0
  = Some (mkBuzzer 33 0 (Some PATTERN_STARTUP) 1 150 true false "1. Startup",
          [LedcWrite 0 0]).
Proof. cbv zeta. repeat split. Qed.

(** C1 (amended).  [update()] tests the elapsed time once per call, so one
    poll advances by at most one step, however many step durations have
    elapsed.  A poll made while the current note's duration has not elapsed
    changes nothing and writes nothing, so any number of such early polls
    followed by a poll at [T] gives the same final state and the same sink
    writes as the single poll at [T].  A poll made when the duration has
    elapsed, by however much, does exactly one of four things, decided by
    the entry after the current one: if that entry is an ordinary note it
    becomes current, is written to the sink and the note timer restarts at
    the polling time; if it is the end marker and the loop flag is clear the
    object stops and silence is written; if it is the end marker and the
    loop flag is set note 0 becomes current, is written and the timer
    restarts at the polling time; if there is no such entry the call reads
    outside the array. *)
Theorem poll_advances_one_step_and_early_polls_are_void
    (b : IndustrialBuzzer) (cur : BuzzerNote) (T : Z) :
  isPlaying b = true ->
  note_at (currentPattern b) (patternIndex b) = Some cur ->
  (forall early,
     Forall (fun t => sub32 t (noteStartTime b) < duration cur) early ->
     polls (early ++ [T]) b = polls [T] b)
  /\ (sub32 T (noteStartTime b) < duration cur ->
      exec update T b = Some (b, []))
  /\ (duration cur <= sub32 T (noteStartTime b) ->
      (forall nxt,
         note_at (currentPattern b) (incr8 (patternIndex b)) = Some nxt ->
         is_end_marker nxt = false ->
         exec update T b
         = Some (mkBuzzer (pin b) (channel b) (currentPattern b)
                          (incr8 (patternIndex b)) T true (repeat b)
                          (currentName b),
                 note_cmds (channel b) nxt))
      /\ (forall nxt,
            note_at (currentPattern b) (incr8 (patternIndex b)) = Some nxt ->
            is_end_marker nxt = true -> repeat b = false ->
            exec update T b
            = Some (mkBuzzer (pin b) (channel b) (currentPattern b)
                             (incr8 (patternIndex b)) (noteStartTime b)
                             false false EmptyString,
                    silence (channel b)))
      /\ (forall nxt first,
            note_at (currentPattern b) (incr8 (patternIndex b)) = Some nxt ->
            is_end_marker nxt = true -> repeat b = true ->
            note_at (currentPattern b) 0 = Some first ->
            exec update T b
            = Some (mkBuzzer (pin b) (channel b) (currentPattern b) 0 T true
                             true (currentName b),
                    note_cmds (channel b) first))
      /\ (note_at (currentPattern b) (incr8 (patternIndex b)) = None ->
          exec update T b = None)
      /\ (forall nxt,
            note_at (currentPattern b) (incr8 (patternIndex b)) = Some nxt ->
            is_end_marker nxt = true -> repeat b = true ->
            note_at (currentPattern b) 0 = None ->
            exec update T b = None)).
Proof.
  intros Hp Hcur.
  assert (Hnn : isNull (currentPattern b) = false).
  { destruct (currentPattern b); [reflexivity|discriminate]. }
  split; [|split].
  - intros early Hearly.
    apply (polls_early early b cur Hcur).
    apply Forall_impl with (2 := Hearly). intros t Ht.
    unfold due. rewrite Hcur.
    destruct (Z.leb_spec (duration cur) (sub32 t (noteStartTime b))); [lia|].
    rewrite andb_false_r. reflexivity.
  - intros Hearly. apply Z.leb_gt in Hearly.
    rewrite exec_update, Hp, Hnn, Hcur, Hearly. reflexivity.
  - intros Hdue. apply Z.leb_le in Hdue.
    rewrite exec_update, Hp, Hnn, Hcur, Hdue. cbn [negb orb].
    split; [|split; [|split; [|split]]].
    + intros nxt -> ->.
      unfold set_noteStartTime, set_patternIndex. cbn. rewrite Hp.
      reflexivity.
    + intros nxt -> -> ->. reflexivity.
    + intros nxt first -> -> Hrep ->. rewrite Hrep.
      unfold set_noteStartTime, set_patternIndex. cbn.
      rewrite Hp, Hrep. reflexivity.
    + intros ->. reflexivity.
    + intros nxt -> -> -> ->. reflexivity.
Qed.

Lemma poll_advances_one_step_and_early_polls_are_void_witness :
  let b0 := mkBuzzer 33 0 (Some PATTERN_STARTUP) 0 0 true false "1. Startup" in
  polls ([10; 50; 99] ++ [450]) b0 = polls [450] b0 /\
  exec update 99 b0 = Some (b0, []) /\
  exec update 450 b0
  = Some (mkBuzzer 33 0 (Some PATTERN_STARTUP) 1 450 true false "1. Startup",
          [LedcWrite 0 0]).
Proof.
  cbv zeta.
  destruct (poll_advances_one_step_and_early_polls_are_void
              (mkBuzzer 33 0 (Some PATTERN_STARTUP) 0 0 true false "1. Startup")
              (mkNote FREQ_LOW 100 VOLUME_MEDIUM) 450 eq_refl eq_refl)
    as (Hearly & _ & Hdue).
  destruct (poll_advances_one_step_and_early_polls_are_void
              (mkBuzzer 33 0 (Some PATTERN_STARTUP) 0 0 true false "1. Startup")
              (mkNote FREQ_LOW 100 VOLUME_MEDIUM) 99 eq_refl eq_refl)
    as (_ & Hvoid & _).
  split; [|split].
  - apply Hearly. repeat constructor.
  - apply Hvoid. reflexivity.
  - destruct Hdue as (Hstep & _); [cbn; lia|].
    apply (Hstep (mkNote 0 50 0)); reflexivity.
Defined.

(** ** Stepping through a pattern *)

Lemma note_at_nat (P : list BuzzerNote) (i : nat) :
  note_at (Some P) (Z.of_nat i) = nth_error P i.
Proof. unfold note_at. rewrite Nat2Z.id. reflexivity. Qed.

(** A due poll at index [i], in closed form over the pattern's cells. *)
Lemma update_due (b : IndustrialBuzzer) (P : list BuzzerNote) (i : nat)
    (cur : BuzzerNote) (t : Z) :
  playing P (Z.of_nat i) b -> (i < 255)%nat ->
  nth_error P i = Some cur -> due t b = true ->
  exec update t b =
  match nth_error P (S i) with
  | None => None
  | Some nxt =>
      if is_end_marker nxt then
        if repeat b then
          match nth_error P 0 with
          | None => None
          | Some first =>
              Some (set_noteStartTime t (set_patternIndex 0 b),
                    note_cmds (channel b) first)
          end
        else
          Some (stopped (set_patternIndex (Z.of_nat (S i)) b),
                silence (channel b))
      else
        Some (set_noteStartTime t (set_patternIndex (Z.of_nat (S i)) b),
              note_cmds (channel b) nxt)
  end.
Proof.
  intros (Hp & Hc & Hi) Hlt Hcur Hdue.
  assert (Hn : note_at (Some P) (patternIndex b) = Some cur).
  { rewrite Hi, note_at_nat. exact Hcur. }
  rewrite (due_playing t b P cur Hp Hc Hn) in Hdue.
  rewrite exec_update, Hp, Hc, Hn, Hdue. cbn [negb orb isNull].
  rewrite Hi, incr8_small by lia.
  replace (Z.of_nat i + 1) with (Z.of_nat (S i)) by lia.
  rewrite note_at_nat. reflexivity.
Qed.

(** A poll that is not due, for an object playing inside its pattern. *)
Lemma update_wait (b : IndustrialBuzzer) (P : list BuzzerNote) (i : nat)
    (cur : BuzzerNote) (t : Z) :
  playing P (Z.of_nat i) b -> nth_error P i = Some cur ->
  due t b = false -> exec update t b = Some (b, []).
Proof.
  intros (Hp & Hc & Hi) Hcur Hdue.
  apply (update_not_due t b cur); [|exact Hdue].
  rewrite Hc, Hi, note_at_nat. exact Hcur.
Qed.

Lemma playing_next (b : IndustrialBuzzer) (P : list BuzzerNote) (i j : Z)
    (t : Z) :
  playing P i b -> playing P j (set_noteStartTime t (set_patternIndex j b)).
Proof. intros (Hp & Hc & _). repeat split; assumption. Qed.



Lemma sub32_exact (start d : Z) :
  0 <= d < 2 ^ 32 -> sub32 ((start + d) mod 2 ^ 32) start = d.
Proof.
  intros Hd. unfold sub32. rewrite Zminus_mod_idemp_l.
  replace (start + d - start) with d by ring. apply Z.mod_small. exact Hd.
Qed.

Lemma skipn_cons_nth (A : Type) (l : list A) (i : nat) (x : A) :
  nth_error l i = Some x -> skipn i l = x :: skipn (S i) l.
Proof.
  revert l. induction i as [|i IH]; intros [|y l] H; try discriminate.
  - injection H as ->. reflexivity.
  - cbn [skipn]. cbn [nth_error] in H. rewrite (IH l H). reflexivity.
Qed.

(** ** Patterns without an end marker *)

(** C3, as the claim states it, fails: [update()] has no guard.  On a
    two-note pattern without an end marker the first due poll moves to the
    last note, and the next due poll reads the cell after it. *)
Lemma unterminated_pattern_read_past_end :
  let P := [mkNote 800 100 128; mkNote 1500 100 128] in
  let b0 := mkBuzzer 33 0 (Some P) 0 0 true false "p" in
  unterminated P /\
  exec (playPattern (Some P) "p" false) 0 buzzer
  = Some (b0, [LedcWriteTone 0 800; LedcWrite 0 128]) /\
  exec update 100 b0
  = Some (mkBuzzer 33 0 (Some P) 1 100 true false "p",
          [LedcWriteTone 0 1500; LedcWrite 0 128]) /\
  note_at (Some P) 2 = None /\
  exec update 200 (mkBuzzer 33 0 (Some P) 1 100 true false "p") = None /\
  polls [100; 200] b0 = None.
Proof.
  cbv zeta. split; [repeat constructor|]. repeat split.
Qed.

Lemma unterminated_run (P : list BuzzerNote) :
  unterminated P -> (length P <= 255)%nat ->
  forall (ts : list Z) (i : nat) (b : IndustrialBuzzer),
    playing P (Z.of_nat i) b -> (i < length P)%nat ->
    (advances ts b <= length P - i)%nat /\
    ((advances ts b < length P - i)%nat ->
     exists b' out,
       polls ts b = Some (b', out) /\
       playing P (Z.of_nat (i + advances ts b)) b') /\
    (advances ts b = (length P - i)%nat -> polls ts b = None).
Proof.
  intros Hun Hlen. induction ts as [|t ts IH]; intros i b Hpl Hi.
  - cbn [advances polls]. split; [lia|]. split; [|lia].
    intros _. exists b, []. rewrite Nat.add_0_r. auto.
  - destruct (nth_error P i) as [cur|] eqn:Ecur.
    2:{ apply nth_error_None in Ecur. lia. }
    destruct (due t b) eqn:Edue.
    + pose proof (update_due b P i cur t Hpl ltac:(lia) Ecur Edue) as Hu.
      destruct (nth_error P (S i)) as [nxt|] eqn:Enxt.
      * assert (HSi : (S i < length P)%nat).
        { apply nth_error_Some. rewrite Enxt. discriminate. }
        assert (Hord : is_end_marker nxt = false).
        { unfold unterminated in Hun. rewrite Forall_forall in Hun.
          apply Hun. apply nth_error_In with (n := S i). exact Enxt. }
        rewrite Hord in Hu.
        rewrite (polls_cons _ _ _ _ _ Hu), (advances_cons _ _ _ _ _ Hu), Edue.
        destruct (IH (S i) _ (playing_next b P _ (Z.of_nat (S i)) t Hpl) HSi)
          as (IH1 & IH2 & IH3).
        split; [lia|]. split.
        -- intros Hlt. destruct IH2 as (b' & out & Hrun & Hpl'); [lia|].
           rewrite Hrun. eexists _, _. split; [reflexivity|].
           replace (i + (1 + advances ts _))%nat
             with (S i + advances ts
                     (set_noteStartTime t
                        (set_patternIndex (Z.of_nat (S i)) b)))%nat by lia.
           exact Hpl'.
        -- intros Heq. rewrite IH3; [reflexivity|lia].
      * assert (HSi : (length P <= S i)%nat) by (apply nth_error_None; exact Enxt).
        cbn [advances polls]. rewrite Hu, Edue.
        split; [lia|]. split; [lia|]. reflexivity.
    + pose proof (update_wait b P i cur t Hpl Ecur Edue) as Hu.
      rewrite (polls_skip _ _ _ Hu), (advances_cons _ _ _ _ _ Hu), Edue.
      exact (IH i b Hpl Hi).
Qed.

(** C3 (amended).  For a pattern without an end marker (at most 255 entries,
    the range of the 8-bit index) [update()] has no guard and no implicit
    terminator: step access stays in bounds, with the object still playing,
    only as long as fewer polls have been due than there are entries from the
    current one to the end; the due poll made while the last defined entry is
    current increments the index and reads the cell past the end of the
    array, so the error branch of the embedding is reached. *)
Theorem unterminated_pattern_overruns
    (P : list BuzzerNote) (i : nat) (b : IndustrialBuzzer) (ts : list Z) :
  unterminated P -> (length P <= 255)%nat ->
  playing P (Z.of_nat i) b -> (i < length P)%nat ->
  (polls ts b = None <-> advances ts b = (length P - i)%nat)
  /\ (polls ts b <> None ->
      exists b' out,
        polls ts b = Some (b', out) /\
        (advances ts b < length P - i)%nat /\
        playing P (Z.of_nat (i + advances ts b)) b').
Proof.
  intros Hun Hlen Hpl Hi.
  destruct (unterminated_run P Hun Hlen ts i b Hpl Hi) as (H1 & H2 & H3).
  destruct (Nat.eq_dec (advances ts b) (length P - i)) as [E|E].
  - split.
    + split; [intros _; exact E|exact H3].
    + intros Hne. elim Hne. exact (H3 E).
  - destruct H2 as (b' & out & Hrun & Hpl'); [lia|].
    split.
    + split; [rewrite Hrun; discriminate|intros E'; contradiction].
    + intros _. exists b', out. repeat split; try apply Hpl'; [exact Hrun|lia].
Qed.

Lemma unterminated_pattern_overruns_witness :
  let P := [mkNote 800 100 128; mkNote 1500 100 128] in
  let b0 := mkBuzzer 33 0 (Some P) 0 0 true false "p" in
  polls [50; 100; 150; 200; 300] b0 = None <->
  advances [50; 100; 150; 200; 300] b0 = (length P - 0)%nat.
Proof.
  cbv zeta.
  apply (unterminated_pattern_overruns
           [mkNote 800 100 128; mkNote 1500 100 128] 0
           (mkBuzzer 33 0 (Some [mkNote 800 100 128; mkNote 1500 100 128])
                     0 0 true false "p")
           [50; 100; 150; 200; 300]).
  - repeat constructor.
  - cbn. lia.
  - repeat split.
  - cbn. lia.
Defined.

(** ** Patterns with an end marker *)

Section EndMarked.

Variables steps P : list BuzzerNote.
Hypothesis Hwf : ends_after steps P.
Hypothesis Hlen : (length steps <= 255)%nat.

Lemma ends_after_ordinary (i : nat) :
  (i < length steps)%nat ->
  exists note,
    nth_error P i = Some note /\
    nth_error steps i = Some note /\
    nth i steps (mkNote 0 0 0) = note /\
    is_end_marker note = false.
Proof using Hwf.
  clear Hlen.
  destruct Hwf as (marker & rest & -> & _ & Hord). intros Hi.
  destruct (nth_error steps i) as [note|] eqn:E.
  2:{ apply nth_error_None in E. lia. }
  exists note. rewrite nth_error_app1 by exact Hi. repeat split.
  - exact E.
  - apply nth_error_nth. exact E.
  - rewrite Forall_forall in Hord. apply Hord.
    apply nth_error_In with (n := i). exact E.
Qed.

Lemma ends_after_marker :
  exists marker,
    nth_error P (length steps) = Some marker /\ is_end_marker marker = true.
Proof using Hwf.
  clear Hlen.
  destruct Hwf as (marker & rest & -> & Hm & _). exists marker.
  rewrite nth_error_app2 by lia. rewrite Nat.sub_diag.
  split; [reflexivity|exact Hm].
Qed.

(** A due poll of a looping pattern: one step forward, round the cycle. *)
Lemma looping_step (i : nat) (b : IndustrialBuzzer) (t : Z) :
  playing P (Z.of_nat i) b -> repeat b = true -> (i < length steps)%nat ->
  due t b = true ->
  exec update t b
  = Some (set_noteStartTime t
            (set_patternIndex (Z.of_nat (S i mod length steps)) b),
          note_cmds (channel b)
            (nth (S i mod length steps) steps (mkNote 0 0 0))).
Proof using Hwf Hlen.
  intros Hpl Hrep Hi Hdue.
  destruct (ends_after_ordinary i Hi) as (cur & Ecur & _).
  rewrite (update_due b P i cur t Hpl ltac:(lia) Ecur Hdue), Hrep.
  destruct (Nat.eq_dec (S i) (length steps)) as [Elast|Emid].
  - destruct ends_after_marker as (marker & Em & Hm).
    destruct (ends_after_ordinary 0 ltac:(lia))
      as (first & Efirst & _ & Hfirst & _).
    rewrite Elast, Em, Hm, Efirst, Nat.Div0.mod_same, Hfirst. reflexivity.
  - destruct (ends_after_ordinary (S i) ltac:(lia))
      as (nxt & Enxt & _ & Hnth & Hord).
    rewrite Enxt, Hord, Nat.mod_small, Hnth by lia. reflexivity.
Qed.


Hypothesis Hdur : Forall (fun n => 0 <= duration n < 2 ^ 16) steps.



End EndMarked.

(** ** Playing a pattern once *)

Lemma sum_durations_cons (n : BuzzerNote) (l : list BuzzerNote) :
  sum_durations (n :: l) = duration n + sum_durations l.
Proof. reflexivity. Qed.

Lemma sum_durations_nonneg (l : list BuzzerNote) :
  Forall (fun n => 0 <= duration n < 2 ^ 16) l -> 0 <= sum_durations l.
Proof.
  induction 1 as [|n l Hn _ IH]; [reflexivity|].
  rewrite sum_durations_cons. lia.
Qed.

Lemma nondecreasing_from (s t : Z) (ts : list Z) :
  s <= t -> nondecreasing t ts -> nondecreasing s ts.
Proof. destruct ts as [|u ts]; [reflexivity|]. cbn. intros H [H1 H2]. split; [lia|exact H2]. Qed.

Lemma last_nonempty (A : Type) (x : A) (l : list A) (d1 d2 : A) :
  last (x :: l) d1 = last (x :: l) d2.
Proof.
  revert x. induction l as [|y l IH]; intros x; [reflexivity|].
  change (last (x :: y :: l) d1) with (last (y :: l) d1).
  change (last (x :: y :: l) d2) with (last (y :: l) d2). apply IH.
Qed.

Lemma polls_nil_inv (b b' : IndustrialBuzzer) (out : list SinkCmd) :
  polls [] b = Some (b', out) -> b' = b.
Proof. cbn [polls]. congruence. Qed.

Section PlayedOnce.

Variables steps P : list BuzzerNote.
Hypothesis Hwf : ends_after steps P.
Hypothesis Hlen : (length steps <= 255)%nat.

(** Runs with looping disabled, by the number of due polls: what is written
    and where the object is left. *)
Lemma nonlooping_trace (ts : list Z) :
  forall (i : nat) (b : IndustrialBuzzer),
    playing P (Z.of_nat i) b -> repeat b = false -> (i < length steps)%nat ->
    exists b',
      polls ts b
      = Some (b',
              flat_map (note_cmds (channel b))
                (firstn (advances ts b) (skipn (S i) steps)) ++
              (if (advances ts b =? length steps - i)%nat
               then silence (channel b) else [])) /\
      (advances ts b <= length steps - i)%nat /\
      patternIndex b' = Z.of_nat (i + advances ts b) /\
      isPlaying b' = negb (advances ts b =? length steps - i)%nat.
Proof using Hwf Hlen.
  induction ts as [|t ts IH]; intros i b Hpl Hrep Hi.
  - exists b. cbn [advances polls firstn flat_map app].
    destruct (Nat.eqb_spec 0 (length steps - i)) as [E|_]; [lia|].
    split; [reflexivity|]. split; [lia|].
    destruct Hpl as (Hp & _ & Hidx). rewrite Nat.add_0_r. auto.
  - destruct (ends_after_ordinary steps P Hwf i Hi) as (cur & Ecur & _).
    destruct (due t b) eqn:Edue.
    + pose proof (update_due b P i cur t Hpl ltac:(lia) Ecur Edue) as Hu.
      rewrite Hrep in Hu.
      destruct (Nat.eq_dec (S i) (length steps)) as [Elast|Emid].
      * destruct (ends_after_marker steps P Hwf) as (marker & Em & Hm).
        rewrite Elast, Em, Hm in Hu.
        rewrite (polls_cons _ _ _ _ _ Hu), (advances_cons _ _ _ _ _ Hu), Edue.
        destruct (polls_idle ts
                    (stopped (set_patternIndex (Z.of_nat (length steps)) b))
                    eq_refl) as (Hrun & Hadv).
        rewrite Hrun, Hadv. eexists. rewrite Elast, skipn_all.
        replace (1 + 0 =? length steps - i)%nat with true
          by (symmetry; apply Nat.eqb_eq; lia).
        rewrite firstn_nil. cbn [flat_map app]. rewrite app_nil_r.
        split; [reflexivity|]. split; [lia|].
        split; [cbn; f_equal; lia|reflexivity].
      * destruct (ends_after_ordinary steps P Hwf (S i) ltac:(lia))
          as (nxt & Enxt & Enxt' & _ & Hord).
        rewrite Enxt, Hord in Hu.
        rewrite (polls_cons _ _ _ _ _ Hu), (advances_cons _ _ _ _ _ Hu), Edue.
        destruct (IH (S i) _ (playing_next b P _ (Z.of_nat (S i)) t Hpl)
                     Hrep ltac:(lia))
          as (b' & Hrun & Hle & Hidx & Hact).
        rewrite Hrun. exists b'.
        set (a := advances ts _) in *.
        rewrite (skipn_cons_nth _ steps (S i) nxt Enxt').
        cbn [Nat.add firstn flat_map].
        replace (S a =? length steps - i)%nat
          with (a =? length steps - S i)%nat
          by (destruct (Nat.eqb_spec a (length steps - S i));
              destruct (Nat.eqb_spec (S a) (length steps - i)); lia).
        cbn [channel set_noteStartTime set_patternIndex] in *.
        rewrite <- app_assoc.
        split; [reflexivity|]. split; [lia|].
        split; [rewrite Hidx; f_equal; lia|exact Hact].
    + pose proof (update_wait b P i cur t Hpl Ecur Edue) as Hu.
      rewrite (polls_skip _ _ _ Hu), (advances_cons _ _ _ _ _ Hu), Edue.
      exact (IH i b Hpl Hrep Hi).
Qed.

Hypothesis Hdur : Forall (fun n => 0 <= duration n < 2 ^ 16) steps.

Lemma skipn_durations (i : nat) :
  Forall (fun n => 0 <= duration n < 2 ^ 16) (skipn i steps).
Proof using Hdur.
  rewrite Forall_forall in *. intros n Hn. apply Hdur.
  rewrite <- (firstn_skipn i steps). apply in_or_app. right. exact Hn.
Qed.

(** With a clock that does not go back, the pattern is still playing while
    the time left of the remaining steps has not elapsed. *)
Lemma nonlooping_not_before (ts : list Z) :
  forall (i : nat) (b : IndustrialBuzzer),
    playing P (Z.of_nat i) b -> repeat b = false -> (i < length steps)%nat ->
    0 <= noteStartTime b ->
    nondecreasing (noteStartTime b) ts ->
    Forall (fun t => t < 2 ^ 32 /\
                     t < noteStartTime b + sum_durations (skipn i steps)) ts ->
    (advances ts b < length steps - i)%nat.
Proof using Hwf Hlen Hdur.
  induction ts as [|t ts IH]; intros i b Hpl Hrep Hi Hs Hmono Hbefore.
  - cbn [advances]. lia.
  - destruct (ends_after_ordinary steps P Hwf i Hi) as (cur & Ecur & Ecur' & _).
    cbn [nondecreasing] in Hmono. destruct Hmono as [Hst Hmono].
    inversion Hbefore as [|t' ts' [Ht32 Htsum] Hrest]; subst.
    pose proof (skipn_durations i) as Hdi.
    rewrite (skipn_cons_nth _ steps i cur Ecur') in Htsum, Hrest, Hdi.
    rewrite sum_durations_cons in Htsum.
    inversion Hdi as [|c l Hcur Hl]; subst.
    pose proof (sum_durations_nonneg _ Hl) as Hnn.
    assert (Hsub : sub32 t (noteStartTime b) = t - noteStartTime b).
    { unfold sub32. apply Z.mod_small. lia. }
    destruct Hpl as (Hp & Hc & Hidx).
    assert (Hn : note_at (Some P) (patternIndex b) = Some cur).
    { rewrite Hidx, note_at_nat. exact Ecur. }
    pose proof (due_playing t b P cur Hp Hc Hn) as Hd.
    rewrite Hsub in Hd.
    destruct (due t b) eqn:Edue.
    + symmetry in Hd. apply Z.leb_le in Hd.
      pose proof (update_due b P i cur t (conj Hp (conj Hc Hidx))
                    ltac:(lia) Ecur Edue) as Hu.
      rewrite Hrep in Hu.
      destruct (Nat.eq_dec (S i) (length steps)) as [Elast|Emid].
      * exfalso. rewrite Elast, skipn_all in Htsum.
        change (sum_durations []) with 0 in Htsum. lia.
      * destruct (ends_after_ordinary steps P Hwf (S i) ltac:(lia))
          as (nxt & Enxt & _ & _ & Hord).
        rewrite Enxt, Hord in Hu.
        rewrite (advances_cons _ _ _ _ _ Hu), Edue.
        assert (Hnext : (advances ts
                           (set_noteStartTime t
                              (set_patternIndex (Z.of_nat (S i)) b))
                         < length steps - S i)%nat).
        { apply IH.
          - apply (playing_next b P (Z.of_nat i) (Z.of_nat (S i)) t).
            repeat split; assumption.
          - exact Hrep.
          - lia.
          - cbn. lia.
          - exact Hmono.
          - apply Forall_impl with (2 := Hrest). cbn. intros u [Hu32 Husum].
            split; [exact Hu32|lia]. }
        lia.
    + pose proof (update_wait b P i cur t (conj Hp (conj Hc Hidx)) Ecur Edue)
        as Hu.
      rewrite (advances_cons _ _ _ _ _ Hu), Edue. cbn [Nat.add].
      apply IH; try assumption; try (repeat split; assumption).
      * apply (nondecreasing_from _ t); assumption.
      * rewrite (skipn_cons_nth _ steps i cur Ecur'). exact Hrest.
Qed.

(** Polls made on schedule play the rest of the pattern and stop it with
    the poll on the last boundary. *)
Lemma nonlooping_on_schedule (s : Z) (ds ts : list Z) :
  on_schedule s ds ts ->
  forall (i : nat) (b : IndustrialBuzzer),
    playing P (Z.of_nat i) b -> repeat b = false -> (i < length steps)%nat ->
    noteStartTime b = s -> 0 <= s < 2 ^ 32 ->
    ds = map duration (skipn i steps) ->
    polls ts b
    = Some (mkBuzzer (pin b) (channel b) (Some P) (Z.of_nat (length steps))
              ((s + sum_durations (removelast (skipn i steps))) mod 2 ^ 32)
              false false EmptyString,
            flat_map (note_cmds (channel b)) (skipn (S i) steps) ++
            silence (channel b)) /\
    last ts s = (s + sum_durations (skipn i steps)) mod 2 ^ 32.
Proof using Hwf Hlen Hdur.
  induction 1 as [s|s d ds e ts He _ IH|s d ds ts Hsched IH];
    intros i b Hpl Hrep Hi Hs Hrange Hds.
  - exfalso. pose proof (f_equal (@length Z) Hds) as Hl.
    rewrite length_map, length_skipn in Hl. cbn in Hl. lia.
  - destruct (ends_after_ordinary steps P Hwf i Hi) as (cur & Ecur & Ecur' & _).
    pose proof (skipn_durations i) as Hdi.
    pose proof (skipn_cons_nth _ steps i cur Ecur') as Hsk.
    assert (Hd : d = duration cur).
    { rewrite Hsk in Hds. cbn [map] in Hds. congruence. }
    assert (Hcur : 0 <= duration cur < 2 ^ 16).
    { rewrite Hsk in Hdi. inversion Hdi. assumption. }
    destruct Hpl as (Hp & Hc & Hidx).
    assert (Hn : note_at (Some P) (patternIndex b) = Some cur).
    { rewrite Hidx, note_at_nat. exact Ecur. }
    assert (Edue : due ((s + e) mod 2 ^ 32) b = false).
    { rewrite (due_playing _ b P cur Hp Hc Hn), Hs, sub32_exact by lia.
      apply Z.leb_gt. lia. }
    pose proof (update_wait b P i cur _ (conj Hp (conj Hc Hidx)) Ecur Edue)
      as Hu.
    rewrite (polls_skip _ _ _ Hu).
    destruct (IH i b (conj Hp (conj Hc Hidx)) Hrep Hi Hs Hrange Hds)
      as (Hrun & Hlast).
    split; [exact Hrun|].
    destruct ts as [|u ts]; [|exact Hlast].
    exfalso. apply polls_nil_inv in Hrun.
    apply (f_equal isPlaying) in Hrun. cbn in Hrun. congruence.
  - destruct (ends_after_ordinary steps P Hwf i Hi) as (cur & Ecur & Ecur' & _).
    pose proof (skipn_durations i) as Hdi.
    pose proof (skipn_cons_nth _ steps i cur Ecur') as Hsk.
    remember (skipn (S i) steps) as rest eqn:Erest.
    rewrite Hsk in Hds, Hdi |- *.
    cbn [map] in Hds.
    assert (Hd : d = duration cur) by congruence.
    assert (Hds' : ds = map duration rest) by congruence.
    assert (Hcur : 0 <= duration cur < 2 ^ 16) by (inversion Hdi; assumption).
    clear Hds Hdi.
    destruct Hpl as (Hp & Hc & Hidx).
    assert (Hn : note_at (Some P) (patternIndex b) = Some cur).
    { rewrite Hidx, note_at_nat. exact Ecur. }
    assert (Edue : due ((s + d) mod 2 ^ 32) b = true).
    { rewrite (due_playing _ b P cur Hp Hc Hn), Hs, sub32_exact by lia.
      apply Z.leb_le. lia. }
    pose proof (update_due b P i cur _ (conj Hp (conj Hc Hidx))
                  ltac:(lia) Ecur Edue) as Hu.
    rewrite Hrep in Hu. rewrite sum_durations_cons.
    destruct (Nat.eq_dec (S i) (length steps)) as [Elast|Emid].
    + destruct (ends_after_marker steps P Hwf) as (marker & Em & Hm).
      rewrite Elast, Em, Hm in Hu.
      rewrite (polls_cons _ _ _ _ _ Hu).
      rewrite Elast, skipn_all in Erest. subst rest.
      assert (ts = []) as ->.
      { cbn [map] in Hds'. subst ds. inversion Hsched. reflexivity. }
      cbn [polls removelast flat_map app last]. rewrite app_nil_r.
      change (sum_durations []) with 0.
      rewrite !Z.add_0_r, (Z.mod_small s) by lia.
      unfold stopped, set_patternIndex. cbn. rewrite Hc, Hs, Hd.
      split; reflexivity.
    + destruct (ends_after_ordinary steps P Hwf (S i) ltac:(lia))
        as (nxt & Enxt & Enxt' & _ & Hord).
      rewrite Enxt, Hord in Hu.
      rewrite (polls_cons _ _ _ _ _ Hu).
      assert (Hr : 0 <= (s + d) mod 2 ^ 32 < 2 ^ 32)
        by (apply Z.mod_pos_bound; lia).
      assert (Hds2 : ds = map duration (skipn (S i) steps)) by congruence.
      destruct (IH (S i) _
                  (playing_next b P _ (Z.of_nat (S i)) ((s + d) mod 2 ^ 32)
                     (conj Hp (conj Hc Hidx)))
                  Hrep ltac:(lia) eq_refl Hr Hds2)
        as (Hrun & Hlast).
      rewrite <- Erest in Hrun, Hlast.
      rewrite Hrun.
      pose proof (skipn_cons_nth _ steps (S i) nxt Enxt') as Hsk2.
      rewrite <- Erest in Hsk2.
      remember (skipn (S (S i)) steps) as rest2 eqn:Erest2.
      rewrite Hsk2 in Hlast |- *.
      cbn [flat_map].
      change (removelast (cur :: nxt :: rest2))
        with (cur :: removelast (nxt :: rest2)).
      rewrite !sum_durations_cons.
      rewrite !Zplus_mod_idemp_l, <- !Z.add_assoc, <- Hd.
      split.
      * cbn [pin channel set_noteStartTime set_patternIndex].
        rewrite <- app_assoc. reflexivity.
      * destruct ts as [|u ts].
        -- exfalso. apply polls_nil_inv in Hrun.
           apply (f_equal isPlaying) in Hrun. cbn in Hrun. congruence.
        -- change (last (((s + d) mod 2 ^ 32) :: u :: ts) s)
             with (last (u :: ts) s).
           rewrite (last_nonempty _ u ts s ((s + d) mod 2 ^ 32)), Hlast.
           rewrite sum_durations_cons, Zplus_mod_idemp_l, <- !Z.add_assoc.
           reflexivity.
Qed.

End PlayedOnce.

(** C4, as the claim states it, fails: elapsed time beyond the sum of the
    durations (80 + 80 + 200 = 360 ms for [PATTERN_SUCCESS]) does not finish
    the pattern.  A single poll at 361 advances one step only, and so do
    polls that straddle the step boundaries; in both runs the object is still
    active and the last sink write is a tone's duty, not silence. *)
Lemma elapsed_sum_does_not_complete :
  let b0 := mkBuzzer 33 0 (Some PATTERN_SUCCESS) 0 0 true false "4. Success" in
  exec (playPattern (Some PATTERN_SUCCESS) "4. Success" false) 0 buzzer
  = Some (b0, [LedcWriteTone 0 800; LedcWrite 0 128]) /\
  polls [361] b0
  = Some (mkBuzzer 33 0 (Some PATTERN_SUCCESS) 1 361 true false "4. Success",
          [LedcWriteTone 0 1500; LedcWrite 0 128]) /\
  polls [79; 158; 237; 316; 361] b0
  = Some (mkBuzzer 33 0 (Some PATTERN_SUCCESS) 2 316 true false "4. Success",
          [LedcWriteTone 0 1500; LedcWrite 0 128;
           LedcWriteTone 0 2500; LedcWrite 0 128]).
Proof. cbv zeta. repeat split. Qed.

(** C4 (amended).  For a pattern whose end marker follows N ordinary steps
    (1 <= N <= 255), started with looping disabled at clock value [t0]:
    - [playPattern] leaves the object playing step 0 with the note timer at
      [t0], and writes step 0;
    - every poll advances at most one step, so what a run of polls does is
      fixed by the number [k] of its polls that found the current step's
      duration elapsed: no run fails, [k] is at most N, the sink has received
      steps 1 to [k] (for [k < N]) and [isActive()] is true, or steps 1 to
      N - 1 followed by the silence writes (for [k = N]) and [isActive()] is
      false; the index is [k];
    - with a clock that neither goes back nor rolls over, [isActive()] is
      true after every run of polls made before the sum of the durations has
      elapsed since [t0];
    - when every step is ended by a poll made exactly when its duration has
      elapsed, whatever polls are made before that, the pattern completes
      exactly when the sum of the durations has elapsed: the last poll is at
      [t0 + sum] (modulo 2^32), it leaves the object idle, and the sink has
      received steps 1 to N - 1 and then silence;
    - elapsed time beyond the sum does not complete the pattern by itself
      (the counterexample above): a late poll advances one step only;
    - the poll that crosses into the end marker performs [stop()]: it writes
      silence and nothing else, and leaves the object idle. *)
Theorem nonlooping_pattern_completes_after_N_due_polls
    (steps P : list BuzzerNote) (b0 : IndustrialBuzzer) (name : string)
    (t0 : Z) (ts : list Z) :
  ends_after steps P -> (1 <= length steps <= 255)%nat ->
  let b1 := mkBuzzer (pin b0) (channel b0) (Some P) 0 t0 true false name in
  exec (playPattern (Some P) name false) t0 b0
  = Some (b1, note_cmds (channel b0) (nth 0 steps (mkNote 0 0 0)))
  /\ (exists b',
        polls ts b1
        = Some (b',
                flat_map (note_cmds (channel b0))
                  (firstn (advances ts b1) (tl steps)) ++
                (if (advances ts b1 =? length steps)%nat
                 then silence (channel b0) else [])) /\
        (advances ts b1 <= length steps)%nat /\
        patternIndex b' = Z.of_nat (advances ts b1) /\
        isActive t0 b'
        = Some (negb (advances ts b1 =? length steps)%nat, b', []))
  /\ (Forall (fun n => 0 <= duration n < 2 ^ 16) steps ->
      0 <= t0 -> nondecreasing t0 ts ->
      Forall (fun t => t < 2 ^ 32 /\ t < t0 + sum_durations steps) ts ->
      exists b' out,
        polls ts b1 = Some (b', out) /\
        isActive t0 b' = Some (true, b', []))
  /\ (Forall (fun n => 0 <= duration n < 2 ^ 16) steps ->
      0 <= t0 < 2 ^ 32 ->
      on_schedule t0 (map duration steps) ts ->
      polls ts b1
      = Some (mkBuzzer (pin b0) (channel b0) (Some P)
                (Z.of_nat (length steps))
                ((t0 + sum_durations (removelast steps)) mod 2 ^ 32)
                false false EmptyString,
              flat_map (note_cmds (channel b0)) (tl steps) ++
              silence (channel b0)) /\
      last ts t0 = (t0 + sum_durations steps) mod 2 ^ 32)
  /\ (forall b t,
        playing P (Z.of_nat (length steps - 1)) b -> repeat b = false ->
        due t b = true ->
        exec update t b
        = Some (mkBuzzer (pin b) (channel b) (Some P)
                         (Z.of_nat (length steps)) (noteStartTime b) false
                         false EmptyString,
                [LedcWriteTone (channel b) 0; LedcWrite (channel b) 0])).
Proof.
  intros Hwf [Hpos Hlen] b1.
  assert (Hpl : playing P (Z.of_nat 0) b1) by (repeat split).
  destruct (nonlooping_trace steps P Hwf Hlen ts 0 b1 Hpl eq_refl ltac:(lia))
    as (b' & Hrun & Hle & Hidx & Hact).
  rewrite Nat.sub_0_r in Hrun, Hle, Hact.
  change (skipn 1 steps) with (tl steps) in Hrun.
  cbn [channel b1] in Hrun.
  split; [|split; [|split; [|split]]].
  - destruct (ends_after_ordinary steps P Hwf 0 ltac:(lia))
      as (first & Efirst & _ & Hnth & _).
    pose proof (exec_playPattern (Some P) name false t0 b0) as Hstart.
    change 0 with (Z.of_nat 0) in Hstart at 1.
    rewrite note_at_nat, Efirst in Hstart. rewrite Hnth. exact Hstart.
  - exists b'. split; [exact Hrun|]. split; [exact Hle|].
    split; [exact Hidx|]. unfold isActive, get. rewrite Hact. reflexivity.
  - intros Hdur Ht0 Hmono Hbefore.
    pose proof (nonlooping_not_before steps P Hwf Hlen Hdur ts 0 b1 Hpl
                  eq_refl ltac:(lia) Ht0 Hmono Hbefore) as Hlt.
    rewrite Nat.sub_0_r in Hlt.
    eexists b', _. split; [exact Hrun|].
    unfold isActive, get. rewrite Hact.
    destruct (Nat.eqb_spec (advances ts b1) (length steps)); [lia|].
    reflexivity.
  - intros Hdur Ht0 Hsched.
    exact (nonlooping_on_schedule steps P Hwf Hlen Hdur t0
             (map duration steps) ts Hsched 0 b1 Hpl eq_refl ltac:(lia)
             eq_refl Ht0 eq_refl).
  - intros b t Hplb Hrep Hdue.
    destruct (ends_after_ordinary steps P Hwf (length steps - 1) ltac:(lia))
      as (cur & Ecur & _).
    rewrite (update_due b P (length steps - 1) cur t Hplb ltac:(lia) Ecur Hdue).
    replace (S (length steps - 1)) with (length steps) by lia.
    destruct (ends_after_marker steps P Hwf) as (marker & -> & ->).
    rewrite Hrep. destruct Hplb as (_ & Hc & _).
    unfold stopped, set_patternIndex, silence. cbn. rewrite Hc. reflexivity.
Qed.

Lemma nonlooping_pattern_completes_after_N_due_polls_witness :
  let b1 := mkBuzzer 33 0 (Some PATTERN_SUCCESS) 0 0 true false "4. Success" in
  let ts := [10; 80; 100; 160; 359; 360] in
  ends_after [mkNote 800 80 128; mkNote 1500 80 128; mkNote 2500 200 128]
             PATTERN_SUCCESS /\
  on_schedule 0 [80; 80; 200] ts /\
  polls ts b1
  = Some (mkBuzzer 33 0 (Some PATTERN_SUCCESS) 3 160 false false EmptyString,
          [LedcWriteTone 0 1500; LedcWrite 0 128;
           LedcWriteTone 0 2500; LedcWrite 0 128;
           LedcWriteTone 0 0; LedcWrite 0 0]) /\
  last ts 0 = 360.
Proof.
  cbv zeta.
  assert (Hwf : ends_after
                  [mkNote 800 80 128; mkNote 1500 80 128; mkNote 2500 200 128]
                  PATTERN_SUCCESS).
  { exists (mkNote 0 0 0), []. split; [reflexivity|].
    split; [reflexivity|]. repeat constructor. }
  assert (Hsched : on_schedule 0 [80; 80; 200] [10; 80; 100; 160; 359; 360]).
  { apply (schedule_early 0 80 [80; 200] 10); [lia|].
    apply (schedule_boundary 0 80 [80; 200]).
    apply (schedule_early 80 80 [200] 20); [lia|].
    apply (schedule_boundary 80 80 [200]).
    apply (schedule_early 160 200 [] 199); [lia|].
    apply (schedule_boundary 160 200 []).
    apply schedule_done. }
  split; [exact Hwf|]. split; [exact Hsched|].
  destruct (nonlooping_pattern_completes_after_N_due_polls
              [mkNote 800 80 128; mkNote 1500 80 128; mkNote 2500 200 128]
              PATTERN_SUCCESS buzzer "4. Success" 0
              [10; 80; 100; 160; 359; 360] Hwf)
    as (_ & _ & _ & Hon & _).
  - cbn. lia.
  - apply Hon.
    + repeat constructor; cbn; lia.
    + lia.
    + exact Hsched.
Defined.

(** ** Playing a pattern in a loop *)




(** ** The index invariant *)

Lemma incr8_cases (i : Z) :
  0 <= i <= 255 ->
  (i < 255 /\ incr8 i = i + 1) \/ (i = 255 /\ incr8 i = 0).
Proof.
  intros H. destruct (Z.eq_dec i 255) as [->|Hne].
  - right. split; reflexivity.
  - left. split; [lia|]. apply incr8_small. lia.
Qed.

Lemma note_at_Z (P : list BuzzerNote) (i : Z) :
  0 <= i -> note_at (Some P) i = nth_error P (Z.to_nat i).
Proof. reflexivity. Qed.

Lemma playPattern_in_pattern (b : IndustrialBuzzer) (t : Z)
    (steps P : list BuzzerNote) (name : string) (rp : bool) :
  ends_after steps P -> steps <> [] ->
  exists b' out,
    exec (playPattern (Some P) name rp) t b = Some (b', out) /\
    in_pattern b'.
Proof.
  intros Hwf Hne.
  assert (Hpos : (0 < length steps)%nat).
  { destruct steps; [contradiction|cbn; lia]. }
  destruct (ends_after_ordinary steps P Hwf 0 Hpos) as (first & E & _).
  rewrite exec_playPattern. change 0 with (Z.of_nat 0) at 1.
  rewrite note_at_nat, E. eexists _, _. split; [reflexivity|].
  intros _. exists steps, P. cbn. repeat split; try assumption; lia.
Qed.

Lemma update_keeps_in_pattern (b : IndustrialBuzzer) (t : Z) :
  in_pattern b ->
  exists b' out, exec update t b = Some (b', out) /\ in_pattern b'.
Proof.
  intros Hinv. rewrite exec_update.
  destruct (isPlaying b) eqn:Hp.
  2:{ eexists _, _. split; [reflexivity|]. intros H. congruence. }
  destruct (Hinv Hp) as (steps & P & Hc & Hwf & Hidx & H8).
  rewrite Hc. cbn [negb orb isNull].
  destruct (ends_after_ordinary steps P Hwf (Z.to_nat (patternIndex b))
              ltac:(lia)) as (cur & Ecur & _).
  rewrite note_at_Z, Ecur by lia.
  destruct (duration cur <=? sub32 t (noteStartTime b)).
  2:{ eexists _, _. split; [reflexivity|exact Hinv]. }
  destruct (incr8_cases (patternIndex b) ltac:(lia)) as [[Hlt ->]|[H255 ->]].
  + destruct (Z.eq_dec (patternIndex b + 1) (Z.of_nat (length steps)))
      as [Elast|Emid].
    * (* the next cell is the end marker *)
      destruct (ends_after_marker steps P Hwf) as (marker & Em & Hm).
      rewrite note_at_Z, Elast, Nat2Z.id, Em, Hm by lia.
      destruct (repeat b) eqn:Hrep.
      -- destruct (ends_after_ordinary steps P Hwf 0 ltac:(lia))
           as (first & Efirst & _).
         rewrite note_at_Z by lia. change (Z.to_nat 0) with 0%nat.
         rewrite Efirst. eexists _, _. split; [reflexivity|].
         intros _. exists steps, P. cbn. repeat split; try assumption; lia.
      -- eexists _, _. split; [reflexivity|]. intros H. discriminate.
    * destruct (ends_after_ordinary steps P Hwf
                  (Z.to_nat (patternIndex b + 1)) ltac:(lia))
        as (nxt & Enxt & _ & _ & Hord).
      rewrite note_at_Z, Enxt, Hord by lia.
      eexists _, _. split; [reflexivity|].
      intros _. exists steps, P. cbn. repeat split; try assumption; lia.
  + (* the index wraps from 255 to 0 *)
    destruct (ends_after_ordinary steps P Hwf 0 ltac:(lia))
      as (first & Efirst & _ & _ & Hord).
    rewrite note_at_Z by lia. change (Z.to_nat 0) with 0%nat.
    rewrite Efirst, Hord. eexists _, _. split; [reflexivity|].
    intros _. exists steps, P. cbn. repeat split; try assumption; lia.
Qed.

(** X1. Patterns that have an end marker after at least one ordinary note are
    safe for any sequence of calls: the constructor, [playPattern] with such a
    pattern, [stop] and [update] each establish or keep the index invariant,
    and under it [update] never reads outside the array, at any clock value
    and for any pattern length. *)
Theorem index_invariant_kept (b : IndustrialBuzzer) (t : Z) :
  (forall p c, in_pattern (new_IndustrialBuzzer p c))
  /\ (forall steps P name rp,
        ends_after steps P -> steps <> [] ->
        exists b' out,
          exec (playPattern (Some P) name rp) t b = Some (b', out) /\
          in_pattern b')
  /\ (exists b' out, exec stop t b = Some (b', out) /\ in_pattern b')
  /\ (in_pattern b ->
      exists b' out, exec update t b = Some (b', out) /\ in_pattern b').
Proof.
  split; [|split; [|split]].
  - intros p c Hp. discriminate.
  - intros steps P name rp. apply playPattern_in_pattern.
  - rewrite exec_stop. eexists _, _. split; [reflexivity|].
    intros Hp. discriminate.
  - apply update_keeps_in_pattern.
Qed.

Lemma index_invariant_kept_witness :
  in_pattern (mkBuzzer 33 0 (Some PATTERN_ACK) 0 40 true false "6. Acknowledge")
  /\ exists b' out,
       exec update 100
         (mkBuzzer 33 0 (Some PATTERN_ACK) 0 40 true false "6. Acknowledge")
       = Some (b', out) /\ in_pattern b'.
Proof.
  assert (H : in_pattern
                (mkBuzzer 33 0 (Some PATTERN_ACK) 0 40 true false
                          "6. Acknowledge")).
  { intros _. exists [mkNote FREQ_MEDIUM 50 VOLUME_LOW], PATTERN_ACK.
    split; [reflexivity|]. split.
    - exists (mkNote 0 0 0), []. split; [reflexivity|].
      split; [reflexivity|]. repeat constructor.
    - cbn. lia. }
  split; [exact H|].
  apply (index_invariant_kept
           (mkBuzzer 33 0 (Some PATTERN_ACK) 0 40 true false "6. Acknowledge")
           100).
  exact H.
Defined.

(** ** Timing across the clock rollover *)

(** An [update()] of a playing object is void exactly when the unsigned
    elapsed time is below the current note's duration. *)
Lemma update_void_iff (b : IndustrialBuzzer) (cur : BuzzerNote) (t : Z) :
  isPlaying b = true ->
  note_at (currentPattern b) (patternIndex b) = Some cur ->
  exec update t b = Some (b, []) <->
  sub32 t (noteStartTime b) < duration cur.
Proof.
  intros Hp Hn.
  assert (Hnn : isNull (currentPattern b) = false).
  { destruct (currentPattern b); [reflexivity|discriminate]. }
  rewrite exec_update, Hp, Hnn, Hn. cbn [negb orb].
  destruct (Z.leb_spec (duration cur) (sub32 t (noteStartTime b))) as [Hle|Hlt].
  - split; [|lia]. intros Hx. exfalso.
    destruct (note_at (currentPattern b) (incr8 (patternIndex b))) as [nxt|];
      [|discriminate].
    destruct (is_end_marker nxt).
    + destruct (repeat b).
      * destruct (note_at (currentPattern b) 0) as [first|]; [|discriminate].
        injection Hx as _ Hout. exact (note_cmds_nonempty _ _ Hout).
      * discriminate.
    + injection Hx as _ Hout. exact (note_cmds_nonempty _ _ Hout).
  - split; [intros _; exact Hlt|reflexivity].
Qed.

(** X2. Note timing survives the rollover of the 32-bit millisecond clock:
    [e] milliseconds after the note started, wherever the start lies with
    respect to the rollover, [update()] holds the note (no field changes,
    nothing is written) exactly when [e] is below the note's duration. *)
Theorem update_timing_survives_rollover
    (b : IndustrialBuzzer) (cur : BuzzerNote) (e : Z) :
  isPlaying b = true ->
  note_at (currentPattern b) (patternIndex b) = Some cur ->
  0 <= e < 2 ^ 32 ->
  exec update ((noteStartTime b + e) mod 2 ^ 32) b = Some (b, []) <->
  e < duration cur.
Proof.
  intros Hp Hn He.
  rewrite (update_void_iff b cur _ Hp Hn), (sub32_exact _ _ He). reflexivity.
Qed.

Lemma update_timing_survives_rollover_witness :
  exec update ((4294967290 + 99) mod 2 ^ 32)
    (mkBuzzer 33 0 (Some PATTERN_STARTUP) 0 4294967290 true false "1. Startup")
  = Some (mkBuzzer 33 0 (Some PATTERN_STARTUP) 0 4294967290 true false
            "1. Startup", [])
  <-> 99 < 100.
Proof.
  apply (update_timing_survives_rollover
           (mkBuzzer 33 0 (Some PATTERN_STARTUP) 0 4294967290 true false
              "1. Startup")
           (mkNote FREQ_LOW 100 VOLUME_MEDIUM) 99).
  - reflexivity.
  - reflexivity.
  - cbn. lia.
Defined.

(** ** Patterns longer than the index can count *)

Lemma long_pattern_step (steps P : list BuzzerNote) (b : IndustrialBuzzer)
    (t : Z) :
  ends_after steps P -> (256 <= length steps)%nat ->
  isPlaying b = true -> currentPattern b = Some P ->
  0 <= patternIndex b <= 255 ->
  exists b' out,
    exec update t b = Some (b', out) /\
    isPlaying b' = true /\ currentPattern b' = Some P /\
    0 <= patternIndex b' <= 255.
Proof.
  intros Hwf Hlong Hp Hc Hidx.
  rewrite exec_update, Hp, Hc. cbn [negb orb isNull].
  destruct (ends_after_ordinary steps P Hwf (Z.to_nat (patternIndex b))
              ltac:(lia)) as (cur & Ecur & _).
  rewrite note_at_Z, Ecur by lia.
  destruct (duration cur <=? sub32 t (noteStartTime b)).
  2:{ eexists _, _. split; [reflexivity|]. auto. }
  assert (Hnext : 0 <= incr8 (patternIndex b) <= 255).
  { unfold incr8. pose proof (Z.mod_pos_bound (patternIndex b + 1) (2 ^ 8)).
    lia. }
  destruct (ends_after_ordinary steps P Hwf
              (Z.to_nat (incr8 (patternIndex b))) ltac:(lia))
    as (nxt & Enxt & _ & _ & Hord).
  rewrite note_at_Z, Enxt, Hord by lia.
  eexists _, _. split; [reflexivity|]. cbn. auto.
Qed.

(** X3. The 8-bit [patternIndex] limits a pattern to 255 ordinary notes
    before its end marker.  With 256 or more, the index wraps from 255 to 0
    before the marker is ever read: whatever the loop flag and the clock
    values of the polls, no run fails, the object never stops by itself and
    the index stays within the first 256 entries. *)
Theorem long_pattern_never_completes
    (steps P : list BuzzerNote) (b : IndustrialBuzzer) (ts : list Z) :
  ends_after steps P -> (256 <= length steps)%nat ->
  isPlaying b = true -> currentPattern b = Some P ->
  0 <= patternIndex b <= 255 ->
  exists b' out,
    polls ts b = Some (b', out) /\
    isActive 0 b' = Some (true, b', []) /\
    currentPattern b' = Some P /\
    0 <= patternIndex b' <= 255.
Proof.
  intros Hwf Hlong. revert b.
  induction ts as [|t ts IH]; intros b Hp Hc Hidx.
  - exists b, []. split; [reflexivity|].
    unfold isActive, get. rewrite Hp. auto.
  - destruct (long_pattern_step steps P b t Hwf Hlong Hp Hc Hidx)
      as (b1 & out1 & Hu & Hp1 & Hc1 & Hidx1).
    destruct (IH b1 Hp1 Hc1 Hidx1) as (b' & out & Hrun & Hrest).
    rewrite (polls_cons _ _ _ _ _ Hu), Hrun.
    eexists _, _. split; [reflexivity|exact Hrest].
Qed.

Lemma long_pattern_never_completes_witness :
  let steps := List.repeat (mkNote 800 1 128) 256 in
  let P := steps ++ [mkNote 0 0 0] in
  exists b' out,
    polls [1; 2] (mkBuzzer 33 0 (Some P) 254 0 true false "long")
    = Some (b', out) /\
    isActive 0 b' = Some (true, b', []) /\
    currentPattern b' = Some P /\
    0 <= patternIndex b' <= 255.
Proof.
  cbv zeta.
  apply (long_pattern_never_completes
           (List.repeat (mkNote 800 1 128) 256)
           (List.repeat (mkNote 800 1 128) 256 ++ [mkNote 0 0 0])).
  - exists (mkNote 0 0 0), []. split; [reflexivity|].
    split; [reflexivity|]. apply Forall_forall. intros n Hn.
    apply repeat_spec in Hn. subst n. reflexivity.
  - rewrite repeat_length. lia.
  - reflexivity.
  - reflexivity.
  - cbn. lia.
Defined.

(** ** The display sketch: drawing *)

Lemma sbind_run {G A B : Type} {m : Sketch G A} (f : A -> Sketch G B)
    {w w1 : Board G} {a : A} :
  m w = Some (a, w1) -> sbind m f w = f a w1.
Proof. intros H. unfold sbind. rewrite H. reflexivity. Qed.

Section DrawRules.

Variable Pre : Tft.Globals -> IndustrialBuzzer -> Prop.

Lemma draws_sprite (d : Draw) : draws Pre (Tft.sprite d).
Proof. intros g b _. exists [d]. intros c ev. reflexivity. Qed.

Lemma draws_sret : draws Pre (sret tt).
Proof.
  intros g b _. exists []. intros c ev. cbn. rewrite app_nil_r. reflexivity.
Qed.

Lemma draws_seq (m1 m2 : Sketch Tft.Globals unit) :
  draws Pre m1 -> draws Pre m2 -> draws Pre (sbind m1 (fun _ => m2)).
Proof.
  intros H1 H2 g b HP.
  destruct (H1 g b HP) as (d1 & E1). destruct (H2 g b HP) as (d2 & E2).
  exists (d1 ++ d2). intros c ev. unfold sbind.
  rewrite E1, E2, map_app, app_assoc. reflexivity.
Qed.

Lemma draws_if (c : bool) (m1 m2 : Sketch Tft.Globals unit) :
  draws Pre m1 -> draws Pre m2 -> draws Pre (if c then m1 else m2).
Proof. destruct c; auto. Qed.

Lemma draws_read (A : Type) (f : Tft.Globals -> A)
    (k : A -> Sketch Tft.Globals unit) :
  (forall v, draws (fun g b => Pre g b /\ f g = v) (k v)) ->
  draws Pre (sbind (read f) k).
Proof.
  intros H g b HP. destruct (H (f g) g b (conj HP eq_refl)) as (ds & E).
  exists ds. intros c ev. unfold sbind, read. cbn. apply E.
Qed.

Lemma draws_call_get (A : Type) (f : IndustrialBuzzer -> A)
    (k : A -> Sketch Tft.Globals unit) :
  (forall v, draws (fun g b => Pre g b /\ f b = v) (k v)) ->
  draws Pre (sbind (call (get f)) k).
Proof.
  intros H g b HP. destruct (H (f b) g b (conj HP eq_refl)) as (ds & E).
  exists ds. intros c ev. unfold sbind, call, get. cbn.
  rewrite app_nil_r. apply E.
Qed.

Lemma draws_item_at (i : Z) (k : Tft.MenuItem -> Sketch Tft.Globals unit) :
  (forall g b, Pre g b -> 0 <= i < Tft.MENU_COUNT) ->
  (forall item, draws Pre (k item)) ->
  draws Pre (sbind (Tft.item_at i) k).
Proof.
  intros Hin H g b HP. pose proof (Hin g b HP) as Hi.
  destruct (nth_error Tft.menuItems (Z.to_nat i)) as [item|] eqn:E.
  2:{ apply nth_error_None in E. unfold Tft.MENU_COUNT in Hi. lia. }
  destruct (H item g b HP) as (ds & Ek). exists ds. intros c ev.
  unfold sbind, Tft.item_at. destruct (Z.ltb_spec i 0); [lia|].
  rewrite E. apply Ek.
Qed.

Lemma draws_for_range (body : Z -> Sketch Tft.Globals unit) (n : nat) :
  forall lo,
    (forall i, lo <= i < lo + Z.of_nat n -> draws Pre (body i)) ->
    draws Pre (for_range lo n body).
Proof.
  induction n as [|n IH]; intros lo H.
  - apply draws_sret.
  - cbn [for_range]. apply draws_seq.
    + apply H. lia.
    + apply IH. intros i Hi. apply H. lia.
Qed.

End DrawRules.

Ltac draws_auto :=
  repeat first
    [ apply draws_sprite | apply draws_sret | apply draws_if
    | apply draws_call_get; intros ?
    | apply draws_read; intros ?
    | match goal with
      | |- draws _ (sbind _ (fun _ => _)) => apply draws_seq
      end ].

Lemma draws_drawHeader (Pre : Tft.Globals -> IndustrialBuzzer -> Prop) :
  draws Pre Tft.drawHeader.
Proof. unfold Tft.drawHeader, isActive. draws_auto. Qed.

Lemma draws_drawFooter (Pre : Tft.Globals -> IndustrialBuzzer -> Prop) :
  draws Pre Tft.drawFooter.
Proof. unfold Tft.drawFooter, getCurrentName, isActive. draws_auto. Qed.

Lemma draws_drawMenu : draws (fun g _ => menu_ok g) Tft.drawMenu.
Proof.
  unfold Tft.drawMenu.
  apply draws_seq; [apply draws_sprite|].
  apply draws_seq; [apply draws_sprite|].
  apply draws_read. intros off.
  apply draws_seq; [|draws_auto].
  apply draws_for_range. intros i Hi.
  assert (Hin : forall g (b : IndustrialBuzzer),
             menu_ok g /\ Tft.scrollOffset g = off -> 0 <= i < Tft.MENU_COUNT).
  { intros g b (Hok & Hoff). unfold menu_ok in Hok.
    unfold Tft.MAX_VISIBLE_ITEMS, Tft.MENU_COUNT in *. cbn in *. lia. }
  unfold Tft.drawMenuRow.
  apply draws_read; intros off'. apply draws_read; intros sel.
  apply draws_seq; [draws_auto|].
  apply draws_seq; [draws_auto|].
  apply draws_seq; [draws_auto|].
  apply draws_item_at; [intros g b H; apply (Hin g b); tauto|]. intros item.
  apply draws_seq; [draws_auto|].
  apply draws_item_at; [intros g b H; apply (Hin g b); tauto|]. intros item'.
  apply draws_if; [|draws_auto].
  apply draws_item_at; [intros g b H; apply (Hin g b); tauto|]. intros item''.
  draws_auto.
Qed.

Lemma draws_updateDisplay : draws (fun g _ => menu_ok g) Tft.updateDisplay.
Proof.
  unfold Tft.updateDisplay.
  apply draws_seq; [apply draws_drawHeader|].
  apply draws_seq; [apply draws_drawMenu|apply draws_drawFooter].
Qed.

(** X4. [updateDisplay()] only draws.  Whenever the selection lies inside
    the table and inside the visible window, it returns without reading
    outside [menuItems], leaves the clock, the buzzer object and the globals
    untouched, writes nothing to the buzzer peripheral, and the drawing
    commands it issues depend on the globals and the object only. *)
Theorem updateDisplay_only_draws
    (g : Tft.Globals) (b : IndustrialBuzzer) :
  menu_ok g ->
  exists ds, forall c ev,
    Tft.updateDisplay (mkBoard c b ev g)
    = Some (tt, mkBoard c b (ev ++ map Tft ds) g).
Proof.
  intros Hok. exact (draws_updateDisplay g b Hok).
Qed.

Lemma updateDisplay_only_draws_witness :
  menu_ok (Tft.mkGlobals 6 1 0) /\
  exists ds, forall c ev,
    Tft.updateDisplay (mkBoard c buzzer ev (Tft.mkGlobals 6 1 0))
    = Some (tt, mkBoard c buzzer (ev ++ map Tft ds) (Tft.mkGlobals 6 1 0)).
Proof.
  assert (H : menu_ok (Tft.mkGlobals 6 1 0)).
  { unfold menu_ok. cbv. repeat split; try reflexivity; discriminate. }
  split; [exact H|].
  exact (updateDisplay_only_draws (Tft.mkGlobals 6 1 0) buzzer H).
Defined.

Lemma tft_of_map (ds : list Draw) : tft_of (map Tft ds) = ds.
Proof. induction ds as [|d ds IH]; [reflexivity|]. cbn. rewrite IH. reflexivity. Qed.

(** X5. [drawMenu()] shows the window of the table that starts at
    [scrollOffset] and marks the selection: whenever the selection lies
    inside the table and the window, the item names it draws are exactly
    those of the [MAX_VISIBLE_ITEMS] entries from [scrollOffset] on, in
    order, and it fills exactly one highlight bar, on the row of
    [selectedItem]. *)
Theorem drawMenu_shows_window_and_selection
    (g : Tft.Globals) (b : IndustrialBuzzer) (c : Z) (ev : list Event) :
  menu_ok g ->
  exists ds,
    Tft.drawMenu (mkBoard c b ev g)
    = Some (tt, mkBoard c b (ev ++ map Tft ds) g) /\
    drawn_text ds
    = map Tft.item_name
        (firstn (Z.to_nat Tft.MAX_VISIBLE_ITEMS)
                (skipn (Z.to_nat (Tft.scrollOffset g)) Tft.menuItems)) /\
    filter is_highlight ds
    = [FillRoundRect 2
         ((Tft.selectedItem g - Tft.scrollOffset g) * Tft.MENU_ITEM_H + 1)
         (Tft.SCREEN_WIDTH - 4) (Tft.MENU_ITEM_H - 2) 3 Tft.COLOR_ACCENT].
Proof.
  intros Hok. destruct (draws_drawMenu g b Hok) as (ds & E).
  exists ds. split; [apply E|].
  specialize (E 0 []). apply (f_equal (option_map (fun r => tft_of (events (snd r))))) in E.
  cbn [option_map snd events app] in E. rewrite tft_of_map in E.
  destruct g as [sel off last]. unfold menu_ok in Hok.
  unfold Tft.MAX_VISIBLE_ITEMS, Tft.MENU_COUNT in Hok. cbn in Hok.
  cbn [Tft.selectedItem Tft.scrollOffset].
  assert (Hoff : off = 0 \/ off = 1 \/ off = 2) by lia.
  assert (Hsel : sel = off \/ sel = off + 1 \/ sel = off + 2 \/
                 sel = off + 3 \/ sel = off + 4 \/ sel = off + 5) by lia.
  clear Hok.
  destruct Hoff as [-> | [-> | ->]];
    destruct Hsel as [-> | [-> | [-> | [-> | [-> | ->]]]]];
    vm_compute in E; injection E as <-; split; reflexivity.
Qed.

Lemma drawMenu_shows_window_and_selection_witness :
  menu_ok (Tft.mkGlobals 7 2 0) /\
  exists ds,
    Tft.drawMenu (mkBoard 0 buzzer [] (Tft.mkGlobals 7 2 0))
    = Some (tt, mkBoard 0 buzzer ([] ++ map Tft ds) (Tft.mkGlobals 7 2 0)) /\
    drawn_text ds
    = map Tft.item_name
        (firstn (Z.to_nat Tft.MAX_VISIBLE_ITEMS)
                (skipn (Z.to_nat 2) Tft.menuItems)) /\
    filter is_highlight ds
    = [FillRoundRect 2 ((7 - 2) * Tft.MENU_ITEM_H + 1)
         (Tft.SCREEN_WIDTH - 4) (Tft.MENU_ITEM_H - 2) 3 Tft.COLOR_ACCENT].
Proof.
  assert (H : menu_ok (Tft.mkGlobals 7 2 0)).
  { unfold menu_ok. cbv. repeat split; try reflexivity; discriminate. }
  split; [exact H|].
  exact (drawMenu_shows_window_and_selection
           (Tft.mkGlobals 7 2 0) buzzer 0 [] H).
Defined.

(** ** The display sketch: buttons *)

Lemma call_exec (G : Type) (m : Method unit) (c : Z) (b b' : IndustrialBuzzer)
    (out : list SinkCmd) (ev : list Event) (g : G) :
  exec m c b = Some (b', out) ->
  call m (mkBoard c b ev g)
  = Some (tt, mkBoard c b' (ev ++ map Ledc out) g).
Proof.
  unfold exec, call. cbn.
  destruct (m c b) as [[[[] b1] out1]|]; [|discriminate].
  intros H. injection H as -> ->. reflexivity.
Qed.

Lemma call_isActive (G : Type) (c : Z) (b : IndustrialBuzzer)
    (ev : list Event) (g : G) :
  call isActive (mkBoard c b ev g) = Some (isPlaying b, mkBoard c b ev g).
Proof. unfold call, isActive, get. cbn. rewrite app_nil_r. reflexivity. Qed.

Lemma playFeedbackBeep_run (c : Z) (b : IndustrialBuzzer) (ev : list Event)
    (g : Tft.Globals) :
  Tft.playFeedbackBeep (mkBoard c b ev g)
  = Some (tt, mkBoard ((c + 30) mod 2 ^ 32) b (ev ++ beep) g).
Proof.
  unfold Tft.playFeedbackBeep, sbind, emit, delay, beep. cbn.
  rewrite <- !app_assoc. reflexivity.
Qed.

Lemma updateDisplay_after (c : Z) (b : IndustrialBuzzer) (ev more : list Event)
    (g : Tft.Globals) :
  menu_ok g ->
  exists ds,
    Tft.updateDisplay (mkBoard c b (ev ++ more) g)
    = Some (tt, mkBoard c b (ev ++ more ++ map Tft ds) g).
Proof.
  intros Hok. destruct (draws_updateDisplay g b Hok) as (ds & E).
  exists ds. rewrite E, app_assoc. reflexivity.
Qed.

Ltac menu_arith :=
  unfold menu_ok, Tft.MAX_VISIBLE_ITEMS, Tft.MENU_COUNT in *; cbn in *; lia.

Lemma handleLeft_idle (c : Z) (b : IndustrialBuzzer) (ev : list Event)
    (g : Tft.Globals) :
  menu_ok g -> isPlaying b = false ->
  exists g' ds,
    Tft.handleLeft true (mkBoard c b ev g)
    = Some (tt, mkBoard ((c + 30) mod 2 ^ 32) b (ev ++ beep ++ map Tft ds) g')
    /\ menu_ok g'
    /\ Tft.selectedItem g' = (Tft.selectedItem g - 1) mod Tft.MENU_COUNT
    /\ Tft.lastStatusUpdate g' = Tft.lastStatusUpdate g.
Proof.
  intros Hok Hidle. unfold Tft.handleLeft.
  rewrite (sbind_run _ (call_isActive _ c b ev g)), Hidle.
  cbn [negb].
  rewrite (sbind_run _ (playFeedbackBeep_run c b ev g)).
  destruct g as [sel off last].
  unfold sbind at 1 2 3 4. unfold read, write.
  cbn [globals Tft.selectedItem Tft.scrollOffset Tft.set_selectedItem
       Tft.lastStatusUpdate clock the_buzzer events].
  destruct (Z.ltb_spec (sel - 1) 0) as [Hwrap|Hin].
  - destruct (updateDisplay_after ((c + 30) mod 2 ^ 32) b ev beep
                (Tft.mkGlobals 7 2 last)) as (ds & E); [menu_arith|].
    eexists _, ds. split; [exact E|]. split; [menu_arith|].
    split; [|reflexivity]. replace sel with 0 by menu_arith. reflexivity.
  - assert (Hmod : (sel - 1) mod Tft.MENU_COUNT = sel - 1).
    { apply Z.mod_small. menu_arith. }
    destruct (Z.ltb_spec (sel - 1) off) as [Hscroll|Hstay].
    + destruct (updateDisplay_after ((c + 30) mod 2 ^ 32) b ev beep
                  (Tft.mkGlobals (sel - 1) (sel - 1) last)) as (ds & E);
        [menu_arith|].
      eexists _, ds. split; [exact E|]. split; [menu_arith|].
      split; [|reflexivity]. symmetry. exact Hmod.
    + destruct (updateDisplay_after ((c + 30) mod 2 ^ 32) b ev beep
                  (Tft.mkGlobals (sel - 1) off last)) as (ds & E);
        [menu_arith|].
      eexists _, ds. split; [exact E|]. split; [menu_arith|].
      split; [|reflexivity]. symmetry. exact Hmod.
Qed.

Lemma handleRight_idle (c : Z) (b : IndustrialBuzzer) (ev : list Event)
    (g : Tft.Globals) :
  menu_ok g -> isPlaying b = false ->
  exists g' ds,
    Tft.handleRight true (mkBoard c b ev g)
    = Some (tt, mkBoard ((c + 30) mod 2 ^ 32) b (ev ++ beep ++ map Tft ds) g')
    /\ menu_ok g'
    /\ Tft.selectedItem g' = (Tft.selectedItem g + 1) mod Tft.MENU_COUNT
    /\ Tft.lastStatusUpdate g' = Tft.lastStatusUpdate g.
Proof.
  intros Hok Hidle. unfold Tft.handleRight.
  rewrite (sbind_run _ (call_isActive _ c b ev g)), Hidle.
  cbn [negb].
  rewrite (sbind_run _ (playFeedbackBeep_run c b ev g)).
  destruct g as [sel off last].
  unfold sbind at 1 2 3 4. unfold read, write.
  cbn [globals Tft.selectedItem Tft.scrollOffset Tft.set_selectedItem
       Tft.lastStatusUpdate clock the_buzzer events].
  destruct (Z.leb_spec Tft.MENU_COUNT (sel + 1)) as [Hwrap|Hin].
  - destruct (updateDisplay_after ((c + 30) mod 2 ^ 32) b ev beep
                (Tft.mkGlobals 0 0 last)) as (ds & E); [menu_arith|].
    eexists _, ds. split; [exact E|]. split; [menu_arith|].
    split; [|reflexivity]. replace sel with 7 by menu_arith. reflexivity.
  - assert (Hmod : (sel + 1) mod Tft.MENU_COUNT = sel + 1).
    { apply Z.mod_small. menu_arith. }
    destruct (Z.leb_spec (off + Tft.MAX_VISIBLE_ITEMS) (sel + 1))
      as [Hscroll|Hstay].
    + destruct (updateDisplay_after ((c + 30) mod 2 ^ 32) b ev beep
                  (Tft.mkGlobals (sel + 1)
                     (sel + 1 - Tft.MAX_VISIBLE_ITEMS + 1) last)) as (ds & E);
        [menu_arith|].
      eexists _, ds. split; [exact E|]. split; [menu_arith|].
      split; [|reflexivity]. symmetry. exact Hmod.
    + destruct (updateDisplay_after ((c + 30) mod 2 ^ 32) b ev beep
                  (Tft.mkGlobals (sel + 1) off last)) as (ds & E);
        [menu_arith|].
      eexists _, ds. split; [exact E|]. split; [menu_arith|].
      split; [|reflexivity]. symmetry. exact Hmod.
Qed.

(** X6. While a pattern is playing the LEFT and RIGHT buttons are dead:
    whatever the two buttons report and whatever the selection is, the LEFT
    and RIGHT blocks of [handleButtons()] return the board as it was: no
    beep, no change of the selection or the scroll offset, no redraw, and
    the playing pattern is not disturbed. *)
Theorem navigation_locked_while_playing
    (left right : bool) (w : Board Tft.Globals) :
  isPlaying (the_buzzer w) = true ->
  sbind (Tft.handleLeft left) (fun _ => Tft.handleRight right) w
  = Some (tt, w).
Proof.
  intros Hp. destruct w as [c b ev g]. cbn in Hp.
  assert (HL : Tft.handleLeft left (mkBoard c b ev g)
               = Some (tt, mkBoard c b ev g)).
  { destruct left; [|reflexivity]. unfold Tft.handleLeft.
    rewrite (sbind_run _ (call_isActive _ c b ev g)), Hp.
    reflexivity. }
  rewrite (sbind_run _ HL).
  destruct right; [|reflexivity]. unfold Tft.handleRight.
  rewrite (sbind_run _ (call_isActive _ c b ev g)), Hp.
  reflexivity.
Qed.

Lemma navigation_locked_while_playing_witness :
  let w := mkBoard 500
             (mkBuzzer 33 0 (Some PATTERN_CRITICAL) 1 300 true true
                       "5. Critical")
             [] (Tft.mkGlobals 4 0 0) in
  sbind (Tft.handleLeft true) (fun _ => Tft.handleRight true) w = Some (tt, w).
Proof.
  cbv zeta.
  apply (navigation_locked_while_playing true true
           (mkBoard 500
              (mkBuzzer 33 0 (Some PATTERN_CRITICAL) 1 300 true true
                        "5. Critical")
              [] (Tft.mkGlobals 4 0 0))).
  reflexivity.
Defined.

(** X7. With the buzzer idle, LEFT and RIGHT move the selection by one in a
    cycle over the table: LEFT selects [(selectedItem - 1) mod MENU_COUNT],
    RIGHT selects [(selectedItem + 1) mod MENU_COUNT], each keeps the
    selection inside the visible window, sounds the 30 ms feedback beep and
    redraws, and leaves the buzzer object alone; RIGHT followed by LEFT
    returns to the item that was selected. *)
Theorem navigation_cycles_through_menu
    (c : Z) (b : IndustrialBuzzer) (ev : list Event) (g : Tft.Globals) :
  menu_ok g -> isPlaying b = false ->
  (exists g' ds,
     Tft.handleLeft true (mkBoard c b ev g)
     = Some (tt, mkBoard ((c + 30) mod 2 ^ 32) b (ev ++ beep ++ map Tft ds) g')
     /\ menu_ok g'
     /\ Tft.selectedItem g' = (Tft.selectedItem g - 1) mod Tft.MENU_COUNT)
  /\ (exists g' ds,
        Tft.handleRight true (mkBoard c b ev g)
        = Some (tt, mkBoard ((c + 30) mod 2 ^ 32) b
                            (ev ++ beep ++ map Tft ds) g')
        /\ menu_ok g'
        /\ Tft.selectedItem g' = (Tft.selectedItem g + 1) mod Tft.MENU_COUNT)
  /\ (exists w',
        sbind (Tft.handleRight true) (fun _ => Tft.handleLeft true)
              (mkBoard c b ev g) = Some (tt, w')
        /\ Tft.selectedItem (globals w') = Tft.selectedItem g
        /\ the_buzzer w' = b).
Proof.
  intros Hok Hidle. split; [|split].
  - destruct (handleLeft_idle c b ev g Hok Hidle) as (g' & ds & E & H1 & H2 & _).
    exists g', ds. auto.
  - destruct (handleRight_idle c b ev g Hok Hidle)
      as (g' & ds & E & H1 & H2 & _).
    exists g', ds. auto.
  - destruct (handleRight_idle c b ev g Hok Hidle)
      as (g1 & ds1 & E1 & Hok1 & Hsel1 & _).
    destruct (handleLeft_idle ((c + 30) mod 2 ^ 32) b
                (ev ++ beep ++ map Tft ds1) g1 Hok1 Hidle)
      as (g2 & ds2 & E2 & _ & Hsel2 & _).
    rewrite (sbind_run _ E1), E2.
    eexists. split; [reflexivity|]. split; [|reflexivity].
    cbn [globals]. rewrite Hsel2, Hsel1.
    rewrite Zminus_mod_idemp_l.
    replace (Tft.selectedItem g + 1 - 1) with (Tft.selectedItem g) by ring.
    apply Z.mod_small. menu_arith.
Qed.

Lemma navigation_cycles_through_menu_witness :
  menu_ok (Tft.mkGlobals 7 2 0) /\
  exists g' ds,
    Tft.handleRight true (mkBoard 0 buzzer [] (Tft.mkGlobals 7 2 0))
    = Some (tt, mkBoard ((0 + 30) mod 2 ^ 32) buzzer
                        ([] ++ beep ++ map Tft ds) g')
    /\ menu_ok g'
    /\ Tft.selectedItem g' = (7 + 1) mod Tft.MENU_COUNT.
Proof.
  assert (H : menu_ok (Tft.mkGlobals 7 2 0)).
  { unfold menu_ok. cbv. repeat split; try reflexivity; discriminate. }
  split; [exact H|].
  apply (navigation_cycles_through_menu 0 buzzer [] (Tft.mkGlobals 7 2 0) H).
  reflexivity.
Defined.

Lemma menuItems_ok : Forall item_ok Tft.menuItems.
Proof.
  unfold Tft.menuItems.
  repeat (apply Forall_cons;
    [ match goal with
      | |- item_ok (Tft.mkItem _ (Some ?P) _ _) => exists (removelast P), P
      end; split; [reflexivity|]; split;
      [ exists (mkNote 0 0 0), []; split; [reflexivity|];
        split; [reflexivity|]; repeat constructor
      | split; [discriminate|cbn; lia] ]
    | ]).
  apply Forall_nil.
Qed.

Lemma item_at_run (i : Z) (w : Board Tft.Globals) :
  0 <= i < Tft.MENU_COUNT ->
  exists item,
    nth_error Tft.menuItems (Z.to_nat i) = Some item /\
    Tft.item_at i w = Some (item, w) /\ item_ok item.
Proof.
  intros Hi.
  destruct (nth_error Tft.menuItems (Z.to_nat i)) as [item|] eqn:E.
  2:{ apply nth_error_None in E. unfold Tft.MENU_COUNT in Hi. lia. }
  exists item. split; [reflexivity|]. split.
  - unfold Tft.item_at. destruct (Z.ltb_spec i 0); [lia|]. rewrite E.
    reflexivity.
  - pose proof menuItems_ok as H. rewrite Forall_forall in H.
    apply H. apply nth_error_In with (n := Z.to_nat i). exact E.
Qed.

Lemma handleOk_playing (c : Z) (b : IndustrialBuzzer) (ev : list Event)
    (g : Tft.Globals) :
  menu_ok g -> isPlaying b = true ->
  exists ds,
    Tft.handleOk true (mkBoard c b ev g)
    = Some (tt, mkBoard ((c + 30) mod 2 ^ 32) (stopped b)
                  (ev ++ beep ++ map Ledc (silence (channel b)) ++ map Tft ds)
                  g).
Proof.
  intros Hok Hp. unfold Tft.handleOk.
  rewrite (sbind_run _ (playFeedbackBeep_run c b ev g)).
  rewrite (sbind_run _ (call_isActive _ _ b _ g)), Hp.
  rewrite (sbind_run _ (call_exec _ stop _ b _ _ _ g (exec_stop _ b))).
  rewrite <- app_assoc.
  destruct (updateDisplay_after ((c + 30) mod 2 ^ 32) (stopped b) ev
              (beep ++ map Ledc (silence (channel b))) g Hok) as (ds & E).
  exists ds. rewrite E, <- app_assoc. reflexivity.
Qed.

Lemma handleOk_idle (c : Z) (b : IndustrialBuzzer) (ev : list Event)
    (g : Tft.Globals) :
  menu_ok g -> isPlaying b = false ->
  exists item first ds,
    nth_error Tft.menuItems (Z.to_nat (Tft.selectedItem g)) = Some item /\
    note_at (Tft.item_pattern item) 0 = Some first /\
    item_ok item /\
    Tft.handleOk true (mkBoard c b ev g)
    = Some (tt, mkBoard ((c + 30) mod 2 ^ 32)
                  (mkBuzzer (pin b) (channel b) (Tft.item_pattern item) 0
                            ((c + 30) mod 2 ^ 32) true (Tft.item_repeat item)
                            (Tft.item_name item))
                  (ev ++ beep ++ map Ledc (note_cmds (channel b) first)
                      ++ map Tft ds)
                  g).
Proof.
  intros Hok Hidle. unfold Tft.handleOk.
  rewrite (sbind_run _ (playFeedbackBeep_run c b ev g)).
  rewrite (sbind_run _ (call_isActive _ _ b _ g)), Hidle.
  destruct (item_at_run (Tft.selectedItem g)
              (mkBoard ((c + 30) mod 2 ^ 32) b (ev ++ beep) g))
    as (item & Enth & Eitem & Hitem); [menu_arith|].
  destruct Hitem as (steps & P & HP & Hwf & Hne & Hlen).
  assert (Hpos : (0 < length steps)%nat).
  { destruct steps; [contradiction|cbn; lia]. }
  destruct (ends_after_ordinary steps P Hwf 0 Hpos) as (first & Efirst & _).
  assert (Hfirst : note_at (Tft.item_pattern item) 0 = Some first).
  { rewrite HP. exact Efirst. }
  pose proof (exec_playPattern (Tft.item_pattern item) (Tft.item_name item)
                (Tft.item_repeat item) ((c + 30) mod 2 ^ 32) b) as Hplay.
  rewrite Hfirst in Hplay.
  exists item, first.
  destruct (updateDisplay_after ((c + 30) mod 2 ^ 32)
              (mkBuzzer (pin b) (channel b) (Tft.item_pattern item) 0
                        ((c + 30) mod 2 ^ 32) true (Tft.item_repeat item)
                        (Tft.item_name item))
              ev (beep ++ map Ledc (note_cmds (channel b) first)) g Hok)
    as (ds & E).
  exists ds. split; [exact Enth|]. split; [exact Hfirst|].
  split; [exists steps, P; auto|].
  match goal with
  | |- sbind ?inner _ ?w1 = _ =>
      assert (Hinner : inner w1
                = Some (tt, mkBoard ((c + 30) mod 2 ^ 32)
                              (mkBuzzer (pin b) (channel b)
                                 (Tft.item_pattern item) 0
                                 ((c + 30) mod 2 ^ 32) true
                                 (Tft.item_repeat item) (Tft.item_name item))
                              ((ev ++ beep)
                                 ++ map Ledc (note_cmds (channel b) first))
                              g))
  end.
  { unfold sbind, read. cbn [globals]. rewrite Eitem.
    apply call_exec. exact Hplay. }
  rewrite (sbind_run _ Hinner).
  rewrite <- app_assoc, E, <- app_assoc. reflexivity.
Qed.

(** X8. The OK button toggles playback.  With a pattern playing it sounds
    the feedback beep, stops the pattern (the object is idle, silence is
    written) and redraws.  With the buzzer idle and the selection inside the
    table it sounds the beep and starts the selected entry's pattern with
    that entry's name and repeat flag: the object is playing at index 0, the
    note timer starts after the 30 ms the beep took, and note 0 is written
    after the beep's closing zero-duty write. *)
Theorem ok_button_toggles_playback
    (c : Z) (b : IndustrialBuzzer) (ev : list Event) (g : Tft.Globals) :
  menu_ok g ->
  (isPlaying b = true ->
   exists ds,
     Tft.handleOk true (mkBoard c b ev g)
     = Some (tt, mkBoard ((c + 30) mod 2 ^ 32)
                   (mkBuzzer (pin b) (channel b) (currentPattern b)
                             (patternIndex b) (noteStartTime b) false false
                             EmptyString)
                   (ev ++ beep
                       ++ [Ledc (LedcWriteTone (channel b) 0);
                           Ledc (LedcWrite (channel b) 0)]
                       ++ map Tft ds)
                   g))
  /\ (isPlaying b = false ->
      exists item first ds,
        nth_error Tft.menuItems (Z.to_nat (Tft.selectedItem g)) = Some item /\
        note_at (Tft.item_pattern item) 0 = Some first /\
        Tft.handleOk true (mkBoard c b ev g)
        = Some (tt, mkBoard ((c + 30) mod 2 ^ 32)
                      (mkBuzzer (pin b) (channel b) (Tft.item_pattern item) 0
                                ((c + 30) mod 2 ^ 32) true
                                (Tft.item_repeat item) (Tft.item_name item))
                      (ev ++ beep ++ map Ledc (note_cmds (channel b) first)
                          ++ map Tft ds)
                      g)).
Proof.
  intros Hok. split.
  - intros Hp. exact (handleOk_playing c b ev g Hok Hp).
  - intros Hidle.
    destruct (handleOk_idle c b ev g Hok Hidle)
      as (item & first & ds & H1 & H2 & _ & H3).
    exists item, first, ds. auto.
Qed.

Lemma ok_button_toggles_playback_witness :
  menu_ok (Tft.mkGlobals 4 0 0) /\
  exists item first ds,
    nth_error Tft.menuItems (Z.to_nat 4) = Some item /\
    note_at (Tft.item_pattern item) 0 = Some first /\
    Tft.handleOk true (mkBoard 1000 buzzer [] (Tft.mkGlobals 4 0 0))
    = Some (tt, mkBoard ((1000 + 30) mod 2 ^ 32)
                  (mkBuzzer 33 0 (Tft.item_pattern item) 0
                            ((1000 + 30) mod 2 ^ 32) true
                            (Tft.item_repeat item) (Tft.item_name item))
                  ([] ++ beep ++ map Ledc (note_cmds 0 first) ++ map Tft ds)
                  (Tft.mkGlobals 4 0 0)).
Proof.
  assert (H : menu_ok (Tft.mkGlobals 4 0 0)).
  { unfold menu_ok. cbv. repeat split; try reflexivity; discriminate. }
  split; [exact H|].
  apply (ok_button_toggles_playback 1000 buzzer [] (Tft.mkGlobals 4 0 0) H).
  reflexivity.
Defined.

(** ** The display sketch: the main loop *)

Lemma statusTick_run (c : Z) (b : IndustrialBuzzer) (ev : list Event)
    (g : Tft.Globals) :
  exists ds last',
    Tft.statusTick (mkBoard c b ev g)
    = Some (tt, mkBoard c b (ev ++ map Tft ds)
                        (Tft.set_lastStatusUpdate last' g))
    /\ (isPlaying b = false -> ds = []).
Proof.
  unfold Tft.statusTick.
  unfold sbind at 1 2. unfold now_millis, read. cbn [clock globals].
  destruct (500 <? sub32 c (Tft.lastStatusUpdate g)).
  2:{ exists [], (Tft.lastStatusUpdate g). cbn. rewrite app_nil_r.
      destruct g. auto. }
  rewrite (sbind_run _ (call_isActive _ c b ev g)).
  destruct (isPlaying b) eqn:Hp.
  - assert (Hd : draws (fun _ _ => True)
                   (sbind Tft.drawHeader (fun _ => Tft.drawFooter))).
    { apply draws_seq; [apply draws_drawHeader|apply draws_drawFooter]. }
    destruct (Hd g b I) as (ds & E).
    rewrite (sbind_run _ (E c ev)).
    exists ds, c. split; [reflexivity|discriminate].
  - exists [], c. cbn. rewrite app_nil_r. auto.
Qed.

Lemma in_pattern_idle (b : IndustrialBuzzer) :
  isPlaying b = false -> in_pattern b.
Proof. intros H H'. congruence. Qed.

Lemma handleButtons_keeps (left ok right : bool) (w : Board Tft.Globals) :
  tft_ok w ->
  exists w',
    Tft.handleButtons left ok right w = Some (tt, w') /\ tft_ok w' /\
    Tft.lastStatusUpdate (globals w') = Tft.lastStatusUpdate (globals w) /\
    ((left = false /\ right = false /\ ok = false) -> w' = w).
Proof.
  destruct w as [c b ev g]. intros [Hmenu Hbuz]. cbn in Hmenu, Hbuz.
  unfold Tft.handleButtons.
  (* LEFT *)
  assert (HL : exists c1 ev1 g1,
             Tft.handleLeft left (mkBoard c b ev g)
             = Some (tt, mkBoard c1 b ev1 g1) /\ menu_ok g1 /\
             Tft.lastStatusUpdate g1 = Tft.lastStatusUpdate g /\
             (left = false -> mkBoard c1 b ev1 g1 = mkBoard c b ev g)).
  { destruct left.
    - destruct (isPlaying b) eqn:Hp.
      + exists c, ev, g. split; [|auto].
        unfold Tft.handleLeft.
        rewrite (sbind_run _ (call_isActive _ c b ev g)), Hp. reflexivity.
      + destruct (handleLeft_idle c b ev g Hmenu Hp)
          as (g1 & ds & E & H1 & _ & H2).
        eexists _, _, g1. split; [exact E|]. split; [exact H1|].
        split; [exact H2|discriminate].
    - exists c, ev, g. auto. }
  destruct HL as (c1 & ev1 & g1 & EL & Hmenu1 & Hlast1 & HidL).
  rewrite (sbind_run _ EL).
  (* RIGHT *)
  assert (HR : exists c2 ev2 g2,
             Tft.handleRight right (mkBoard c1 b ev1 g1)
             = Some (tt, mkBoard c2 b ev2 g2) /\ menu_ok g2 /\
             Tft.lastStatusUpdate g2 = Tft.lastStatusUpdate g1 /\
             (right = false -> mkBoard c2 b ev2 g2 = mkBoard c1 b ev1 g1)).
  { destruct right.
    - destruct (isPlaying b) eqn:Hp.
      + exists c1, ev1, g1. split; [|auto].
        unfold Tft.handleRight.
        rewrite (sbind_run _ (call_isActive _ c1 b ev1 g1)), Hp. reflexivity.
      + destruct (handleRight_idle c1 b ev1 g1 Hmenu1 Hp)
          as (g2 & ds & E & H1 & _ & H2).
        eexists _, _, g2. split; [exact E|]. split; [exact H1|].
        split; [exact H2|discriminate].
    - exists c1, ev1, g1. auto. }
  destruct HR as (c2 & ev2 & g2 & ER & Hmenu2 & Hlast2 & HidR).
  rewrite (sbind_run _ ER).
  (* OK *)
  destruct ok.
  - destruct (isPlaying b) eqn:Hp.
    + destruct (handleOk_playing c2 b ev2 g2 Hmenu2 Hp) as (ds & E).
      eexists. split; [exact E|]. split.
      * split; [exact Hmenu2|]. apply in_pattern_idle. reflexivity.
      * split; [cbn; congruence|]. intros (_ & _ & H). discriminate.
    + destruct (handleOk_idle c2 b ev2 g2 Hmenu2 Hp)
        as (item & first & ds & _ & _ & Hitem & E).
      eexists. split; [exact E|]. split.
      * split; [exact Hmenu2|].
        destruct Hitem as (steps & P & HP & Hwf & Hne & Hlen).
        intros _. exists steps, P. cbn. split; [exact HP|].
        split; [exact Hwf|].
        destruct steps; [contradiction|]. cbn. lia.
      * split; [cbn; congruence|]. intros (_ & _ & H). discriminate.
  - eexists. split; [reflexivity|]. split; [split; assumption|].
    split; [cbn; congruence|].
    intros (Hl & Hr & _). rewrite (HidR Hr), (HidL Hl). reflexivity.
Qed.

(** X9. The display sketch never reads outside its tables: the initial
    board satisfies the invariant (selection inside the table and the
    visible window, buzzer index on an ordinary note of an end-marked
    pattern), and one pass of [loop()] from a board that satisfies it
    returns - whatever the three buttons report and whatever the clock
    shows - without reading outside [menuItems] or a pattern array, in a
    board that satisfies it again. *)
Theorem tft_loop_keeps_invariant
    (left ok right : bool) (w : Board Tft.Globals) :
  tft_ok Tft.initial
  /\ (tft_ok w ->
      exists w', Tft.loop left ok right w = Some (tt, w') /\ tft_ok w').
Proof.
  split.
  { split.
    - unfold menu_ok. cbv. repeat split; try reflexivity; discriminate.
    - apply in_pattern_idle. reflexivity. }
  destruct w as [c b ev g]. intros [Hmenu Hbuz]. cbn in Hmenu, Hbuz.
  destruct (update_keeps_in_pattern b c Hbuz) as (b1 & out & Eu & Hbuz1).
  unfold Tft.loop.
  rewrite (sbind_run _ (call_exec _ update c b b1 out ev g Eu)).
  destruct (handleButtons_keeps left ok right
              (mkBoard c b1 (ev ++ map Ledc out) g) (conj Hmenu Hbuz1))
    as ([c2 b2 ev2 g2] & Eh & [Hmenu2 Hbuz2] & _).
  rewrite (sbind_run _ Eh).
  destruct (statusTick_run c2 b2 ev2 g2) as (ds & last' & Et & _).
  rewrite (sbind_run _ Et).
  eexists. split; [reflexivity|]. split; [|exact Hbuz2].
  cbn in Hmenu2 |- *. destruct g2. exact Hmenu2.
Qed.

Lemma tft_loop_keeps_invariant_witness :
  tft_ok Tft.initial /\
  exists w', Tft.loop false true false Tft.initial = Some (tt, w') /\ tft_ok w'.
Proof.
  assert (H : tft_ok Tft.initial).
  { apply (tft_loop_keeps_invariant false false false Tft.initial). }
  split; [exact H|].
  apply (tft_loop_keeps_invariant false true false Tft.initial). exact H.
Defined.

(** X10. Without a button press [loop()] draws only while the buzzer is
    active.  In a pass where no button fell and the buzzer is idle after its
    [update()] - also the pass in which a pattern has just played its last
    note - nothing is sent to the display: the board changes by the writes
    of [update()], the 10 ms delay and at most the status timestamp. *)
Theorem idle_loop_draws_nothing (w : Board Tft.Globals) :
  tft_ok w ->
  exists b' out,
    exec update (clock w) (the_buzzer w) = Some (b', out) /\
    (isPlaying b' = false ->
     exists last',
       Tft.loop false false false w
       = Some (tt, mkBoard ((clock w + 10) mod 2 ^ 32) b'
                     (events w ++ map Ledc out)
                     (Tft.set_lastStatusUpdate last' (globals w)))).
Proof.
  destruct w as [c b ev g]. intros [Hmenu Hbuz]. cbn in Hmenu, Hbuz.
  destruct (update_keeps_in_pattern b c Hbuz) as (b1 & out & Eu & Hbuz1).
  exists b1, out. cbn [clock the_buzzer events globals].
  split; [exact Eu|]. intros Hidle.
  unfold Tft.loop.
  rewrite (sbind_run _ (call_exec _ update c b b1 out ev g Eu)).
  destruct (handleButtons_keeps false false false
              (mkBoard c b1 (ev ++ map Ledc out) g) (conj Hmenu Hbuz1))
    as (w2 & Eh & _ & _ & Hsame).
  rewrite (Hsame (conj eq_refl (conj eq_refl eq_refl))) in Eh.
  rewrite (sbind_run _ Eh).
  destruct (statusTick_run c b1 (ev ++ map Ledc out) g)
    as (ds & last' & Et & Hds).
  rewrite (sbind_run _ Et), (Hds Hidle).
  exists last'. cbn. rewrite app_nil_r. reflexivity.
Qed.

Lemma idle_loop_draws_nothing_witness :
  let w := mkBoard 90
             (mkBuzzer 33 0 (Some PATTERN_ACK) 0 40 true false "6. Acknowledge")
             [] (Tft.mkGlobals 5 0 0) in
  exists b' out,
    exec update (clock w) (the_buzzer w) = Some (b', out) /\
    (isPlaying b' = false ->
     exists last',
       Tft.loop false false false w
       = Some (tt, mkBoard ((clock w + 10) mod 2 ^ 32) b'
                     (events w ++ map Ledc out)
                     (Tft.set_lastStatusUpdate last' (globals w)))).
Proof.
  cbv zeta.
  apply (idle_loop_draws_nothing
           (mkBoard 90
              (mkBuzzer 33 0 (Some PATTERN_ACK) 0 40 true false
                        "6. Acknowledge")
              [] (Tft.mkGlobals 5 0 0))).
  split.
  - unfold menu_ok. cbv. repeat split; try reflexivity; discriminate.
  - intros _. exists [mkNote FREQ_MEDIUM 50 VOLUME_LOW], PATTERN_ACK.
    split; [reflexivity|]. split.
    + exists (mkNote 0 0 0), []. split; [reflexivity|].
      split; [reflexivity|]. repeat constructor.
    + cbn. lia.
Defined.

(** ** The wait for the startup pattern *)

Section WaitIdle.

Variable G : Type.

Lemma wait_idle_done (f : nat) (w : Board G) :
  isPlaying (the_buzzer w) = false -> wait_idle (S f) w = Returned w.
Proof.
  intros H. destruct w as [c b ev g]. cbn [wait_idle].
  rewrite call_isActive. cbn in H. rewrite H. reflexivity.
Qed.

Lemma wait_idle_step (f : nat) (c : Z) (b b1 : IndustrialBuzzer)
    (out : list SinkCmd) (ev : list Event) (g : G) :
  isPlaying b = true -> exec update c b = Some (b1, out) ->
  wait_idle (S f) (mkBoard c b ev g)
  = wait_idle f (mkBoard ((c + 10) mod 2 ^ 32) b1 (ev ++ map Ledc out) g).
Proof.
  intros Hp Hu. cbn [wait_idle]. rewrite call_isActive, Hp.
  rewrite (sbind_run _ (call_exec _ update c b b1 out ev g Hu)).
  reflexivity.
Qed.

End WaitIdle.

Lemma sub32_delay (c start ms : Z) :
  0 <= ms -> sub32 c start + ms < 2 ^ 32 ->
  sub32 ((c + ms) mod 2 ^ 32) start = sub32 c start + ms.
Proof.
  intros Hms Hlt. unfold sub32 in *.
  rewrite Zminus_mod_idemp_l.
  replace (c + ms - start) with ((c - start) + ms) by ring.
  rewrite <- Zplus_mod_idemp_l.
  apply Z.mod_small.
  pose proof (Z.mod_pos_bound (c - start) (2 ^ 32) ltac:(lia)). lia.
Qed.

Lemma sub32_nonneg (a b : Z) : 0 <= sub32 a b < 2 ^ 32.
Proof. unfold sub32. apply Z.mod_pos_bound. lia. Qed.

Lemma sum_durations_nonneg_of (steps : list BuzzerNote) :
  Forall (fun n => 0 <= duration n < 2 ^ 16) steps ->
  0 <= sum_durations steps.
Proof.
  induction 1 as [|n l Hn _ IH]; cbn; [lia|].
  fold (sum_durations l). lia.
Qed.

Section WaitForPattern.

Variable G : Type.
Variables steps P : list BuzzerNote.
Hypothesis Hwf : ends_after steps P.
Hypothesis Hlen : (length steps <= 255)%nat.
Hypothesis Hdur : Forall (fun n => 0 <= duration n < 2 ^ 16) steps.

Lemma step_in_pattern (i : nat) (cur : BuzzerNote) :
  nth_error steps i = Some cur ->
  (i < length steps)%nat /\ nth_error P i = Some cur /\
  0 <= duration cur < 2 ^ 16.
Proof using Hwf Hdur.
  clear Hlen. intros E.
  assert (Hi : (i < length steps)%nat).
  { apply nth_error_Some. rewrite E. discriminate. }
  destruct (ends_after_ordinary steps P Hwf i Hi) as (note & EP & Es & _).
  rewrite E in Es. injection Es as <-.
  rewrite Forall_forall in Hdur.
  pose proof (Hdur cur (nth_error_In _ _ E)). auto.
Qed.

(** Waiting out the current note: after [k] void polls, 10 ms apart, the
    note is due. *)
Lemma wait_note (m : nat) :
  forall (c : Z) (b : IndustrialBuzzer) (i : nat) (cur : BuzzerNote),
    playing P (Z.of_nat i) b -> nth_error steps i = Some cur ->
    0 <= c < 2 ^ 32 ->
    duration cur - sub32 c (noteStartTime b) <= 10 * Z.of_nat m ->
    exists k : nat,
      (forall f ev (g : G),
         wait_idle (k + f) (mkBoard c b ev g)
         = wait_idle f (mkBoard ((c + 10 * Z.of_nat k) mod 2 ^ 32) b ev g)) /\
      due ((c + 10 * Z.of_nat k) mod 2 ^ 32) b = true /\
      10 * Z.of_nat k
      <= Z.max 0 (duration cur - sub32 c (noteStartTime b) + 9).
Proof using Hwf Hdur.
  clear Hlen.
  induction m as [|m IH]; intros c b i cur Hpl Ecur Hc Hm;
    destruct (step_in_pattern i cur Ecur) as (Hi & EP & Hd);
    pose proof Hpl as (Hp & Hcp & Hidx);
    assert (Hn : note_at (Some P) (patternIndex b) = Some cur)
      by (rewrite Hidx, note_at_nat; exact EP);
    pose proof (due_playing c b P cur Hp Hcp Hn) as Hdue;
    destruct (Z.leb_spec (duration cur) (sub32 c (noteStartTime b)))
      as [Hnow|Hlater].
  - exists 0%nat. rewrite Z.mul_0_r, Z.add_0_r, Z.mod_small by exact Hc.
    split; [reflexivity|]. split; [exact Hdue|lia].
  - lia.
  - exists 0%nat. rewrite Z.mul_0_r, Z.add_0_r, Z.mod_small by exact Hc.
    split; [reflexivity|]. split; [exact Hdue|lia].
  - pose proof (update_wait b P i cur c Hpl EP Hdue) as Hu.
    pose proof (sub32_nonneg c (noteStartTime b)) as He.
    assert (Hc' : 0 <= (c + 10) mod 2 ^ 32 < 2 ^ 32)
      by (apply Z.mod_pos_bound; lia).
    assert (He' : sub32 ((c + 10) mod 2 ^ 32) (noteStartTime b)
                  = sub32 c (noteStartTime b) + 10)
      by (apply sub32_delay; lia).
    destruct (IH ((c + 10) mod 2 ^ 32) b i cur Hpl Ecur Hc')
      as (k & Hk & Hdue' & Hbound); [rewrite He'; lia|].
    assert (Hclock : ((c + 10) mod 2 ^ 32 + 10 * Z.of_nat k) mod 2 ^ 32
                     = (c + 10 * Z.of_nat (S k)) mod 2 ^ 32).
    { rewrite Zplus_mod_idemp_l. f_equal. lia. }
    exists (S k). rewrite <- Hclock. split; [|split].
    + intros f ev g. cbn [Nat.add].
      rewrite (wait_idle_step G _ c b b [] ev g Hp Hu).
      cbn [map]. rewrite app_nil_r. apply Hk.
    + exact Hdue'.
    + rewrite He' in Hbound. lia.
Qed.

(** The wait, from note [i] with [n] more notes to come. *)
Lemma wait_run (n : nat) :
  forall (c : Z) (b : IndustrialBuzzer) (i : nat) (cur : BuzzerNote),
    playing P (Z.of_nat i) b -> repeat b = false ->
    nth_error steps i = Some cur -> (i + S n = length steps)%nat ->
    0 <= c < 2 ^ 32 ->
    exists T b' out fuel0,
      (forall f ev (g : G),
         wait_idle (fuel0 + f) (mkBoard c b ev g)
         = Returned (mkBoard ((c + T) mod 2 ^ 32) b' (ev ++ map Ledc out) g))
      /\ isPlaying b' = false
      /\ 10 <= T
      /\ T <= Z.max 0 (duration cur - sub32 c (noteStartTime b) + 9) + 10
              + sum_durations (skipn (S i) steps) + 19 * Z.of_nat n
      /\ exists pre, out = pre ++ silence (channel b).
Proof using Hwf Hlen Hdur.
  induction n as [|n IH]; intros c b i cur Hpl Hrep Ecur Hin Hc;
    destruct (step_in_pattern i cur Ecur) as (Hi & EP & Hd);
    pose proof Hpl as (Hp & Hcp & Hidx);
    destruct (wait_note
                (Z.to_nat (Z.max 0 (duration cur
                                    - sub32 c (noteStartTime b))))
                c b i cur Hpl Ecur Hc ltac:(lia))
      as (k & Hk & Hdue & Hbound);
    pose proof (update_due b P i cur _ Hpl ltac:(lia) EP Hdue) as Hu;
    rewrite Hrep in Hu;
    set (ck := (c + 10 * Z.of_nat k) mod 2 ^ 32) in *.
  - (* the last note: the due poll stops the object *)
    destruct (ends_after_marker steps P Hwf) as (marker & Em & Hm).
    replace (S i) with (length steps) in Hu by lia.
    rewrite Em, Hm in Hu.
    exists (10 * Z.of_nat k + 10). eexists _, _, (k + 2)%nat.
    split; [|split; [|split; [|split]]].
    + intros f ev g. rewrite <- Nat.add_assoc, Hk. cbn [Nat.add].
      rewrite (wait_idle_step G _ ck b _ _ ev g Hp Hu).
      rewrite wait_idle_done by reflexivity.
      unfold ck. rewrite Zplus_mod_idemp_l, Z.add_assoc. reflexivity.
    + reflexivity.
    + lia.
    + rewrite skipn_all2 by lia. unfold sum_durations. cbn [fold_right]. lia.
    + exists []. reflexivity.
  - (* an inner note: the due poll moves on, the delay follows *)
    destruct (nth_error steps (S i)) as [nxt|] eqn:Enxt.
    2:{ apply nth_error_None in Enxt. lia. }
    destruct (step_in_pattern (S i) nxt Enxt) as (HSi & EPn & Hdn).
    destruct (ends_after_ordinary steps P Hwf (S i) HSi)
      as (nxt' & EPn' & _ & _ & Hord).
    rewrite EPn in EPn'. injection EPn' as <-.
    rewrite EPn, Hord in Hu.
    set (b1 := set_noteStartTime ck (set_patternIndex (Z.of_nat (S i)) b))
      in *.
    assert (Hc1 : 0 <= (ck + 10) mod 2 ^ 32 < 2 ^ 32)
      by (apply Z.mod_pos_bound; lia).
    destruct (IH ((ck + 10) mod 2 ^ 32) b1 (S i) nxt
                (playing_next b P _ (Z.of_nat (S i)) ck Hpl) Hrep Enxt
                ltac:(lia) Hc1)
      as (T' & b' & out' & fuel' & Hrun & Hidle & HT1 & HT2 & pre & Hout).
    assert (He1 : sub32 ((ck + 10) mod 2 ^ 32) (noteStartTime b1) = 10).
    { apply sub32_exact. lia. }
    rewrite He1 in HT2.
    exists (10 * Z.of_nat k + 10 + T'), b',
           (note_cmds (channel b) nxt ++ out'), (k + S fuel')%nat.
    split; [|split; [|split; [|split]]].
    + intros f ev g. rewrite <- Nat.add_assoc, Hk. cbn [Nat.add].
      rewrite (wait_idle_step G _ ck b _ _ ev g Hp Hu).
      rewrite Hrun, map_app, app_assoc.
      unfold ck. rewrite Zplus_mod_idemp_l, <- Z.add_assoc.
      rewrite Zplus_mod_idemp_l.
      do 2 f_equal. f_equal. lia.
    + exact Hidle.
    + lia.
    + rewrite (skipn_cons_nth _ _ _ _ Enxt).
      cbn [sum_durations fold_right].
      fold (sum_durations (skipn (S (S i)) steps)). lia.
    + exists (note_cmds (channel b) nxt ++ pre). rewrite Hout.
      rewrite app_assoc. reflexivity.
Qed.

End WaitForPattern.

(** X11. The wait of [setup()] returns for every pattern played once.  For a
    pattern whose end marker follows N ordinary notes (1 <= N <= 255,
    durations as 16-bit values), started with looping disabled, the loop
    [while (buzzer.isActive()) { buzzer.update(); delay(10); }] returns for
    every sufficient amount of fuel, without reading outside the array, with
    the object idle and silence as the last write, after a time [T] of at
    least 10 ms and at most the sum of the durations plus 19 ms per note. *)
Theorem startup_wait_terminates
    (G : Type) (steps P : list BuzzerNote) (name : string) (c : Z)
    (b0 : IndustrialBuzzer) :
  ends_after steps P -> steps <> [] -> (length steps <= 255)%nat ->
  Forall (fun n => 0 <= duration n < 2 ^ 16) steps ->
  0 <= c < 2 ^ 32 ->
  exists b1 out1 T b' out fuel0,
    exec (playPattern (Some P) name false) c b0 = Some (b1, out1) /\
    (forall f ev (g : G),
       wait_idle (fuel0 + f) (mkBoard c b1 ev g)
       = Returned (mkBoard ((c + T) mod 2 ^ 32) b' (ev ++ map Ledc out) g)) /\
    isPlaying b' = false /\
    10 <= T <= sum_durations steps + 19 * Z.of_nat (length steps) /\
    exists pre, out = pre ++ silence (channel b0).
Proof.
  intros Hwf Hne Hlen Hdur Hc.
  destruct steps as [|first rest] eqn:Esteps; [contradiction|].
  rewrite <- Esteps in *.
  assert (Efirst : nth_error steps 0 = Some first) by (rewrite Esteps; reflexivity).
  destruct (step_in_pattern steps P Hwf Hdur 0 first Efirst) as (_ & EP & Hd).
  pose proof (exec_playPattern (Some P) name false c b0) as Hstart.
  change 0 with (Z.of_nat 0) in Hstart at 1.
  rewrite note_at_nat, EP in Hstart.
  set (b1 := mkBuzzer (pin b0) (channel b0) (Some P) 0 c true false name) in *.
  destruct (wait_run G steps P Hwf Hlen Hdur (length rest) c b1 0 first)
    as (T & b' & out & fuel0 & Hrun & Hidle & HT1 & HT2 & Hout);
    [repeat split | reflexivity | exact Efirst
    | rewrite Esteps; cbn; lia | exact Hc |].
  exists b1, (note_cmds (channel b0) first), T, b', out, fuel0.
  split; [exact Hstart|]. split; [exact Hrun|]. split; [exact Hidle|].
  split; [|exact Hout].
  split; [exact HT1|].
  assert (He : sub32 c (noteStartTime b1) = 0).
  { unfold sub32, b1. cbn. rewrite Z.sub_diag. reflexivity. }
  rewrite He in HT2.
  assert (Hsum : sum_durations steps
                 = duration first + sum_durations (skipn 1 steps)).
  { rewrite Esteps. reflexivity. }
  assert (HN : Z.of_nat (length steps) = Z.of_nat (length rest) + 1).
  { rewrite Esteps. cbn [length]. lia. }
  lia.
Qed.

Lemma startup_wait_terminates_witness :
  exists b1 out1 T b' out fuel0,
    exec (playPattern (Some PATTERN_STARTUP) "Startup" false) 100 buzzer
    = Some (b1, out1) /\
    (forall f ev (g : unit),
       wait_idle (fuel0 + f) (mkBoard 100 b1 ev g)
       = Returned (mkBoard ((100 + T) mod 2 ^ 32) b' (ev ++ map Ledc out) g)) /\
    isPlaying b' = false /\
    10 <= T <= sum_durations (removelast PATTERN_STARTUP)
               + 19 * Z.of_nat (length (removelast PATTERN_STARTUP)) /\
    exists pre, out = pre ++ silence (channel buzzer).
Proof.
  apply (startup_wait_terminates unit (removelast PATTERN_STARTUP)
           PATTERN_STARTUP "Startup" 100 buzzer).
  - exists (mkNote 0 0 0), []. split; [reflexivity|].
    split; [reflexivity|]. repeat constructor.
  - discriminate.
  - cbn. lia.
  - repeat constructor; cbn; lia.
  - lia.
Defined.

(** X12. The same wait never returns for a looping pattern: with the loop
    flag set on a pattern whose end marker follows 1 to 255 ordinary notes,
    the loop runs out of any amount of fuel - it neither returns nor
    faults - so a repeating pattern must not be awaited this way. *)
Theorem wait_never_returns_when_looping
    (G : Type) (steps P : list BuzzerNote) (fuel : nat) :
  ends_after steps P -> (length steps <= 255)%nat ->
  forall (i : nat) (c : Z) (b : IndustrialBuzzer) (ev : list Event) (g : G),
    playing P (Z.of_nat i) b -> repeat b = true -> (i < length steps)%nat ->
    wait_idle fuel (mkBoard c b ev g) = OutOfFuel.
Proof.
  intros Hwf Hlen.
  induction fuel as [|fuel IH]; intros i c b ev g Hpl Hrep Hi;
    [reflexivity|].
  pose proof Hpl as (Hp & _ & _).
  destruct (due c b) eqn:Edue.
  - rewrite (wait_idle_step G _ c b _ _ ev g Hp
               (looping_step steps P Hwf Hlen i b c Hpl Hrep Hi Edue)).
    apply (IH (S i mod length steps)%nat).
    + apply playing_next with (i := Z.of_nat i). exact Hpl.
    + exact Hrep.
    + apply Nat.mod_upper_bound. lia.
  - destruct (ends_after_ordinary steps P Hwf i Hi) as (cur & Ecur & _).
    rewrite (wait_idle_step G _ c b _ _ ev g Hp
               (update_wait b P i cur c Hpl Ecur Edue)).
    apply (IH i); assumption.
Qed.

Lemma wait_never_returns_when_looping_witness :
  wait_idle 1000
    (mkBoard 0
       (mkBuzzer 33 0 (Some PATTERN_CRITICAL) 0 0 true true "5. Critical")
       [] tt)
  = OutOfFuel.
Proof.
  apply (wait_never_returns_when_looping unit
           (removelast PATTERN_CRITICAL) PATTERN_CRITICAL 1000) with (i := 0%nat).
  - exists (mkNote 0 0 0), []. split; [reflexivity|].
    split; [reflexivity|]. repeat constructor.
  - cbn. lia.
  - repeat split.
  - reflexivity.
  - cbn. lia.
Defined.

(** ** The serial menu sketch *)

Lemma exec_serial_playPattern (pattern : NotePtr) (rp : bool) (clk : Z)
    (b : IndustrialBuzzer) :
  exec (SerialMenu.playPattern pattern rp) clk b =
  match note_at pattern 0 with
  | Some note =>
      Some (mkBuzzer (pin b) (channel b) pattern 0 clk true rp (currentName b),
            note_cmds (channel b) note)
  | None => None
  end.
Proof.
  unfold exec, SerialMenu.playPattern, playCurrentNote, bind, get, load,
    assign, millis, note_cmds; cbn.
  destruct (note_at pattern 0) as [note|]; [|reflexivity].
  destruct (0 <? frequency note); reflexivity.
Qed.

Lemma exec_serial_stop (clk : Z) (b : IndustrialBuzzer) :
  exec SerialMenu.stop clk b
  = Some (set_repeat false (set_isPlaying false b), silence (channel b)).
Proof. reflexivity. Qed.

Lemma exec_serial_update (b : IndustrialBuzzer) (t : Z) :
  exec SerialMenu.update t b = keeping_name (currentName b) (exec update t b).
Proof.
  rewrite exec_update.
  unfold exec, SerialMenu.update, restartNote, SerialMenu.stop,
    playCurrentNote, bind, get, load, assign, millis, ret, ledcWrite,
    ledcWriteTone, is_end_marker, note_cmds, silence, stopped, keeping_name.
  destruct b as [p c pat idx st pl rp nm]; fields.
  destruct pl; fields; [|reflexivity].
  destruct pat as [arr|]; fields; [|reflexivity].
  destruct (nth_error arr (Z.to_nat idx)) as [note|]; [|reflexivity].
  destruct (duration note <=? sub32 t st); [|reflexivity].
  fields.
  destruct (nth_error arr (Z.to_nat (incr8 idx))) as [nxt|] eqn:Enxt;
    [|reflexivity].
  destruct ((frequency nxt =? 0) && (duration nxt =? 0)).
  + destruct rp; fields; [|reflexivity].
    destruct (nth_error arr (Z.to_nat 0)) as [first|]; [|reflexivity].
    destruct (0 <? frequency first); reflexivity.
  + fields. rewrite Enxt.
    destruct (0 <? frequency nxt); reflexivity.
Qed.

(** X13. The two copies of the class in the file are the same state
    machine: on every object and at every clock value the serial sketch's
    [update], [stop] and [playPattern] fail exactly when the display
    sketch's do, write the same commands to the peripheral and leave the
    same fields, except that they leave [currentName] as it was. *)
Theorem serial_copy_agrees_with_display_copy (b : IndustrialBuzzer) (t : Z) :
  exec SerialMenu.update t b = keeping_name (currentName b) (exec update t b)
  /\ exec SerialMenu.stop t b = keeping_name (currentName b) (exec stop t b)
  /\ forall pattern name rp,
       exec (SerialMenu.playPattern pattern rp) t b
       = keeping_name (currentName b)
           (exec (playPattern pattern name rp) t b).
Proof.
  split; [|split].
  - apply exec_serial_update.
  - reflexivity.
  - intros pattern name rp.
    rewrite exec_serial_playPattern, exec_playPattern.
    destruct (note_at pattern 0); reflexivity.
Qed.

Lemma in_pattern_set_currentName (name : string) (b : IndustrialBuzzer) :
  in_pattern b -> in_pattern (set_currentName name b).
Proof. intros H Hp. exact (H Hp). Qed.

Lemma serial_update_keeps (b : IndustrialBuzzer) (t : Z) :
  in_pattern b ->
  exists b' out,
    exec SerialMenu.update t b = Some (b', out) /\ in_pattern b'.
Proof.
  intros Hinv.
  destruct (update_keeps_in_pattern b t Hinv) as (b1 & out & Eu & Hinv1).
  rewrite exec_serial_update, Eu. eexists _, _. split; [reflexivity|].
  apply in_pattern_set_currentName. exact Hinv1.
Qed.

Lemma ledc_of_app (e1 e2 : list Event) :
  ledc_of (e1 ++ e2) = ledc_of e1 ++ ledc_of e2.
Proof.
  induction e1 as [|[c|d|s|s] e1 IH]; cbn; rewrite ?IH; reflexivity.
Qed.

Lemma ledc_of_map (out : list SinkCmd) : ledc_of (map Ledc out) = out.
Proof. induction out as [|c out IH]; [reflexivity|]. cbn. rewrite IH. reflexivity. Qed.

Lemma drain_nil (buf : list ascii) : SerialMenu.drain buf = [].
Proof. induction buf as [|a buf IH]; [reflexivity|exact IH]. Qed.

Lemma println_run (s : string) (c : Z) (b : IndustrialBuzzer)
    (ev : list Event) (g : SerialMenu.Globals) :
  SerialMenu.println s (mkBoard c b ev g)
  = Some (tt, mkBoard c b (ev ++ [SerialPrintln s]) g).
Proof. reflexivity. Qed.

Lemma printMenu_run (c : Z) (b : IndustrialBuzzer) (ev : list Event)
    (g : SerialMenu.Globals) :
  exists lines,
    SerialMenu.printMenu (mkBoard c b ev g)
    = Some (tt, mkBoard c b (ev ++ lines) g) /\ ledc_of lines = [].
Proof.
  eexists. split.
  - unfold SerialMenu.printMenu.
    repeat rewrite (sbind_run _ (println_run _ _ _ _ _)).
    unfold SerialMenu.print, emit.
    cbv beta iota delta [clock the_buzzer events globals].
    rewrite <- !(@app_assoc Event). reflexivity.
  - reflexivity.
Qed.

(** Starting one of the tables from the serial menu. *)
Lemma serial_start_run (msg : string) (P : list BuzzerNote)
    (first : BuzzerNote) (rp : bool) (c : Z) (b : IndustrialBuzzer)
    (ev : list Event) (g : SerialMenu.Globals) :
  nth_error P 0 = Some first ->
  sbind (SerialMenu.println msg)
        (fun _ => call (SerialMenu.playPattern (Some P) rp))
        (mkBoard c b ev g)
  = Some (tt, mkBoard c
                (mkBuzzer (pin b) (channel b) (Some P) 0 c true rp
                          (currentName b))
                ((ev ++ [SerialPrintln msg])
                   ++ map Ledc (note_cmds (channel b) first))
                g).
Proof.
  intros Hfirst.
  rewrite (sbind_run _ (println_run msg c b ev g)).
  apply call_exec. rewrite exec_serial_playPattern.
  unfold note_at. change (Z.to_nat 0) with 0%nat. rewrite Hfirst.
  reflexivity.
Qed.

Lemma table_in_pattern (P : list BuzzerNote) (p ch c : Z) (rp : bool)
    (name : string) :
  ends_after (removelast P) P -> removelast P <> [] ->
  in_pattern (mkBuzzer p ch (Some P) 0 c true rp name).
Proof.
  intros Hwf Hne _. exists (removelast P), P. cbn.
  split; [reflexivity|]. split; [exact Hwf|].
  destruct (removelast P); [contradiction|]. cbn [length]. lia.
Qed.

Ltac table_ok :=
  apply table_in_pattern;
  [ exists (mkNote 0 0 0), []; split; [reflexivity|];
    split; [reflexivity|]; repeat constructor
  | discriminate ].

Lemma playTone_run (f d v : Z) (c : Z) (b : IndustrialBuzzer)
    (ev : list Event) (g : SerialMenu.Globals) :
  exists out,
    SerialMenu.playTone f d v (mkBoard c b ev g)
    = Some (tt, mkBoard ((c + d) mod 2 ^ 32) b
                  (ev ++ map Ledc (out ++ [LedcWrite (channel b) 0])) g).
Proof.
  exists (if 0 <? f then [LedcWriteTone (channel b) f; LedcWrite (channel b) v]
          else [LedcWrite (channel b) 0]).
  unfold SerialMenu.playTone, sbind, call, get, ledcWriteTone, ledcWrite,
    delay.
  cbn. destruct (0 <? f); cbn; rewrite <- ?app_assoc; reflexivity.
Qed.

(** The tone test of key '9'. *)
Lemma tone_test_run (c : Z) (b : IndustrialBuzzer) (ev : list Event)
    (g : SerialMenu.Globals) :
  exists more,
    sbind (SerialMenu.println "Custom tone test: Low -> Medium -> High")
      (fun _ =>
       sbind (SerialMenu.playTone FREQ_LOW 300 VOLUME_MEDIUM)
         (fun _ =>
          sbind (delay 100)
            (fun _ =>
             sbind (SerialMenu.playTone FREQ_MEDIUM 300 VOLUME_MEDIUM)
               (fun _ =>
                sbind (delay 100)
                  (fun _ =>
                   sbind (SerialMenu.playTone FREQ_HIGH 300 VOLUME_MEDIUM)
                     (fun _ => SerialMenu.println "Done!"))))))
      (mkBoard c b ev g)
    = Some (tt, mkBoard ((c + 1100) mod 2 ^ 32) b (ev ++ more) g).
Proof.
  rewrite (sbind_run _ (println_run _ c b ev g)).
  destruct (playTone_run FREQ_LOW 300 VOLUME_MEDIUM c b
              (ev ++ [SerialPrintln "Custom tone test: Low -> Medium -> High"])
              g) as (o1 & E1).
  rewrite (sbind_run _ E1). clear E1.
  unfold sbind at 1. unfold delay at 1.
  cbv beta iota delta [clock the_buzzer events globals].
  match goal with
  | |- exists _, sbind _ _ (mkBoard ?c1 _ ?ev1 _) = _ =>
      destruct (playTone_run FREQ_MEDIUM 300 VOLUME_MEDIUM c1 b ev1 g)
        as (o2 & E2)
  end.
  rewrite (sbind_run _ E2). clear E2.
  unfold sbind at 1. unfold delay at 1.
  cbv beta iota delta [clock the_buzzer events globals].
  match goal with
  | |- exists _, sbind _ _ (mkBoard ?c1 _ ?ev1 _) = _ =>
      destruct (playTone_run FREQ_HIGH 300 VOLUME_MEDIUM c1 b ev1 g)
        as (o3 & E3)
  end.
  rewrite (sbind_run _ E3), println_run. clear E3.
  rewrite <- !(@app_assoc Event).
  eexists. f_equal. f_equal. f_equal.
  repeat (rewrite Zplus_mod_idemp_l, <- ?Z.add_assoc). reflexivity.
Qed.

Lemma dispatch_run (input : ascii) (c : Z) (b : IndustrialBuzzer)
    (ev : list Event) (g : SerialMenu.Globals) :
  exists c' b' more,
    SerialMenu.dispatch input (mkBoard c b ev g)
    = Some (tt, mkBoard c' b' (ev ++ more) g) /\
    (in_pattern b -> in_pattern b') /\
    (repeat b' = true -> input = "5"%char \/ b' = b) /\
    (input = "5"%char ->
     b' = mkBuzzer (pin b) (channel b) (Some PATTERN_CRITICAL) 0 c true true
                   (currentName b)) /\
    (~ In input menu_keys -> c' = c /\ b' = b /\ ledc_of more = []) /\
    (input = "9"%char -> c' = (c + 1100) mod 2 ^ 32 /\ b' = b).
Proof.
  unfold SerialMenu.dispatch.
  destruct (Ascii.eqb_spec input "1") as [->|N1].
  { eexists _, _, _.
    split; [erewrite serial_start_run by reflexivity;
            rewrite <- app_assoc; reflexivity|].
    split; [intros _; table_ok|].
    split; [discriminate|].
    split; [discriminate|].
    split; [intros H; exfalso; apply H; cbn; tauto|discriminate]. }
  destruct (Ascii.eqb_spec input "2") as [->|N2].
  { eexists _, _, _.
    split; [erewrite serial_start_run by reflexivity;
            rewrite <- app_assoc; reflexivity|].
    split; [intros _; table_ok|].
    split; [discriminate|].
    split; [discriminate|].
    split; [intros H; exfalso; apply H; cbn; tauto|discriminate]. }
  destruct (Ascii.eqb_spec input "3") as [->|N3].
  { eexists _, _, _.
    split; [erewrite serial_start_run by reflexivity;
            rewrite <- app_assoc; reflexivity|].
    split; [intros _; table_ok|].
    split; [discriminate|].
    split; [discriminate|].
    split; [intros H; exfalso; apply H; cbn; tauto|discriminate]. }
  destruct (Ascii.eqb_spec input "4") as [->|N4].
  { eexists _, _, _.
    split; [erewrite serial_start_run by reflexivity;
            rewrite <- app_assoc; reflexivity|].
    split; [intros _; table_ok|].
    split; [discriminate|].
    split; [discriminate|].
    split; [intros H; exfalso; apply H; cbn; tauto|discriminate]. }
  destruct (Ascii.eqb_spec input "5") as [->|N5].
  { eexists _, _, _.
    split; [erewrite serial_start_run by reflexivity;
            rewrite <- app_assoc; reflexivity|].
    split; [intros _; table_ok|].
    split; [intros _; left; reflexivity|].
    split; [intros _; reflexivity|].
    split; [intros H; exfalso; apply H; cbn; tauto|discriminate]. }
  destruct (Ascii.eqb_spec input "6") as [->|N6].
  { eexists _, _, _.
    split; [erewrite serial_start_run by reflexivity;
            rewrite <- app_assoc; reflexivity|].
    split; [intros _; table_ok|].
    split; [discriminate|].
    split; [discriminate|].
    split; [intros H; exfalso; apply H; cbn; tauto|discriminate]. }
  destruct (Ascii.eqb_spec input "7") as [->|N7].
  { eexists _, _, _.
    split; [erewrite serial_start_run by reflexivity;
            rewrite <- app_assoc; reflexivity|].
    split; [intros _; table_ok|].
    split; [discriminate|].
    split; [discriminate|].
    split; [intros H; exfalso; apply H; cbn; tauto|discriminate]. }
  destruct (Ascii.eqb_spec input "8") as [->|N8].
  { eexists _, _, _.
    split; [erewrite serial_start_run by reflexivity;
            rewrite <- app_assoc; reflexivity|].
    split; [intros _; table_ok|].
    split; [discriminate|].
    split; [discriminate|].
    split; [intros H; exfalso; apply H; cbn; tauto|discriminate]. }
  destruct (Ascii.eqb_spec input "9") as [->|N9].
  { destruct (tone_test_run c b ev g) as (more & E).
    exists ((c + 1100) mod 2 ^ 32), b, more.
    split; [exact E|].
    split; [auto|]. split; [auto|]. split; [discriminate|].
    split; [intros H; exfalso; apply H; cbn; tauto|auto]. }
  destruct (Ascii.eqb_spec input "0") as [->|N0].
  { eexists _, _, _.
    split.
    { rewrite (sbind_run _ (println_run _ c b ev g)).
      rewrite (call_exec _ _ _ _ _ _ _ g (exec_serial_stop c b)).
      rewrite <- app_assoc. reflexivity. }
    split; [intros _; apply in_pattern_idle; reflexivity|].
    split; [discriminate|].
    split; [discriminate|].
    split; [intros H; exfalso; apply H; cbn; tauto|discriminate]. }
  exists c, b, [SerialPrintln "Invalid selection!"].
  split; [apply println_run|].
  split; [auto|]. split; [auto|]. split; [intros ->; contradiction|].
  split; [intros _; repeat split|intros ->; contradiction].
Qed.

(** X14. [handleSerialInput()] on any board.  With nothing waiting it does
    nothing.  With a byte waiting it always returns, with the receive buffer
    empty (the rest of the line is discarded), and:
    - only the byte '5' can leave the object with the loop flag set (any
      other byte either clears it or leaves the object as it was);
    - a byte that is not one of the keys '0'..'9' leaves the buzzer object
      as it was and writes nothing to the buzzer peripheral, and blocks for
      the 100 ms before the menu is printed again;
    - the tone test '9' leaves the object as it was (a playing pattern keeps
      its index and note timer) and blocks for 1200 ms in all. *)
Theorem serial_input_dispatch
    (c : Z) (b : IndustrialBuzzer) (ev : list Event) :
  SerialMenu.handleSerialInput (mkBoard c b ev (SerialMenu.mkGlobals []))
  = Some (tt, mkBoard c b ev (SerialMenu.mkGlobals []))
  /\ forall input waiting,
     exists c' b' more,
       SerialMenu.handleSerialInput
         (mkBoard c b ev (SerialMenu.mkGlobals (input :: waiting)))
       = Some (tt, mkBoard c' b' (ev ++ more) (SerialMenu.mkGlobals [])) /\
       (repeat b' = true -> input = "5"%char \/ b' = b) /\
       (~ In input menu_keys ->
        b' = b /\ ledc_of more = [] /\ c' = (c + 100) mod 2 ^ 32) /\
       (input = "9"%char -> b' = b /\ c' = (c + 1200) mod 2 ^ 32).
Proof.
  split; [reflexivity|].
  intros input waiting. unfold SerialMenu.handleSerialInput.
  unfold sbind at 1. unfold read at 1. cbn [globals SerialMenu.rx].
  unfold sbind at 1. unfold write at 1.
  cbn [clock the_buzzer events globals].
  rewrite (sbind_run _ (println_run _ c b ev _)).
  unfold sbind at 1. unfold read at 1. cbn [globals SerialMenu.rx].
  unfold sbind at 1. unfold write at 1.
  cbn [clock the_buzzer events globals]. rewrite drain_nil.
  destruct (dispatch_run input c b
              (ev ++ [SerialPrintln (String input EmptyString)])
              (SerialMenu.mkGlobals []))
    as (c1 & b1 & more & Ed & _ & Hrep & _ & Hother & Hnine).
  rewrite (sbind_run _ Ed).
  destruct (Ascii.eqb_spec input "5") as [->|N5]; cbn [negb].
  - exists c1, b1, (SerialPrintln "5" :: more).
    split; [cbn [sret]; rewrite <- app_assoc; reflexivity|].
    split; [auto|].
    split; [intros H; exfalso; apply H; cbn; tauto|discriminate].
  - unfold sbind at 1. unfold delay at 1.
    cbn [clock the_buzzer events globals].
    destruct (printMenu_run ((c1 + 100) mod 2 ^ 32) b1
                ((ev ++ [SerialPrintln (String input EmptyString)]) ++ more)
                (SerialMenu.mkGlobals []))
      as (lines & Ep & Hlines).
    rewrite Ep.
    exists ((c1 + 100) mod 2 ^ 32), b1,
           (SerialPrintln (String input EmptyString) :: more ++ lines).
    split; [rewrite <- !app_assoc; reflexivity|].
    split; [exact Hrep|]. split.
    + intros Hn. destruct (Hother Hn) as (-> & -> & Hm).
      split; [reflexivity|]. split; [|reflexivity].
      cbn [ledc_of]. rewrite ledc_of_app, Hm, Hlines. reflexivity.
    + intros H9. destruct (Hnine H9) as (-> & ->).
      split; [reflexivity|].
      rewrite Zplus_mod_idemp_l. f_equal. ring.
Qed.

Lemma serial_input_dispatch_witness :
  ~ In "x"%char menu_keys /\
  exists c' more,
    SerialMenu.handleSerialInput
      (mkBoard 0 buzzer [] (SerialMenu.mkGlobals ["x"; "y"]%char))
    = Some (tt, mkBoard c' buzzer ([] ++ more) (SerialMenu.mkGlobals [])) /\
    ledc_of more = [] /\ c' = (0 + 100) mod 2 ^ 32.
Proof.
  assert (Hx : ~ In "x"%char menu_keys).
  { cbn. intros H. repeat (destruct H as [H|H]; [discriminate H|]). exact H. }
  split; [exact Hx|].
  destruct (proj2 (serial_input_dispatch 0 buzzer []) "x"%char ["y"%char])
    as (c' & b' & more & E & _ & Hother & _).
  destruct (Hother Hx) as (Hb & Hm & Hc).
  exists c', more. rewrite Hb in E. auto.
Defined.

(** X15. The serial sketch never reads outside a pattern array: from a
    board whose buzzer index points at an ordinary note of an end-marked
    pattern (or whose buzzer is idle), one pass of [loop()] returns,
    whatever bytes are waiting on the serial line and whatever the clock
    shows, in a board of the same kind, with the receive buffer empty. *)
Theorem serial_loop_keeps_invariant (w : Board SerialMenu.Globals) :
  in_pattern (the_buzzer w) ->
  exists w',
    SerialMenu.loop w = Some (tt, w') /\
    in_pattern (the_buzzer w') /\
    SerialMenu.rx (globals w') = [].
Proof.
  destruct w as [c b ev [buf]]. cbn [the_buzzer]. intros Hinv.
  destruct (serial_update_keeps b c Hinv) as (b1 & out & Eu & Hinv1).
  unfold SerialMenu.loop.
  rewrite (sbind_run _ (call_exec _ _ c b b1 out ev _ Eu)).
  assert (Hh : exists c2 b2 ev2,
             SerialMenu.handleSerialInput
               (mkBoard c b1 (ev ++ map Ledc out) (SerialMenu.mkGlobals buf))
             = Some (tt, mkBoard c2 b2 ev2 (SerialMenu.mkGlobals [])) /\
             in_pattern b2).
  { destruct buf as [|input waiting].
    - exists c, b1, (ev ++ map Ledc out). split; [reflexivity|exact Hinv1].
    - unfold SerialMenu.handleSerialInput.
      unfold sbind at 1. unfold read at 1. cbn [globals SerialMenu.rx].
      unfold sbind at 1. unfold write at 1.
      cbn [clock the_buzzer events globals].
      rewrite (sbind_run _ (println_run _ c b1 _ _)).
      unfold sbind at 1. unfold read at 1. cbn [globals SerialMenu.rx].
      unfold sbind at 1. unfold write at 1.
      cbn [clock the_buzzer events globals]. rewrite drain_nil.
      match goal with
      | |- exists _ _ _, sbind _ _ (mkBoard _ _ ?e _) = _ /\ _ =>
          destruct (dispatch_run input c b1 e (SerialMenu.mkGlobals []))
            as (c1 & b2 & more & Ed & Hkeep & _)
      end.
      rewrite (sbind_run _ Ed).
      destruct (negb (Ascii.eqb input "5")).
      + unfold sbind at 1. unfold delay at 1.
        cbn [clock the_buzzer events globals].
        match goal with
        | |- exists _ _ _, SerialMenu.printMenu (mkBoard ?c2 _ ?e2 _) = _ /\ _ =>
            destruct (printMenu_run c2 b2 e2 (SerialMenu.mkGlobals []))
              as (lines & Ep & _)
        end.
        rewrite Ep. eexists _, b2, _. split; [reflexivity|auto].
      + eexists _, b2, _. split; [reflexivity|auto]. }
  destruct Hh as (c2 & b2 & ev2 & Eh & Hinv2).
  rewrite (sbind_run _ Eh).
  eexists. split; [reflexivity|]. split; [exact Hinv2|reflexivity].
Qed.

Lemma serial_loop_keeps_invariant_witness :
  in_pattern buzzer /\
  exists w',
    SerialMenu.loop (mkBoard 0 buzzer [] (SerialMenu.mkGlobals ["5"%char]))
    = Some (tt, w') /\
    in_pattern (the_buzzer w') /\
    SerialMenu.rx (globals w') = [].
Proof.
  assert (H : in_pattern buzzer) by (intros H; discriminate).
  split; [exact H|].
  apply (serial_loop_keeps_invariant
           (mkBoard 0 buzzer [] (SerialMenu.mkGlobals ["5"%char]))).
  exact H.
Defined.

(** ** The NTP clock sketch *)

Ltac ntp :=
  cbv beta iota zeta delta
    [NtpClock.bind NtpClock.ret NtpClock.millis NtpClock.get NtpClock.put
     NtpClock.global NtpClock.out NtpClock.sprite NtpClock.tft
     NtpClock.println NtpClock.delay NtpClock.fault
     NtpClock.set_targetTime NtpClock.set_lastWatchdogReset
     NtpClock.set_lastProgress NtpClock.set_infoUpdateCounter
     NtpClock.getLocalTime NtpClock.for_range
     NtpClock.now NtpClock.state NtpClock.targetTime
     NtpClock.lastWatchdogReset NtpClock.lastProgress
     NtpClock.infoUpdateCounter NtpClock.time_calls NtpClock.trace
     NtpClock.set_ethConnected NtpClock.set_timeConfigured
     NtpClock.set_ntpSynced NtpClock.set_lastHour NtpClock.set_lastMinute
     NtpClock.set_lastSecond NtpClock.set_lastDateStr
     NtpClock.set_lastSyncTime NtpClock.set_lastReconnectAttempt
     NtpClock.set_reconnectAttempts NtpClock.set_signalQuality
     NtpClock.set_linkSpeed NtpClock.set_initialBoot
     NtpClock.ethConnected NtpClock.timeConfigured NtpClock.ntpSynced
     NtpClock.lastHour NtpClock.lastMinute NtpClock.lastSecond
     NtpClock.lastDateStr NtpClock.bootTime NtpClock.lastSyncTime
     NtpClock.lastReconnectAttempt NtpClock.reconnectAttempts
     NtpClock.signalQuality NtpClock.linkSpeed NtpClock.initialBoot
     and_then].

Tactic Notation "ntp" "in" hyp(H) := revert H; ntp; intros H.

Lemma ntp_bind_run {A B : Type} {m : NtpClock.Prog A}
    (f : A -> NtpClock.Prog B) {w a w1} :
  m w = Some (a, w1) -> NtpClock.bind m f w = f a w1.
Proof. intros E. unfold NtpClock.bind. rewrite E. reflexivity. Qed.

(** *** A program logic for the sketch *)

Lemma hoare_ret {A : Type} (P : NtpClock.World -> Prop) (a : A) :
  hoare P (NtpClock.ret a) P.
Proof. intros w a' w' H E. inversion E. subst. exact H. Qed.

Lemma hoare_bind {A B : Type} (P R Q : NtpClock.World -> Prop)
    (m : NtpClock.Prog A) (f : A -> NtpClock.Prog B) :
  hoare P m R -> (forall a, hoare R (f a) Q) ->
  hoare P (NtpClock.bind m f) Q.
Proof.
  intros Hm Hf w b w' H E. unfold NtpClock.bind in E.
  destruct (m w) as [[a w1]|] eqn:E1; [|discriminate].
  exact (Hf a w1 b w' (Hm w a w1 H E1) E).
Qed.

(** Reading the clock, a field or a global leaves the world alone, and the
    value read is the one of a world with [P]. *)
Lemma hoare_read {A B : Type} (P Q : NtpClock.World -> Prop)
    (rd : NtpClock.World -> A) (k : A -> NtpClock.Prog B) :
  (forall v, (exists w, P w /\ rd w = v) -> hoare P (k v) Q) ->
  hoare P (NtpClock.bind (fun w => Some (rd w, w)) k) Q.
Proof.
  intros Hk w b w' H E. unfold NtpClock.bind in E.
  apply (Hk (rd w) (ex_intro _ w (conj H eq_refl)) w b w' H E).
Qed.

Lemma hoare_seq {A B : Type} (P Q : NtpClock.World -> Prop)
    (m : NtpClock.Prog A) (f : A -> NtpClock.Prog B) :
  hoare P m P -> (forall a, hoare P (f a) Q) ->
  hoare P (NtpClock.bind m f) Q.
Proof. apply hoare_bind. Qed.

Lemma hoare_for_range (P : NtpClock.World -> Prop)
    (body : Z -> NtpClock.Prog unit) :
  (forall i, hoare P (body i) P) ->
  forall n lo, hoare P (NtpClock.for_range lo n body) P.
Proof.
  intros Hb. induction n as [|n IH]; intros lo.
  - apply hoare_ret.
  - cbn [NtpClock.for_range]. apply (hoare_bind P P P); [apply Hb|].
    intros _. apply IH.
Qed.

Lemma hoare_weaken {A : Type} (P P' Q : NtpClock.World -> Prop)
    (m : NtpClock.Prog A) :
  (forall w, P' w -> P w) -> hoare P m Q -> hoare P' m Q.
Proof. intros Himp Hm w a w' H E. exact (Hm w a w' (Himp w H) E). Qed.

(** An effect or an assignment whose change [P] does not see. *)
Ltac hoare_prim :=
  let w := fresh "w" in
  let H := fresh "H" in
  let E := fresh "E" in
  intros w ? ? H E; destruct w;
  unfold NtpClock.sprintf in E; ntp in E;
  repeat match type of E with
         | (if ?c then _ else _) = _ => destruct c
         end;
  inversion E; subst; clear E;
  first [exact H | reflexivity | (ntp; ntp in H; intuition auto; fail)].

(** The sketch's own functions, opened up to their statements. *)
Ltac open_sketch :=
  unfold NtpClock.loop, NtpClock.displayUpdate, NtpClock.infoUpdate,
    NtpClock.attemptReconnect, NtpClock.checkTimeSync, NtpClock.syncTime,
    NtpClock.drawStatusBar, NtpClock.drawConnectionIcon,
    NtpClock.drawStatusLED, NtpClock.drawTimeDisplay,
    NtpClock.drawDateDisplay, NtpClock.drawInfoBar, NtpClock.drawBottomBar,
    NtpClock.drawStatusArea, NtpClock.drawBootScreen,
    NtpClock.get, NtpClock.millis, NtpClock.global.

(** One rule of the logic, chosen by the shape of the program, with
    [known] for the loops. *)
Ltac hoare_step known :=
  lazymatch goal with
  | |- hoare _ (NtpClock.ret _) _ => apply hoare_ret
  | |- hoare _ (NtpClock.bind (fun w => Some (_, w)) _) _ =>
      apply hoare_read; intros ? ?
  | |- hoare _ (NtpClock.bind _ _) _ => apply hoare_seq; [|intros ?]
  | |- hoare _ (NtpClock.for_range _ _ _) _ =>
      apply hoare_for_range; intros ?
  | |- hoare _ (NtpClock.syncTime_loop _ _) _ => known
  | |- hoare _ (if ?b then _ else _) _ => destruct b eqn:?
  | |- hoare _ (match ?x with _ => _ end) _ => destruct x eqn:?
  | |- hoare _ _ _ => hoare_prim
  end.

(** *** Invariants of the state *)

Lemma syncTime_loop_keeps_synced (env : NtpClock.Env) (n : nat) :
  hoare synced (NtpClock.syncTime_loop env n) synced.
Proof.
  induction n as [|n IH]; cbn [NtpClock.syncTime_loop]; open_sketch;
    repeat hoare_step ltac:(exact IH).
Qed.

Lemma syncTime_loop_keeps_linked (env : NtpClock.Env) (n : nat) :
  hoare linked (NtpClock.syncTime_loop env n) linked.
Proof.
  induction n as [|n IH]; cbn [NtpClock.syncTime_loop]; open_sketch;
    repeat hoare_step ltac:(exact IH).
Qed.

Lemma syncTime_loop_keeps_speed (env : NtpClock.Env) (n : nat) :
  hoare speed_typed (NtpClock.syncTime_loop env n) speed_typed.
Proof.
  induction n as [|n IH]; cbn [NtpClock.syncTime_loop]; open_sketch;
    repeat hoare_step ltac:(exact IH).
Qed.

Lemma loop_keeps_synced (env : NtpClock.Env) :
  hoare synced (NtpClock.loop env) synced.
Proof.
  open_sketch;
    repeat hoare_step ltac:(apply syncTime_loop_keeps_synced).
Qed.

Lemma loop_keeps_linked (env : NtpClock.Env) :
  hoare linked (NtpClock.loop env) linked.
Proof.
  open_sketch;
    repeat hoare_step ltac:(apply syncTime_loop_keeps_linked).
Qed.

Lemma loop_keeps_speed (env : NtpClock.Env) :
  hoare speed_typed (NtpClock.loop env) speed_typed.
Proof.
  open_sketch;
    repeat hoare_step ltac:(apply syncTime_loop_keeps_speed).
Qed.

Lemma WiFiEvent_run (env : NtpClock.Env) (event : NtpClock.WiFiEvent_t)
    (w : NtpClock.World) :
  exists w1,
    NtpClock.WiFiEvent env event w = Some (tt, w1) /\
    (link_ok (NtpClock.state w1) \/ NtpClock.state w1 = NtpClock.state w) /\
    NtpClock.ntpSynced (NtpClock.state w1)
    = NtpClock.ntpSynced (NtpClock.state w) /\
    (NtpClock.linkSpeed (NtpClock.state w1)
     = NtpClock.uint16 (NtpClock.ETH_linkSpeed env) \/
     NtpClock.linkSpeed (NtpClock.state w1)
     = NtpClock.linkSpeed (NtpClock.state w)).
Proof.
  destruct w as [c s tg wd lp ic n t].
  destruct event; unfold NtpClock.WiFiEvent; ntp;
    (eexists; split; [reflexivity|]);
    (split; [first [right; reflexivity | left; reflexivity]|]);
    (split; [reflexivity|]);
    first [right; reflexivity | left; reflexivity].
Qed.

Lemma WiFiEvent_keeps_synced (env : NtpClock.Env)
    (event : NtpClock.WiFiEvent_t) :
  hoare synced (NtpClock.WiFiEvent env event) synced.
Proof.
  intros w a w' H E.
  destruct (WiFiEvent_run env event w) as (w1 & E1 & _ & Hs & _).
  rewrite E1 in E. injection E as _ <-. unfold synced. rewrite Hs. exact H.
Qed.

Lemma WiFiEvent_keeps_linked (env : NtpClock.Env)
    (event : NtpClock.WiFiEvent_t) :
  hoare linked (NtpClock.WiFiEvent env event) linked.
Proof.
  intros w a w' H E.
  destruct (WiFiEvent_run env event w) as (w1 & E1 & Hl & _).
  rewrite E1 in E. injection E as _ <-. unfold linked in *.
  destruct Hl as [Hl|Hl]; [exact Hl|rewrite Hl; exact H].
Qed.

Lemma WiFiEvent_keeps_speed (env : NtpClock.Env)
    (event : NtpClock.WiFiEvent_t) :
  hoare speed_typed (NtpClock.WiFiEvent env event) speed_typed.
Proof.
  intros w a w' H E.
  destruct (WiFiEvent_run env event w) as (w1 & E1 & _ & _ & Hv).
  rewrite E1 in E. injection E as _ <-. unfold speed_typed in *.
  destruct Hv as [Hv|Hv]; rewrite Hv; [|exact H].
  unfold NtpClock.uint16. apply Z.mod_pos_bound. lia.
Qed.

Lemma run_keeps (env : NtpClock.Env) (P : NtpClock.World -> Prop) :
  hoare P (NtpClock.loop env) P ->
  (forall event, hoare P (NtpClock.WiFiEvent env event) P) ->
  forall acts, hoare P (NtpClock.run env acts) P.
Proof.
  intros Hloop Hevent. induction acts as [|[|event] rest IH];
    cbn [NtpClock.run].
  - apply hoare_ret.
  - apply hoare_seq; [exact Hloop|intros _; exact IH].
  - apply hoare_seq; [apply Hevent|intros _; exact IH].
Qed.

(** *** The connection icon *)

Lemma icon_bars_app (evs more : list NtpClock.Out) :
  icon_bars (evs ++ more) = (icon_bars evs ++ icon_bars more)%list.
Proof.
  induction evs as [|e evs IH]; [reflexivity|].
  destruct e as [g| | | | |]; cbn [icon_bars app]; try exact IH.
  destruct g; cbn [app]; try exact IH; rewrite IH; reflexivity.
Qed.

Lemma drawStatusBar_run (w : NtpClock.World) :
  linked w ->
  exists evs,
    NtpClock.drawStatusBar w = Some (tt, and_then w evs) /\
    icon_bars evs = List.repeat (NtpClock.ethConnected (NtpClock.state w)) 4.
Proof.
  destruct w as [c s tg wd lp ic n t].
  destruct s as [eth cfg syn lh lm ls ld bt lst lra ra sq spd ib].
  unfold linked, link_ok.
  cbn [NtpClock.state NtpClock.signalQuality NtpClock.ethConnected].
  intros Hq. subst sq.
  unfold NtpClock.drawStatusBar, NtpClock.drawConnectionIcon,
    NtpClock.drawStatusLED. ntp.
  destruct eth;
    cbv beta iota delta [andb Z.leb Z.compare Z.add Z.mul Pos.compare
                         Pos.compare_cont Pos.add Pos.succ Pos.mul];
    rewrite <- !app_assoc; cbn [app];
    (eexists; split; [reflexivity|reflexivity]).
Qed.

(** X16. The connection icon of the NTP clock shows all four bars or none.
    Whatever passes of [loop()] and calls of [WiFiEvent()] come first, from
    a state whose [signalQuality] is 3 when connected and -1 otherwise,
    these two fields still agree, and [drawStatusBar()] draws four filled
    bars when [ethConnected] and four outlines when not: the quality
    argument of [drawConnectionIcon()] never selects one to three bars. *)
Theorem connection_icon_is_all_or_nothing
    (env : NtpClock.Env) (acts : list NtpClock.Activity)
    (w w1 : NtpClock.World) :
  link_ok (NtpClock.state w) ->
  NtpClock.run env acts w = Some (tt, w1) ->
  link_ok (NtpClock.state w1) /\
  exists evs,
    NtpClock.drawStatusBar w1 = Some (tt, and_then w1 evs) /\
    icon_bars evs = List.repeat (NtpClock.ethConnected (NtpClock.state w1)) 4.
Proof.
  intros Hw E.
  assert (Hw1 : linked w1).
  { exact (run_keeps env linked (loop_keeps_linked env)
             (WiFiEvent_keeps_linked env) acts w tt w1 Hw E). }
  split; [exact Hw1|]. exact (drawStatusBar_run w1 Hw1).
Qed.

Lemma connection_icon_is_all_or_nothing_witness :
  exists w1,
    NtpClock.run no_network
      [NtpClock.Callback NtpClock.ARDUINO_EVENT_ETH_GOT_IP; NtpClock.Pass;
       NtpClock.Callback NtpClock.ARDUINO_EVENT_ETH_DISCONNECTED]
      power_on = Some (tt, w1) /\
    link_ok (NtpClock.state w1) /\
    exists evs,
      NtpClock.drawStatusBar w1 = Some (tt, and_then w1 evs) /\
      icon_bars evs = List.repeat (NtpClock.ethConnected (NtpClock.state w1)) 4.
Proof.
  eexists. split; [lazy; reflexivity|].
  apply (connection_icon_is_all_or_nothing no_network
           [NtpClock.Callback NtpClock.ARDUINO_EVENT_ETH_GOT_IP;
            NtpClock.Pass;
            NtpClock.Callback NtpClock.ARDUINO_EVENT_ETH_DISCONNECTED]
           power_on); reflexivity.
Defined.

(** X17. [attemptReconnect()] is rate limited.  Called while disconnected,
    more than [RECONNECT_DELAY] ms (in unsigned 32-bit arithmetic) after the
    last attempt, it prints the attempt number, which is the [uint8_t]
    counter incremented modulo 256, and calls [ETH.begin]; called again up
    to 5000 ms later it does nothing at all. *)
Theorem reconnect_is_rate_limited (w : NtpClock.World) :
  NtpClock.ethConnected (NtpClock.state w) = false ->
  NtpClock.RECONNECT_DELAY
  < sub32 (NtpClock.now w) (NtpClock.lastReconnectAttempt (NtpClock.state w)) ->
  exists w1,
    NtpClock.attemptReconnect w = Some (tt, w1) /\
    NtpClock.trace w1
    = NtpClock.trace w ++
      [NtpClock.Println
         ("Attempting reconnect #" ++
          NtpClock.fmt_d (incr8 (NtpClock.reconnectAttempts
                                   (NtpClock.state w))));
       NtpClock.EthBegin] /\
    forall ms,
      0 <= ms <= NtpClock.RECONNECT_DELAY ->
      NtpClock.attemptReconnect (later ms w1) = Some (tt, later ms w1).
Proof.
  destruct w as [c s tg wd lp ic n t].
  destruct s as [eth cfg syn lh lm ls ld bt lst lra ra sq spd ib].
  cbn [NtpClock.state NtpClock.now NtpClock.ethConnected
       NtpClock.lastReconnectAttempt NtpClock.reconnectAttempts
       NtpClock.trace].
  intros -> Hdue. apply Z.ltb_lt in Hdue.
  unfold NtpClock.attemptReconnect. ntp. rewrite Hdue.
  cbv beta iota delta [negb andb].
  eexists. split; [reflexivity|]. ntp. split.
  - rewrite <- app_assoc. reflexivity.
  - intros ms Hms. unfold later. ntp.
    rewrite sub32_delay; unfold sub32; rewrite ?Z.sub_diag, ?Zmod_0_l;
      unfold NtpClock.RECONNECT_DELAY in *; try lia.
    replace (5000 <? 0 + ms) with false by (symmetry; apply Z.ltb_ge; lia).
    reflexivity.
Qed.

Lemma reconnect_is_rate_limited_witness :
  exists w1,
    NtpClock.attemptReconnect (later 6000 power_on) = Some (tt, w1) /\
    NtpClock.trace w1
    = [NtpClock.Println "Attempting reconnect #1"; NtpClock.EthBegin] /\
    forall ms,
      0 <= ms <= NtpClock.RECONNECT_DELAY ->
      NtpClock.attemptReconnect (later ms w1) = Some (tt, later ms w1).
Proof.
  apply (reconnect_is_rate_limited (later 6000 power_on)).
  - reflexivity.
  - vm_compute. reflexivity.
Defined.

Lemma syncTime_loop_run (env : NtpClock.Env) (n : nat) :
  forall w,
  exists b w',
    NtpClock.syncTime_loop env n w = Some (b, w') /\
    (b = true <->
     exists k, (k < n)%nat /\
               NtpClock.localTime env (NtpClock.time_calls w + k) <> None) /\
    (NtpClock.time_calls w' <= NtpClock.time_calls w + n)%nat /\
    (b = false ->
     NtpClock.state w' = NtpClock.state w /\
     NtpClock.time_calls w' = (NtpClock.time_calls w + n)%nat /\
     NtpClock.trace w'
     = NtpClock.trace w ++ [NtpClock.Println "Time sync failed"]) /\
    (b = true ->
     NtpClock.timeConfigured (NtpClock.state w') = true /\
     NtpClock.ntpSynced (NtpClock.state w') = true /\
     NtpClock.lastSyncTime (NtpClock.state w') = NtpClock.now w' /\
     NtpClock.trace w'
     = NtpClock.trace w ++ [NtpClock.Println "Time synced successfully"]).
Proof.
  induction n as [|n IH]; intros w.
  - exists false, (and_then w [NtpClock.Println "Time sync failed"]).
    split; [reflexivity|]. split; [|split; [|split]].
    + split; [discriminate|]. intros (k & Hk & _). lia.
    + cbn. lia.
    + intros _. cbn. auto.
    + discriminate.
  - cbn [NtpClock.syncTime_loop].
    destruct w as [c s tg wd lp ic calls t].
    unfold NtpClock.bind at 1. unfold NtpClock.getLocalTime at 1.
    cbn [NtpClock.time_calls NtpClock.now NtpClock.state NtpClock.targetTime
         NtpClock.lastWatchdogReset NtpClock.lastProgress
         NtpClock.infoUpdateCounter NtpClock.trace].
    destruct (NtpClock.localTime env calls) as [timeinfo|] eqn:Ea.
    + ntp. eexists true, _. split; [reflexivity|].
      split; [|split; [|split]].
      * split; [|reflexivity]. intros _. exists 0%nat.
        split; [lia|]. rewrite Nat.add_0_r, Ea. discriminate.
      * lia.
      * discriminate.
      * intros _. auto.
    + unfold NtpClock.bind at 1. unfold NtpClock.delay at 1.
      cbn [NtpClock.time_calls NtpClock.now NtpClock.state
           NtpClock.targetTime NtpClock.lastWatchdogReset
           NtpClock.lastProgress NtpClock.infoUpdateCounter NtpClock.trace].
      match goal with
      | |- exists _ _, NtpClock.syncTime_loop _ _ ?w1 = _ /\ _ =>
          destruct (IH w1) as (b & w' & E & Hb & Hle & Hf & Ht)
      end.
      cbn [NtpClock.time_calls NtpClock.state NtpClock.trace NtpClock.now]
        in Hb, Hle, Hf, Ht.
      exists b, w'. split; [exact E|]. split; [|split; [|split]].
      * rewrite Hb. split.
        -- intros (k & Hk & Hsome). exists (S k). split; [lia|].
           rewrite Nat.add_succ_r. exact Hsome.
        -- intros (k & Hk & Hsome). destruct k as [|k].
           ++ rewrite Nat.add_0_r in Hsome. congruence.
           ++ exists k. split; [lia|].
              rewrite Nat.add_succ_r in Hsome. exact Hsome.
      * lia.
      * intros Hb0. destruct (Hf Hb0) as (Hs & Hc & Htr).
        split; [exact Hs|]. split; [lia|exact Htr].
      * exact Ht.
Qed.

(** X18. [syncTime()] asks [getLocalTime] at most ten times.  It returns
    [true] exactly when one of the next ten calls succeeds, with
    [timeConfigured] and [ntpSynced] set and [lastSyncTime] the clock value
    at return; when all ten fail it returns [false], having printed the
    failure and left [state] as it was. *)
Theorem syncTime_gives_up_after_ten_attempts
    (env : NtpClock.Env) (w : NtpClock.World) :
  exists b w',
    NtpClock.syncTime env w = Some (b, w') /\
    (b = true <->
     exists k, (k < 10)%nat /\
               NtpClock.localTime env (NtpClock.time_calls w + k) <> None) /\
    (NtpClock.time_calls w' <= NtpClock.time_calls w + 10)%nat /\
    (b = false ->
     NtpClock.state w' = NtpClock.state w /\
     NtpClock.time_calls w' = (NtpClock.time_calls w + 10)%nat /\
     NtpClock.trace w'
     = NtpClock.trace w ++ [NtpClock.Println "Time sync failed"]) /\
    (b = true ->
     NtpClock.timeConfigured (NtpClock.state w') = true /\
     NtpClock.ntpSynced (NtpClock.state w') = true /\
     NtpClock.lastSyncTime (NtpClock.state w') = NtpClock.now w' /\
     NtpClock.trace w'
     = NtpClock.trace w ++ [NtpClock.Println "Time synced successfully"]).
Proof. exact (syncTime_loop_run env 10 w). Qed.

(** *** Buffers *)

Lemma all_from_spec (n : nat) :
  forall z p, all_from n z p = true ->
  forall x, z <= x < z + Z.of_nat n -> p x = true.
Proof.
  induction n as [|n IH]; intros z p H x Hx; [lia|].
  cbn [all_from] in H. apply andb_prop in H. destruct H as [Hz Hrest].
  destruct (Z.eq_dec x z) as [->|Hne]; [exact Hz|].
  apply (IH (z + 1) p Hrest). lia.
Qed.

Lemma string_length_app (s t : string) :
  String.length (s ++ t) = (String.length s + String.length t)%nat.
Proof. induction s as [|a s IH]; cbn; [reflexivity|]. rewrite IH. reflexivity. Qed.

Lemma fmt_d_uint16 (z : Z) :
  0 <= z < 65536 -> (String.length (NtpClock.fmt_d z) <= 5)%nat.
Proof.
  intros Hz. apply Nat.leb_le.
  apply (all_from_spec (Z.to_nat 65536) 0
           (fun z => (String.length (NtpClock.fmt_d z) <=? 5)%nat)).
  - vm_compute. reflexivity.
  - lia.
Qed.

Lemma fmt_d_hours (z : Z) :
  0 <= z < 1194 -> (String.length (NtpClock.fmt_d z) <= 4)%nat.
Proof.
  intros Hz. apply Nat.leb_le.
  apply (all_from_spec (Z.to_nat 1194) 0
           (fun z => (String.length (NtpClock.fmt_d z) <=? 4)%nat)).
  - vm_compute. reflexivity.
  - lia.
Qed.

Lemma fmt_d_mins (z : Z) :
  0 <= z < 60 -> (String.length (NtpClock.fmt_d z) <= 2)%nat.
Proof.
  intros Hz. apply Nat.leb_le.
  apply (all_from_spec (Z.to_nat 60) 0
           (fun z => (String.length (NtpClock.fmt_d z) <=? 2)%nat)).
  - vm_compute. reflexivity.
  - lia.
Qed.

Lemma fmt_02d_uint8 (z : Z) :
  0 <= z < 256 ->
  String.length (NtpClock.fmt_02d z) = if z <? 100 then 2%nat else 3%nat.
Proof.
  intros Hz. apply Nat.eqb_eq.
  apply (all_from_spec (Z.to_nat 256) 0
           (fun z => Nat.eqb (String.length (NtpClock.fmt_02d z))
                             (if z <? 100 then 2%nat else 3%nat))).
  - vm_compute. reflexivity.
  - lia.
Qed.

Lemma sprintf_fits (size : Z) (text : string) (w : NtpClock.World) :
  Z.of_nat (String.length text) + 1 <= size ->
  NtpClock.sprintf size text w = Some (text, w).
Proof.
  intros H. unfold NtpClock.sprintf.
  apply Z.leb_le in H. rewrite H. reflexivity.
Qed.

Lemma sprintf_overflows (size : Z) (text : string) (w : NtpClock.World) :
  size < Z.of_nat (String.length text) + 1 ->
  NtpClock.sprintf size text w = None.
Proof.
  intros H. unfold NtpClock.sprintf.
  apply Z.leb_gt in H. rewrite H. reflexivity.
Qed.

Lemma drawTimeDisplay_run (hh mm ss : Z) (w : NtpClock.World) :
  0 <= hh < 256 -> 0 <= mm < 256 -> 0 <= ss < 100 ->
  exists evs, NtpClock.drawTimeDisplay hh mm ss w = Some (tt, and_then w evs).
Proof.
  intros Hh Hm Hs. destruct w as [c s tg wd lp ic n t].
  unfold NtpClock.drawTimeDisplay. ntp.
  rewrite sprintf_fits.
  2:{ rewrite !string_length_app, (fmt_02d_uint8 hh Hh), (fmt_02d_uint8 mm Hm).
      cbn [String.length]. destruct (hh <? 100), (mm <? 100); cbn; lia. }
  rewrite sprintf_fits.
  2:{ rewrite !string_length_app, fmt_02d_uint8 by lia.
      replace (ss <? 100) with true by (symmetry; apply Z.ltb_lt; lia).
      cbn. lia. }
  rewrite <- !app_assoc. cbn [app]. eexists. reflexivity.
Qed.

(** X19. The seconds buffer of [drawTimeDisplay()] holds two digits and no
    more.  For arguments in the range of [uint8_t] the [sprintf] into
    [timeStr[9]] always fits, and the [sprintf] into [secStr[4]] fits
    exactly when the seconds are below 100: the call returns without
    overrunning a buffer if and only if [ss < 100]. *)
Theorem seconds_buffer_holds_two_digits (hh mm ss : Z) (w : NtpClock.World) :
  0 <= hh < 256 -> 0 <= mm < 256 -> 0 <= ss < 256 ->
  (exists w', NtpClock.drawTimeDisplay hh mm ss w = Some (tt, w')) <->
  ss < 100.
Proof.
  intros Hh Hm Hs. split.
  - intros (w' & E). destruct (Z.lt_ge_cases ss 100) as [|Hbig]; [assumption|].
    exfalso. destruct w as [c s tg wd lp ic n t].
    unfold NtpClock.drawTimeDisplay in E. ntp in E.
    rewrite sprintf_fits in E.
    2:{ rewrite !string_length_app, (fmt_02d_uint8 hh Hh),
          (fmt_02d_uint8 mm Hm).
        cbn [String.length]. destruct (hh <? 100), (mm <? 100); cbn; lia. }
    rewrite sprintf_overflows in E; [discriminate|].
    rewrite !string_length_app, fmt_02d_uint8 by lia.
    replace (ss <? 100) with false by (symmetry; apply Z.ltb_ge; lia).
    cbn. lia.
  - intros Hlt. destruct (drawTimeDisplay_run hh mm ss w) as (evs & E);
      try lia.
    eexists. exact E.
Qed.

Lemma seconds_buffer_holds_two_digits_witness :
  (exists w', NtpClock.drawTimeDisplay 23 59 59 power_on = Some (tt, w')) <->
  59 < 100.
Proof.
  apply (seconds_buffer_holds_two_digits 23 59 59 power_on); lia.
Defined.

(** *** The info bar *)

Lemma info_bars_app (evs more : list NtpClock.Out) :
  info_bars (evs ++ more) = (info_bars evs + info_bars more)%nat.
Proof.
  induction evs as [|e evs IH]; [reflexivity|].
  destruct e as [g| | | | |]; cbn [info_bars app]; try exact IH.
  destruct g; try exact IH.
  destruct ((x =? NtpClock.INFO_BAR_X) && (y =? NtpClock.INFO_BAR_Y));
    [rewrite IH; reflexivity|exact IH].
Qed.

Lemma uptime_fields (d : Z) :
  0 <= d < 2 ^ 32 ->
  let uptime := Z.quot d 1000 in
  NtpClock.uint16 (Z.quot uptime 3600) = d / 1000 / 3600 /\
  NtpClock.uint8 (Z.quot (Z.rem uptime 3600) 60) = (d / 1000 / 60) mod 60 /\
  0 <= d / 1000 / 3600 <= 1193 /\
  0 <= (d / 1000 / 60) mod 60 < 60.
Proof.
  intros Hd. cbv zeta.
  rewrite (Z.quot_div_nonneg d 1000) by lia.
  assert (Hu : 0 <= d / 1000 < 4294968).
  { split; [apply Z.div_pos; lia|]. apply Z.div_lt_upper_bound; lia. }
  set (u := d / 1000) in *.
  rewrite (Z.rem_mod_nonneg u 3600) by lia.
  rewrite (Z.quot_div_nonneg u 3600) by lia.
  rewrite (Z.quot_div_nonneg (u mod 3600) 60)
    by (try apply Z.mod_pos_bound; lia).
  assert (Hh : 0 <= u / 3600 <= 1193).
  { split; [apply Z.div_pos; lia|].
    apply Z.lt_succ_r. apply Z.div_lt_upper_bound; lia. }
  assert (Hm : u mod 3600 / 60 = (u / 60) mod 60).
  { clear. Z.div_mod_to_equations. lia. }
  assert (Hm' : 0 <= (u / 60) mod 60 < 60) by (apply Z.mod_pos_bound; lia).
  unfold NtpClock.uint16, NtpClock.uint8. rewrite Hm.
  rewrite !Z.mod_small by lia. auto.
Qed.

Lemma drawInfoBar_run (w : NtpClock.World) :
  0 <= NtpClock.linkSpeed (NtpClock.state w) < 2 ^ 16 ->
  exists evs,
    NtpClock.drawInfoBar w = Some (tt, and_then w evs) /\
    info_bars evs = 1%nat /\
    In (NtpClock.Sprite
          (NtpClock.DrawString
             (uptime_text
                (sub32 (NtpClock.now w)
                       (NtpClock.bootTime (NtpClock.state w)) / 1000))
             24 14 1)) evs /\
    (NtpClock.ntpSynced (NtpClock.state w) = true ->
     In (NtpClock.Sprite (NtpClock.DrawString "SYNCED" 24 52 1)) evs).
Proof.
  destruct w as [c s tg wd lp ic n t].
  destruct s as [eth cfg syn lh lm ls ld bt lst lra ra sq spd ib].
  cbn [NtpClock.now NtpClock.state NtpClock.bootTime NtpClock.linkSpeed
       NtpClock.ntpSynced].
  intros Hspd.
  destruct (uptime_fields (sub32 c bt) (sub32_nonneg c bt))
    as (Hh & Hm & Hhb & Hmb).
  cbv zeta in Hh, Hm.
  unfold NtpClock.drawInfoBar. ntp. rewrite Hh, Hm.
  unfold uptime_text. cbv zeta.
  set (h := sub32 c bt / 1000 / 3600) in *.
  set (m := (sub32 c bt / 1000 / 60) mod 60) in *.
  pose proof (fmt_d_hours h ltac:(lia)) as Lh.
  pose proof (fmt_d_mins m ltac:(lia)) as Lm.
  pose proof (fmt_d_uint16 spd ltac:(lia)) as Ls.
  assert (F1 : forall w0,
             NtpClock.sprintf 12
               (NtpClock.fmt_d h ++ "h " ++ NtpClock.fmt_d m ++ "m") w0
             = Some ((NtpClock.fmt_d h ++ "h " ++ NtpClock.fmt_d m ++ "m")
                       %string, w0)).
  { intros w0. apply sprintf_fits. rewrite !string_length_app. cbn. lia. }
  assert (F2 : forall w0,
             NtpClock.sprintf 12 (NtpClock.fmt_d h ++ "h") w0
             = Some ((NtpClock.fmt_d h ++ "h")%string, w0)).
  { intros w0. apply sprintf_fits. rewrite !string_length_app. cbn. lia. }
  assert (F3 : forall w0,
             NtpClock.sprintf 16 (NtpClock.fmt_d spd ++ "mb/s") w0
             = Some ((NtpClock.fmt_d spd ++ "mb/s")%string, w0)).
  { intros w0. apply sprintf_fits. rewrite !string_length_app. cbn. lia. }
  destruct (h <? 100); rewrite ?F1, ?F2; ntp;
    destruct eth, syn; ntp; cbv beta iota delta [andb];
    try destruct (0 <? spd); rewrite ?F3; ntp;
    rewrite <- !app_assoc; cbn [app];
    (eexists; split; [reflexivity|]);
    (split; [reflexivity|]);
    (split; [|intros Hsyn; try discriminate Hsyn]);
    cbn [In]; repeat (first [left; reflexivity | right]).
Qed.

(** X20. [drawInfoBar()] shows the exact uptime.  With [linkSpeed] in the
    range of its [uint16_t], it returns without overrunning [uptimeStr[12]]
    or [speedStr[16]]; the narrowing of the hours to [uint16_t] and of the
    minutes to [uint8_t] loses nothing, since the 32-bit millisecond count
    gives at most 1193 hours; and the text drawn is the whole hours and the
    minutes of the seconds since [bootTime], the minutes being left out from
    100 hours on. *)
Theorem info_bar_shows_exact_uptime (w : NtpClock.World) :
  0 <= NtpClock.linkSpeed (NtpClock.state w) < 2 ^ 16 ->
  let secs :=
    sub32 (NtpClock.now w) (NtpClock.bootTime (NtpClock.state w)) / 1000 in
  exists evs,
    NtpClock.drawInfoBar w = Some (tt, and_then w evs) /\
    In (NtpClock.Sprite (NtpClock.DrawString (uptime_text secs) 24 14 1))
       evs /\
    secs / 3600 <= 1193.
Proof.
  intros Hspd secs. destruct (drawInfoBar_run w Hspd) as (evs & E & _ & Hin & _).
  exists evs. split; [exact E|]. split; [exact Hin|].
  apply (uptime_fields _ (sub32_nonneg _ _)).
Qed.

Lemma info_bar_shows_exact_uptime_witness :
  exists evs,
    NtpClock.drawInfoBar (later 3725000 power_on)
    = Some (tt, and_then (later 3725000 power_on) evs) /\
    In (NtpClock.Sprite (NtpClock.DrawString "1h 2m" 24 14 1)) evs /\
    3725 / 3600 <= 1193.
Proof.
  apply (info_bar_shows_exact_uptime (later 3725000 power_on)).
  cbn. lia.
Defined.

Lemma drawBottomBar_run (env : NtpClock.Env) (w : NtpClock.World) :
  exists evs,
    NtpClock.drawBottomBar env w = Some (tt, and_then w evs) /\
    info_bars evs = 0%nat.
Proof.
  destruct w as [c s tg wd lp ic n t].
  destruct s as [eth cfg syn lh lm ls ld bt lst lra ra sq spd ib].
  unfold NtpClock.drawBottomBar. ntp.
  destruct eth; rewrite <- !app_assoc; cbn [app];
    (eexists; split; reflexivity).
Qed.

Lemma infoUpdate_run (env : NtpClock.Env) (w : NtpClock.World) :
  0 <= NtpClock.linkSpeed (NtpClock.state w) < 2 ^ 16 ->
  0 <= NtpClock.infoUpdateCounter w <= 10 ->
  exists evs,
    NtpClock.infoUpdate env w
    = Some (tt,
            NtpClock.mkWorld (NtpClock.now w) (NtpClock.state w)
              (NtpClock.targetTime w) (NtpClock.lastWatchdogReset w)
              (NtpClock.lastProgress w)
              (if 10 <=? NtpClock.infoUpdateCounter w then 0
               else NtpClock.infoUpdateCounter w + 1)
              (NtpClock.time_calls w) (NtpClock.trace w ++ evs)) /\
    info_bars evs
    = if 10 <=? NtpClock.infoUpdateCounter w then 1%nat else 0%nat.
Proof.
  intros Hspd Hic. unfold NtpClock.infoUpdate.
  destruct w as [c s tg wd lp ic n t].
  cbn [NtpClock.now NtpClock.state NtpClock.targetTime
       NtpClock.lastWatchdogReset NtpClock.lastProgress
       NtpClock.infoUpdateCounter NtpClock.time_calls NtpClock.trace] in *.
  unfold NtpClock.bind at 1. unfold NtpClock.global at 1.
  cbn [NtpClock.infoUpdateCounter].
  unfold NtpClock.bind at 1. unfold NtpClock.set_infoUpdateCounter at 1.
  cbn [NtpClock.now NtpClock.state NtpClock.targetTime
       NtpClock.lastWatchdogReset NtpClock.lastProgress
       NtpClock.infoUpdateCounter NtpClock.time_calls NtpClock.trace].
  destruct (10 <=? ic) eqn:Eten.
  - match goal with
    | |- exists _, NtpClock.bind _ _ ?w1 = _ /\ _ =>
        destruct (drawInfoBar_run w1 Hspd) as (e1 & E1 & H1 & _ & _)
    end.
    rewrite (ntp_bind_run _ E1).
    match goal with
    | |- exists _, NtpClock.bind _ _ ?w1 = _ /\ _ =>
        destruct (drawBottomBar_run env w1) as (e2 & E2 & H2)
    end.
    rewrite (ntp_bind_run _ E2).
    exists (e1 ++ e2)%list. split.
    + unfold and_then, NtpClock.set_infoUpdateCounter.
      cbn [NtpClock.now NtpClock.state NtpClock.targetTime
           NtpClock.lastWatchdogReset NtpClock.lastProgress
           NtpClock.infoUpdateCounter NtpClock.time_calls NtpClock.trace].
      rewrite <- app_assoc. reflexivity.
    + rewrite info_bars_app, H1, H2. reflexivity.
  - exists []. split; [|reflexivity].
    unfold NtpClock.ret, incr8. rewrite app_nil_r.
    apply Z.leb_gt in Eten. rewrite Z.mod_small by lia. reflexivity.
Qed.

Lemma ticks_run (env : NtpClock.Env) (n : nat) :
  forall (k : nat) (w : NtpClock.World),
    0 <= NtpClock.linkSpeed (NtpClock.state w) < 2 ^ 16 ->
    (k <= 10)%nat ->
    NtpClock.infoUpdateCounter w = Z.of_nat k ->
    exists w1,
      NtpClock.times n (NtpClock.infoUpdate env) w = Some (tt, w1) /\
      NtpClock.infoUpdateCounter w1 = Z.of_nat ((k + n) mod 11) /\
      info_bars (NtpClock.trace w1)
      = (info_bars (NtpClock.trace w) + (k + n) / 11)%nat.
Proof.
  induction n as [|n IH]; intros k w Hspd Hk Hic.
  - exists w. split; [reflexivity|].
    rewrite Nat.add_0_r, Nat.mod_small, Nat.div_small by lia.
    split; [exact Hic|lia].
  - cbn [NtpClock.times].
    destruct (infoUpdate_run env w Hspd ltac:(lia)) as (evs & E & Hbars).
    rewrite (ntp_bind_run _ E). rewrite Hic in *.
    destruct (10 <=? Z.of_nat k) eqn:Eten.
    + apply Z.leb_le in Eten. assert (k = 10%nat) by lia. subst k.
      match goal with
      | |- exists _, NtpClock.times _ _ ?w1 = _ /\ _ =>
          destruct (IH 0%nat w1 Hspd ltac:(lia) eq_refl)
            as (w2 & E2 & Hc2 & Hb2)
      end.
      exists w2. split; [exact E2|].
      cbn [NtpClock.trace] in Hb2. rewrite info_bars_app, Hbars in Hb2.
      replace (10 + S n)%nat with (n + 1 * 11)%nat by lia.
      rewrite Nat.Div0.mod_add, Nat.div_add by lia.
      cbn [Nat.add] in Hc2, Hb2. split; [exact Hc2|lia].
    + apply Z.leb_gt in Eten.
      match goal with
      | |- exists _, NtpClock.times _ _ ?w1 = _ /\ _ =>
          destruct (IH (S k) w1 Hspd ltac:(lia)
                      ltac:(cbn [NtpClock.infoUpdateCounter]; lia))
            as (w2 & E2 & Hc2 & Hb2)
      end.
      exists w2. split; [exact E2|].
      cbn [NtpClock.trace] in Hb2. rewrite info_bars_app, Hbars in Hb2.
      replace (k + S n)%nat with (S k + n)%nat by lia.
      split; [exact Hc2|lia].
Qed.

(** X21. The info bar is redrawn on every eleventh tick, not every tenth:
    [infoUpdateCounter++ >= 10] compares the value before the increment.
    Starting from a counter of 0, after [n] runs of the block the counter
    is [n mod 11] and the info bar has been pushed [n / 11] times. *)
Theorem info_bar_is_redrawn_every_eleventh_tick
    (env : NtpClock.Env) (n : nat) (w : NtpClock.World) :
  0 <= NtpClock.linkSpeed (NtpClock.state w) < 2 ^ 16 ->
  NtpClock.infoUpdateCounter w = 0 ->
  exists w1,
    NtpClock.times n (NtpClock.infoUpdate env) w = Some (tt, w1) /\
    NtpClock.infoUpdateCounter w1 = Z.of_nat (n mod 11) /\
    info_bars (NtpClock.trace w1)
    = (info_bars (NtpClock.trace w) + n / 11)%nat.
Proof.
  intros Hspd Hic.
  exact (ticks_run env n 0%nat w Hspd ltac:(lia) Hic).
Qed.

Lemma info_bar_is_redrawn_every_eleventh_tick_witness :
  exists w1,
    NtpClock.times 11 (NtpClock.infoUpdate no_network) power_on
    = Some (tt, w1) /\
    NtpClock.infoUpdateCounter w1 = 0 /\
    info_bars (NtpClock.trace w1) = 1%nat.
Proof.
  apply (info_bar_is_redrawn_every_eleventh_tick no_network 11 power_on).
  - cbn. lia.
  - reflexivity.
Defined.

(** *** The sync label *)

(** X22. Nothing ever clears [ntpSynced].  Once set it stays set through
    every pass of [loop()] that returns and through every event, also when
    the time is lost and [timeConfigured] is cleared or when the link goes
    down, and [drawInfoBar()] goes on showing SYNCED. *)
Theorem sync_label_is_never_withdrawn
    (env : NtpClock.Env) (acts : list NtpClock.Activity)
    (w w1 : NtpClock.World) :
  NtpClock.ntpSynced (NtpClock.state w) = true ->
  0 <= NtpClock.linkSpeed (NtpClock.state w) < 2 ^ 16 ->
  NtpClock.run env acts w = Some (tt, w1) ->
  NtpClock.ntpSynced (NtpClock.state w1) = true /\
  exists evs,
    NtpClock.drawInfoBar w1 = Some (tt, and_then w1 evs) /\
    In (NtpClock.Sprite (NtpClock.DrawString "SYNCED" 24 52 1)) evs.
Proof.
  intros Hsyn Hspd E.
  assert (Hsyn1 : synced w1).
  { exact (run_keeps env synced (loop_keeps_synced env)
             (WiFiEvent_keeps_synced env) acts w tt w1 Hsyn E). }
  assert (Hspd1 : speed_typed w1).
  { exact (run_keeps env speed_typed (loop_keeps_speed env)
             (WiFiEvent_keeps_speed env) acts w tt w1 Hspd E). }
  split; [exact Hsyn1|].
  destruct (drawInfoBar_run w1 Hspd1) as (evs & Ed & _ & _ & Hin).
  exists evs. split; [exact Ed|exact (Hin Hsyn1)].
Qed.

Lemma sync_label_is_never_withdrawn_witness :
  exists w1,
    NtpClock.run no_network
      [NtpClock.Pass; NtpClock.Callback NtpClock.ARDUINO_EVENT_ETH_STOP]
      (at_clock 2000 1500 synced_state) = Some (tt, w1) /\
    NtpClock.timeConfigured (NtpClock.state w1) = false /\
    NtpClock.ntpSynced (NtpClock.state w1) = true /\
    exists evs,
      NtpClock.drawInfoBar w1 = Some (tt, and_then w1 evs) /\
      In (NtpClock.Sprite (NtpClock.DrawString "SYNCED" 24 52 1)) evs.
Proof.
  eexists. split; [lazy; reflexivity|]. split; [reflexivity|].
  apply (sync_label_is_never_withdrawn no_network
           [NtpClock.Pass; NtpClock.Callback NtpClock.ARDUINO_EVENT_ETH_STOP]
           (at_clock 2000 1500 synced_state)).
  - reflexivity.
  - cbn. lia.
  - reflexivity.
Defined.

(** *** The one-second tick at the clock's rollover *)

Lemma displayUpdate_sets_target (env : NtpClock.Env) (c : Z) :
  hoare (fun w => NtpClock.now w = c) (NtpClock.displayUpdate env)
        (fun w => NtpClock.targetTime w = (c + 1000) mod 2 ^ 32).
Proof.
  unfold NtpClock.displayUpdate. unfold NtpClock.millis at 1.
  apply hoare_read. intros v (w0 & Hw0 & <-). cbn beta in Hw0.
  rewrite Hw0.
  apply (hoare_bind _ (fun w => NtpClock.targetTime w = (c + 1000) mod 2 ^ 32)).
  - intros [] a w' _ E. ntp in E. injection E as _ <-. reflexivity.
  - intros _. open_sketch.
    assert (Hsync : forall n,
               hoare (fun w => NtpClock.targetTime w = (c + 1000) mod 2 ^ 32)
                     (NtpClock.syncTime_loop env n)
                     (fun w => NtpClock.targetTime w = (c + 1000) mod 2 ^ 32)).
    { induction n as [|n IH]; cbn [NtpClock.syncTime_loop]; open_sketch;
        repeat hoare_step ltac:(exact IH). }
    repeat hoare_step ltac:(apply Hsync).
Qed.

(** The facts that a read brings along, for a precondition of three
    equations. *)
Ltac read_facts :=
  repeat match goal with
         | H : exists w, _ /\ _ = ?v |- _ =>
             let w0 := fresh "w" in
             let Hc := fresh "Hc" in
             let Ht := fresh "Ht" in
             let He := fresh "He" in
             let Hv := fresh "Hv" in
             destruct H as (w0 & (Hc & Ht & He) & Hv);
             cbn beta in Hc, Ht, He;
             try rewrite Hc in Hv; try rewrite Ht in Hv;
             try rewrite He in Hv; subst v; clear Hc Ht He
         end.

Lemma loop_sets_target (env : NtpClock.Env) (c tg : Z) :
  tg < c ->
  hoare (fun w => NtpClock.now w = c /\ NtpClock.targetTime w = tg /\
                  NtpClock.ethConnected (NtpClock.state w) = false)
        (NtpClock.loop env)
        (fun w => NtpClock.targetTime w = (c + 1000) mod 2 ^ 32).
Proof.
  intros Hdue.
  unfold NtpClock.loop, NtpClock.attemptReconnect, NtpClock.checkTimeSync,
    NtpClock.get, NtpClock.millis, NtpClock.global.
  repeat first
    [ match goal with
      | |- hoare _ (NtpClock.bind (if _ <? _ then NtpClock.displayUpdate _
                                   else _) _) _ =>
          apply (hoare_bind _ (fun w => NtpClock.targetTime w
                                        = (c + 1000) mod 2 ^ 32))
      | |- hoare _ (if ?tg' <? ?c' then NtpClock.displayUpdate _ else _) _ =>
          destruct (tg' <? c') eqn:Etick;
          [ apply (hoare_weaken (fun w => NtpClock.now w = c));
            [intros ? (? & _); assumption
            |apply displayUpdate_sets_target]
          | apply Z.ltb_ge in Etick; lia ]
      | |- forall _ : unit, _ => intros _
      end
    | progress read_facts
    | progress cbn [negb andb]
    | hoare_step ltac:(fail) ].
Qed.

(** X23. The one-second tick compares [targetTime < millis()] without
    regard to the rollover.  When the tick is due in the last second before
    the 32-bit clock rolls over, [targetTime = millis() + 1000] wraps: after
    the pass [targetTime] is 2^32 ms less than the sum, and if the clock has
    not rolled over by the end of the pass the tick is due again at once,
    so the display is redrawn on every pass until the rollover.  Stated for
    a pass with the link down, where nothing before the tick takes time. *)
Theorem tick_is_due_on_every_pass_before_rollover
    (env : NtpClock.Env) (w w1 : NtpClock.World) :
  NtpClock.ethConnected (NtpClock.state w) = false ->
  NtpClock.targetTime w < NtpClock.now w ->
  2 ^ 32 - 1000 <= NtpClock.now w < 2 ^ 32 ->
  NtpClock.loop env w = Some (tt, w1) ->
  NtpClock.now w <= NtpClock.now w1 ->
  NtpClock.targetTime w1 = NtpClock.now w + 1000 - 2 ^ 32 /\
  NtpClock.targetTime w1 < NtpClock.now w1.
Proof.
  intros Heth Hdue Hc E Hnowrap.
  assert (Ht : NtpClock.targetTime w1 = (NtpClock.now w + 1000) mod 2 ^ 32).
  { apply (loop_sets_target env (NtpClock.now w) (NtpClock.targetTime w)
             Hdue w tt w1); auto. }
  assert (Hm : (NtpClock.now w + 1000) mod 2 ^ 32
               = NtpClock.now w + 1000 - 2 ^ 32).
  { symmetry. apply (Z.mod_unique_pos _ _ 1); lia. }
  rewrite Hm in Ht. split; [exact Ht|lia].
Qed.

Lemma tick_is_due_on_every_pass_before_rollover_witness :
  exists w1,
    NtpClock.loop no_network (at_clock (2 ^ 32 - 500) 0 NtpClock.initial_state)
    = Some (tt, w1) /\
    NtpClock.targetTime w1 = 2 ^ 32 - 500 + 1000 - 2 ^ 32 /\
    NtpClock.targetTime w1 < NtpClock.now w1.
Proof.
  eexists. split; [lazy; reflexivity|].
  apply (tick_is_due_on_every_pass_before_rollover no_network
           (at_clock (2 ^ 32 - 500) 0 NtpClock.initial_state)).
  - reflexivity.
  - reflexivity.
  - cbn. lia.
  - reflexivity.
  - cbn. lia.
Defined.

(** X24. A pass before the tick is due leaves the display alone.  With
    [targetTime] not yet passed and no resync due, [loop()] returns, makes
    no call on the sprite, leaves [targetTime] as it is and ends 10 ms
    later.  If these 10 ms take the clock over its rollover, the tick that
    was at most 10 ms away is now at least 2^32 - 20 ms away. *)
Theorem pass_before_the_tick_leaves_the_display
    (env : NtpClock.Env) (w : NtpClock.World) :
  NtpClock.now w <= NtpClock.targetTime w ->
  (NtpClock.ethConnected (NtpClock.state w) = true ->
   NtpClock.timeConfigured (NtpClock.state w) = true ->
   sub32 (NtpClock.now w) (NtpClock.lastSyncTime (NtpClock.state w))
   <= NtpClock.RESYNC_INTERVAL) ->
  exists w1 evs,
    NtpClock.loop env w = Some (tt, w1) /\
    NtpClock.trace w1 = NtpClock.trace w ++ evs /\
    sprites_of evs = [] /\
    NtpClock.targetTime w1 = NtpClock.targetTime w /\
    NtpClock.now w1 = (NtpClock.now w + 10) mod 2 ^ 32 /\
    (NtpClock.now w < 2 ^ 32 <= NtpClock.now w + 10 ->
     2 ^ 32 - 20 <= NtpClock.targetTime w1 - NtpClock.now w1).
Proof.
  destruct w as [c s tg wd lp ic n t].
  destruct s as [eth cfg syn lh lm ls ld bt lst lra ra sq spd ib].
  cbn [NtpClock.now NtpClock.state NtpClock.targetTime NtpClock.trace
       NtpClock.ethConnected NtpClock.timeConfigured NtpClock.lastSyncTime].
  intros Hidle Hfresh.
  assert (Etick : (tg <? c) = false) by (apply Z.ltb_ge; lia).
  assert (Ewrap : c < 2 ^ 32 <= c + 10 ->
                  2 ^ 32 - 20 <= tg - (c + 10) mod 2 ^ 32).
  { intros Hw. replace ((c + 10) mod 2 ^ 32) with (c + 10 - 2 ^ 32); [lia|].
    apply (Z.mod_unique_pos _ _ 1); lia. }
  unfold NtpClock.loop, NtpClock.attemptReconnect, NtpClock.checkTimeSync.
  ntp.
  destruct (5000 <? sub32 c wd); ntp;
    destruct eth; cbv beta iota delta [negb andb]; ntp;
    try destruct (NtpClock.RECONNECT_DELAY <? sub32 c lra); ntp;
    try destruct cfg; ntp;
    try (replace (NtpClock.RESYNC_INTERVAL <? sub32 c lst) with false
           by (symmetry; apply Z.ltb_ge; auto));
    ntp; rewrite Etick; ntp;
    (eexists; eexists; split; [reflexivity|]);
    cbn [NtpClock.now NtpClock.targetTime NtpClock.trace];
    (split; [rewrite <- ?app_assoc; cbn [app];
             first [reflexivity | symmetry; apply app_nil_r]|]);
    (split; [reflexivity|]); auto.
Qed.

Lemma pass_before_the_tick_leaves_the_display_witness :
  exists w1 evs,
    NtpClock.loop no_network
      (at_clock (2 ^ 32 - 5) (2 ^ 32 - 2) NtpClock.initial_state)
    = Some (tt, w1) /\
    NtpClock.trace w1 = [] ++ evs /\
    sprites_of evs = [] /\
    NtpClock.targetTime w1 = 2 ^ 32 - 2 /\
    NtpClock.now w1 = (2 ^ 32 - 5 + 10) mod 2 ^ 32 /\
    (2 ^ 32 - 5 < 2 ^ 32 <= 2 ^ 32 - 5 + 10 ->
     2 ^ 32 - 20 <= NtpClock.targetTime w1 - NtpClock.now w1).
Proof.
  apply (pass_before_the_tick_leaves_the_display no_network
           (at_clock (2 ^ 32 - 5) (2 ^ 32 - 2) NtpClock.initial_state)).
  - cbn. lia.
  - intros H. discriminate H.
Defined.

(** *** No buffer is overrun *)

Lemma returns_ret {A : Type} (P : NtpClock.World -> Prop) (a : A) :
  returns P (NtpClock.ret a).
Proof. intros w H. exists a, w. split; [reflexivity|exact H]. Qed.

Lemma returns_bind {A B : Type} (P : NtpClock.World -> Prop)
    (m : NtpClock.Prog A) (f : A -> NtpClock.Prog B) :
  returns P m -> (forall a, returns P (f a)) ->
  returns P (NtpClock.bind m f).
Proof.
  intros Hm Hf w H. destruct (Hm w H) as (a & w1 & E1 & H1).
  destruct (Hf a w1 H1) as (b & w2 & E2 & H2).
  exists b, w2. split; [|exact H2].
  rewrite (ntp_bind_run _ E1). exact E2.
Qed.

Lemma returns_read {A B : Type} (P : NtpClock.World -> Prop)
    (rd : NtpClock.World -> A) (k : A -> NtpClock.Prog B) :
  (forall v, returns P (k v)) ->
  returns P (NtpClock.bind (fun w => Some (rd w, w)) k).
Proof. intros Hk w H. exact (Hk (rd w) w H). Qed.

Lemma returns_for_range (P : NtpClock.World -> Prop)
    (body : Z -> NtpClock.Prog unit) :
  (forall i, returns P (body i)) ->
  forall n lo, returns P (NtpClock.for_range lo n body).
Proof.
  intros Hb. induction n as [|n IH]; intros lo.
  - apply returns_ret.
  - cbn [NtpClock.for_range]. apply returns_bind; [apply Hb|].
    intros _. apply IH.
Qed.

Lemma returns_getLocalTime {B : Type} (env : NtpClock.Env)
    (k : option NtpClock.tm -> NtpClock.Prog B) :
  (forall n, returns speed_typed (k (NtpClock.localTime env n))) ->
  returns speed_typed (NtpClock.bind (NtpClock.getLocalTime env) k).
Proof.
  intros Hk [c s tg wd lp ic n t] H.
  unfold NtpClock.bind, NtpClock.getLocalTime.
  cbn [NtpClock.now NtpClock.state NtpClock.targetTime
       NtpClock.lastWatchdogReset NtpClock.lastProgress
       NtpClock.infoUpdateCounter NtpClock.time_calls NtpClock.trace].
  apply (Hk n). exact H.
Qed.

Lemma returns_drawInfoBar : returns speed_typed NtpClock.drawInfoBar.
Proof.
  intros w H. destruct (drawInfoBar_run w H) as (evs & E & _).
  exists tt, (and_then w evs). split; [exact E|exact H].
Qed.

Lemma returns_drawTimeDisplay (hh mm ss : Z) :
  NtpClock.uint8 ss < 100 ->
  returns speed_typed
    (NtpClock.drawTimeDisplay (NtpClock.uint8 hh) (NtpClock.uint8 mm)
                              (NtpClock.uint8 ss)).
Proof.
  intros Hss w H.
  assert (U : forall z, 0 <= NtpClock.uint8 z < 256).
  { intros z. unfold NtpClock.uint8. apply Z.mod_pos_bound. lia. }
  destruct (drawTimeDisplay_run (NtpClock.uint8 hh) (NtpClock.uint8 mm)
              (NtpClock.uint8 ss) w (U hh) (U mm))
    as (evs & E); [pose proof (U ss); lia|].
  exists tt, (and_then w evs). split; [exact E|exact H].
Qed.

(** An effect or an assignment that cannot fail. *)
Ltac returns_prim :=
  let w := fresh "w" in
  let H := fresh "H" in
  intros w H; destruct w; eexists _, _; split; [reflexivity|exact H].

Ltac returns_step known :=
  lazymatch goal with
  | |- returns _ (NtpClock.ret _) => apply returns_ret
  | |- returns _ (NtpClock.bind (fun w => Some (_, w)) _) =>
      apply returns_read; intros ?
  | |- returns _ (NtpClock.bind (NtpClock.getLocalTime _) _) =>
      apply returns_getLocalTime; intros ?
  | |- returns _ (NtpClock.bind _ _) => apply returns_bind; [|intros ?]
  | |- returns _ (NtpClock.for_range _ _ _) =>
      apply returns_for_range; intros ?
  | |- returns _ NtpClock.drawInfoBar => apply returns_drawInfoBar
  | |- returns _ (NtpClock.drawTimeDisplay _ _ _) =>
      apply returns_drawTimeDisplay; known
  | |- returns _ (NtpClock.syncTime_loop _ _) => known
  | |- returns _ (if ?b then _ else _) => destruct b eqn:?
  | |- returns _ (match ?x with _ => _ end) => destruct x eqn:?
  | |- returns _ _ => returns_prim
  end.

(** The sketch's functions but the two that format numbers. *)
Ltac open_sketch_to_sprintf :=
  unfold NtpClock.loop, NtpClock.displayUpdate, NtpClock.infoUpdate,
    NtpClock.attemptReconnect, NtpClock.checkTimeSync, NtpClock.syncTime,
    NtpClock.drawStatusBar, NtpClock.drawConnectionIcon,
    NtpClock.drawStatusLED, NtpClock.drawDateDisplay,
    NtpClock.drawBottomBar, NtpClock.drawStatusArea,
    NtpClock.get, NtpClock.millis, NtpClock.global.

Lemma returns_syncTime_loop (env : NtpClock.Env) (n : nat) :
  returns speed_typed (NtpClock.syncTime_loop env n).
Proof.
  induction n as [|n IH]; cbn [NtpClock.syncTime_loop];
    open_sketch_to_sprintf; repeat returns_step ltac:(exact IH).
Qed.

Lemma returns_loop (env : NtpClock.Env) :
  (forall n t, NtpClock.localTime env n = Some t ->
               NtpClock.uint8 (NtpClock.tm_sec t) < 100) ->
  returns speed_typed (NtpClock.loop env).
Proof.
  intros Hsec. open_sketch_to_sprintf.
  repeat returns_step
    ltac:(first [ apply returns_syncTime_loop
                | eapply Hsec; eassumption ]).
Qed.

(** X25. The sketch never overruns a text buffer.  As long as every time
    that [getLocalTime] reports has its seconds below 100 and [linkSpeed]
    starts in the range of [uint16_t], every sequence of [loop()] passes and
    events returns: each [sprintf] into [timeStr], [secStr], [uptimeStr] and
    [speedStr] fits. *)
Theorem sketch_never_overruns_a_buffer
    (env : NtpClock.Env) (acts : list NtpClock.Activity)
    (w : NtpClock.World) :
  (forall n t, NtpClock.localTime env n = Some t ->
               NtpClock.uint8 (NtpClock.tm_sec t) < 100) ->
  0 <= NtpClock.linkSpeed (NtpClock.state w) < 2 ^ 16 ->
  exists w1, NtpClock.run env acts w = Some (tt, w1).
Proof.
  intros Hsec. revert w.
  induction acts as [|[|event] rest IH]; intros w Hw; cbn [NtpClock.run].
  - exists w. reflexivity.
  - destruct (returns_loop env Hsec w Hw) as ([] & w1 & E1 & Hw1).
    rewrite (ntp_bind_run _ E1). exact (IH w1 Hw1).
  - destruct (WiFiEvent_run env event w) as (w1 & E1 & _).
    rewrite (ntp_bind_run _ E1). apply IH.
    exact (WiFiEvent_keeps_speed env event w tt w1 Hw E1).
Qed.

Lemma sketch_never_overruns_a_buffer_witness :
  exists w1,
    NtpClock.run (time_after 0 (NtpClock.mk_tm 12 34 56))
      [NtpClock.Callback NtpClock.ARDUINO_EVENT_ETH_GOT_IP; NtpClock.Pass;
       NtpClock.Pass]
      (at_clock 2000 0 NtpClock.initial_state) = Some (tt, w1).
Proof.
  apply (sketch_never_overruns_a_buffer
           (time_after 0 (NtpClock.mk_tm 12 34 56))).
  - intros n t H. cbn in H. injection H as <-. reflexivity.
  - cbn. lia.
Defined.

(** *** A resync that fails *)

(** X26. A periodic resync that fails changes nothing.  When
    [checkTimeSync()] finds the last sync more than [RESYNC_INTERVAL] ms old
    and the next ten [getLocalTime] calls fail, it returns with [state] as
    it was: [lastSyncTime] is not moved, so the resync is due again on the
    next call, and [timeConfigured] and [ntpSynced] stay set. *)
Theorem failed_resync_changes_nothing
    (env : NtpClock.Env) (w : NtpClock.World) :
  NtpClock.ethConnected (NtpClock.state w) = true ->
  NtpClock.timeConfigured (NtpClock.state w) = true ->
  NtpClock.RESYNC_INTERVAL
  < sub32 (NtpClock.now w) (NtpClock.lastSyncTime (NtpClock.state w)) ->
  (forall k, (k < 10)%nat ->
             NtpClock.localTime env (NtpClock.time_calls w + k) = None) ->
  exists w1,
    NtpClock.checkTimeSync env w = Some (tt, w1) /\
    NtpClock.state w1 = NtpClock.state w /\
    NtpClock.time_calls w1 = (NtpClock.time_calls w + 10)%nat /\
    NtpClock.trace w1
    = NtpClock.trace w ++
      [NtpClock.Println "Performing periodic time resync...";
       NtpClock.Println "Time sync failed"].
Proof.
  destruct w as [c s tg wd lp ic n t].
  destruct s as [eth cfg syn lh lm ls ld bt lst lra ra sq spd ib].
  cbn [NtpClock.now NtpClock.state NtpClock.ethConnected
       NtpClock.timeConfigured NtpClock.lastSyncTime NtpClock.time_calls
       NtpClock.trace].
  intros -> -> Hdue Hnone. apply Z.ltb_lt in Hdue.
  unfold NtpClock.checkTimeSync. ntp. cbv beta iota delta [andb].
  rewrite Hdue. unfold NtpClock.syncTime.
  match goal with
  | |- exists _, match NtpClock.syncTime_loop _ _ ?w0 with _ => _ end = _ /\ _ =>
      destruct (syncTime_loop_run env 10 w0) as (b & w1 & E & Hb & _ & Hf & _)
  end.
  cbn [NtpClock.time_calls NtpClock.state NtpClock.trace] in Hb, Hf.
  rewrite E. destruct b.
  - exfalso. destruct (proj1 Hb eq_refl) as (k & Hk & Hsome).
    apply Hsome. apply Hnone. exact Hk.
  - destruct (Hf eq_refl) as (Hs & Hc & Htr).
    exists w1. split; [reflexivity|]. split; [exact Hs|].
    split; [exact Hc|]. rewrite <- app_assoc in Htr. exact Htr.
Qed.

Lemma failed_resync_changes_nothing_witness :
  exists w1,
    NtpClock.checkTimeSync no_network (at_clock 3700000 0 synced_state)
    = Some (tt, w1) /\
    NtpClock.state w1 = synced_state /\
    NtpClock.time_calls w1 = 10%nat /\
    NtpClock.trace w1
    = [NtpClock.Println "Performing periodic time resync...";
       NtpClock.Println "Time sync failed"].
Proof.
  apply (failed_resync_changes_nothing no_network
           (at_clock 3700000 0 synced_state)).
  - reflexivity.
  - reflexivity.
  - vm_compute. reflexivity.
  - intros k _. reflexivity.
Defined.

(** *** The date *)

(** X27. After the first tick [drawDateDisplay()] draws the date only when
    it has changed: it adds no effect exactly when the text that [strftime]
    formats equals [lastDateStr], and in every case it leaves [lastDateStr]
    equal to that text. *)
Theorem date_is_drawn_when_it_changes
    (env : NtpClock.Env) (timeinfo : NtpClock.tm) (w : NtpClock.World) :
  NtpClock.initialBoot (NtpClock.state w) = false ->
  exists w1 evs,
    NtpClock.drawDateDisplay env timeinfo w = Some (tt, w1) /\
    NtpClock.trace w1 = NtpClock.trace w ++ evs /\
    NtpClock.lastDateStr (NtpClock.state w1)
    = NtpClock.strftime_date env timeinfo /\
    (evs = [] <->
     NtpClock.lastDateStr (NtpClock.state w)
     = NtpClock.strftime_date env timeinfo).
Proof.
  destruct w as [c s tg wd lp ic n t].
  destruct s as [eth cfg syn lh lm ls ld bt lst lra ra sq spd ib].
  cbn [NtpClock.state NtpClock.initialBoot NtpClock.lastDateStr
       NtpClock.trace].
  intros ->. unfold NtpClock.drawDateDisplay. ntp.
  destruct (String.eqb (NtpClock.strftime_date env timeinfo) ld) eqn:Esame;
    cbv beta iota delta [negb orb]; ntp.
  - apply String.eqb_eq in Esame. subst ld.
    exists (NtpClock.mkWorld c
              (NtpClock.mkState eth cfg syn lh lm ls
                 (NtpClock.strftime_date env timeinfo) bt lst lra ra sq spd
                 false) tg wd lp ic n t), [].
    split; [reflexivity|]. rewrite app_nil_r. cbn [NtpClock.trace].
    split; [reflexivity|]. split; [reflexivity|]. split; reflexivity.
  - apply String.eqb_neq in Esame.
    eexists _, _. split; [reflexivity|]. cbn [NtpClock.trace].
    rewrite <- !app_assoc. cbn [app].
    split; [reflexivity|]. split; [reflexivity|].
    split; [discriminate|]. intros ->. congruence.
Qed.

Lemma date_is_drawn_when_it_changes_witness :
  exists w1 evs,
    NtpClock.drawDateDisplay no_network (NtpClock.mk_tm 12 0 0)
      (at_clock 2000 1500 synced_state) = Some (tt, w1) /\
    NtpClock.trace w1 = [] ++ evs /\
    NtpClock.lastDateStr (NtpClock.state w1) = EmptyString /\
    (evs = [] <-> "Mon, Nov 02 2026"%string = EmptyString).
Proof.
  apply (date_is_drawn_when_it_changes no_network (NtpClock.mk_tm 12 0 0)
           (at_clock 2000 1500 synced_state)).
  reflexivity.
Defined.

(** *** The boot screen *)

Lemma fill_width_bounds (progress : Z) :
  0 <= progress <= 100 -> 0 <= Z.quot (116 * progress) 100 <= 116.
Proof.
  intros H. rewrite Z.quot_div_nonneg by lia. split.
  - apply Z.div_pos; lia.
  - apply Z.lt_succ_r. apply Z.div_lt_upper_bound; lia.
Qed.

(** X28. [drawBootScreen()] with a progress from 0 to 100 returns with
    [lastProgress] equal to it, clears the screen and draws the title and
    the version line exactly when [lastProgress] was still -1, and fills the
    progress bar, if at all, with a width from 1 to 116 pixels, inside the
    frame of 120. *)
Theorem boot_screen_title_once_and_bar_in_frame
    (message : string) (color progress : Z) (w : NtpClock.World) :
  0 <= progress <= 100 ->
  exists w1 evs,
    NtpClock.drawBootScreen message color progress w = Some (tt, w1) /\
    NtpClock.trace w1 = NtpClock.trace w ++ evs /\
    NtpClock.lastProgress w1 = progress /\
    (screens_of evs = [] <-> NtpClock.lastProgress w <> -1) /\
    forall width,
      In (NtpClock.Sprite
            (NtpClock.FillRoundRect 2 2 width 8 2 NtpClock.COLOR_SUCCESS))
         evs ->
      0 < width <= 116.
Proof.
  intros Hp. pose proof (fill_width_bounds progress Hp) as Hfill.
  destruct w as [c s tg wd lp ic n t].
  cbn [NtpClock.trace NtpClock.lastProgress].
  unfold NtpClock.drawBootScreen. ntp.
  replace (0 <=? progress) with true by (symmetry; apply Z.leb_le; lia).
  assert (Hmul : forall w0,
             NtpClock.int_mul 116 progress w0 = Some (116 * progress, w0)).
  { intros w0. unfold NtpClock.int_mul.
    replace (- 2 ^ 31 <=? 116 * progress) with true
      by (symmetry; apply Z.leb_le; lia).
    replace (116 * progress <? 2 ^ 31) with true
      by (symmetry; apply Z.ltb_lt; lia).
    reflexivity. }
  cbv beta iota delta [andb].
  assert (Hfirst : (lp =? -1) = true \/ ((lp =? -1) = false /\ lp <> -1)).
  { destruct (Z.eqb_spec lp (-1)); auto. }
  assert (Hsame : ((progress =? lp) = true /\ lp = progress) \/
                  (progress =? lp) = false).
  { destruct (Z.eqb_spec progress lp); auto. }
  destruct Hfirst as [Efirst|[Efirst Hlp]];
    destruct Hsame as [[Esame Hsame]|Esame];
    rewrite Efirst, Esame; cbv beta iota delta [negb]; ntp;
    rewrite ?Hmul; ntp;
    set (fillWidth := Z.quot (116 * progress) 100) in *; clearbody fillWidth;
    destruct (Z.ltb_spec 0 fillWidth) as [Hpos|Hpos]; ntp;
    (eexists _, _; split; [reflexivity|]);
    cbn [NtpClock.trace NtpClock.lastProgress];
    rewrite <- ?app_assoc; cbn [app];
    (split; [first [reflexivity | symmetry; apply app_nil_r]|]);
    (split; [first [reflexivity | exact Hsame]|]);
    (split;
     [cbn [screens_of]; split;
      [first [discriminate | intros _; first [exact Hlp | lia]]
      |first [intros _; reflexivity | apply Z.eqb_eq in Efirst; lia]]|]);
    intros width Hin; cbn [In] in Hin;
    repeat (destruct Hin as [Hin|Hin]; try discriminate Hin);
    try contradiction; injection Hin as <-; lia.
Qed.

Lemma boot_screen_title_once_and_bar_in_frame_witness :
  exists w1 evs,
    NtpClock.drawBootScreen "Starting ETH..." NtpClock.COLOR_PRIMARY 25
      power_on = Some (tt, w1) /\
    NtpClock.trace w1 = [] ++ evs /\
    NtpClock.lastProgress w1 = 25 /\
    (screens_of evs = [] <-> -1 <> -1) /\
    forall width,
      In (NtpClock.Sprite
            (NtpClock.FillRoundRect 2 2 width 8 2 NtpClock.COLOR_SUCCESS))
         evs ->
      0 < width <= 116.
Proof.
  apply (boot_screen_title_once_and_bar_in_frame "Starting ETH..."
           NtpClock.COLOR_PRIMARY 25 power_on).
  lia.
Defined.
